(** * petsapp: the relative-date shorthand ([parse] / [stringify])

    A shallow embedding of [src/petsapp/index.ts].

    The program is written against the host's [Date] object.  Its
    arithmetic is the one of ECMA-262, section "Date Objects"
    ([Day], [TimeWithinDay], [YearFromTime], [MakeDay], [MakeDate],
    [TimeClip] and the [setUTC...] methods), which module [JSDate]
    transcribes.

    Numbers: every number the program handles is an integer held in an
    IEEE double (time values, calendar fields, magnitudes); [NaN] is [None].
    A double holds every integer up to 2^53 in magnitude, and beyond that
    the nearest integer with 53 significant bits: [rnd] is that rounding,
    and the operators of the program ([+], [-], [*], [Math.floor(a / b)],
    [parseInt]) and [MakeTime] round their results with it.  Rounding shows
    in two places: in the time of day that [setUTCHours], [setUTCMinutes]
    and [setUTCSeconds] compute for a magnitude of 2^53 ms or more, and in
    the difference of two time values more than 2^53 ms (285 000 years)
    apart.

    Mutation: [applyAdjustment] and [applyRounding] mutate the [Date] they
    are given; here they return the new [Date].

    Clock: [new Date()] and [Date.now()] read the host's clock; the reading
    is the explicit argument [now] of [parse] and [stringify]. *)

From Stdlib Require Import ZArith Lia List Bool Ascii String.
From Stdlib Require Import DecimalString DecimalPos.
Import ListNotations.
Local Open Scope Z_scope.

(** ** The host's [Date] arithmetic (ECMA-262) *)

Module JSDate.

(** *** Integers in doubles *)

Definition two53 : Z := 9007199254740992.

(** The integer nearest to [n / d], for [d > 0]; of two that are equally
    near, the even one. *)
Definition roundDiv (n d : Z) : Z :=
  let q := n / d in
  let r := n mod d in
  if 2 * r <? d then q
  else if d <? 2 * r then q + 1
  else if Z.even q then q else q + 1.

(** The double nearest to the integer [z]: [z] itself up to 2^53, and for a
    magnitude from [2^(52+e)] the nearest multiple of [2^e], the one with
    the even significand of two that are equally near.  (A double has no
    magnitude from 2^1024; the host's infinity stands there.  Every setter
    answers NaN to an infinite argument, as it does to a finite one of that
    size, which [TimeClip] refuses.) *)
Definition rnd (z : Z) : Z :=
  let e := Z.log2 (Z.abs z) - 52 in
  if e <=? 0 then z else roundDiv z (2 ^ e) * 2 ^ e.

(** [floor(log2(|n| / d))] for [n <> 0] and [d > 0]: the exponent of the
    quotient. *)
Definition quotientExponent (n d : Z) : Z :=
  if d <=? Z.abs n then Z.log2 (Z.abs n / d)
  else - Z.log2_up ((d + Z.abs n - 1) / Z.abs n).

(** [Math.floor(n / d)] for integers [n] and [d > 0]: the quotient is the
    double nearest to [n / d], a multiple of [2^e] with 53 significant
    bits, where [e] may be negative; [Math.floor] then takes its integer
    part. *)
Definition floorDiv (n d : Z) : Z :=
  if n =? 0 then 0
  else
    let e := quotientExponent n d - 52 in
    if 0 <=? e
    then roundDiv n (d * 2 ^ e) * 2 ^ e
    else roundDiv (n * 2 ^ (- e)) d / 2 ^ (- e).

Definition msPerSecond : Z := 1000.
Definition msPerMinute : Z := 60000.
Definition msPerHour : Z := 3600000.
Definition msPerDay : Z := 86400000.

Definition Day (t : Z) : Z := t / msPerDay.
Definition TimeWithinDay (t : Z) : Z := t mod msPerDay.

Definition DaysInYear (y : Z) : Z :=
  if negb (y mod 4 =? 0) then 365
  else if negb (y mod 100 =? 0) then 366
  else if negb (y mod 400 =? 0) then 365
  else 366.

Definition DayFromYear (y : Z) : Z :=
  365 * (y - 1970) + (y - 1969) / 4 - (y - 1901) / 100 + (y - 1601) / 400.

Definition TimeFromYear (y : Z) : Z := msPerDay * DayFromYear y.

(** ECMA-262 defines the year of a time value as the largest [y] with
    [TimeFromYear y <= t].  [YearFromDay] computes it: the estimate from the
    mean length of a year (146097 days in 400 years) is off by at most one;
    [YearFromDay_spec] and [YearFromDay_unique] below show that the result
    is the year the standard defines. *)
Definition YearFromDay (d : Z) : Z :=
  let y0 := 1970 + (400 * d) / 146097 in
  if d <? DayFromYear y0 then y0 - 1
  else if DayFromYear (y0 + 1) <=? d then y0 + 1
  else y0.

Definition YearFromTime (t : Z) : Z := YearFromDay (Day t).

Definition InLeapYear (t : Z) : Z :=
  if DaysInYear (YearFromTime t) =? 366 then 1 else 0.

Definition DayWithinYear (t : Z) : Z := Day t - DayFromYear (YearFromTime t).

(** First day (within the year) of month [m], for [m] in 0..11. *)
Definition monthStart (m leap : Z) : Z :=
  match m with
  | 0 => 0
  | 1 => 31
  | 2 => 59 + leap
  | 3 => 90 + leap
  | 4 => 120 + leap
  | 5 => 151 + leap
  | 6 => 181 + leap
  | 7 => 212 + leap
  | 8 => 243 + leap
  | 9 => 273 + leap
  | 10 => 304 + leap
  | _ => 334 + leap
  end.

Definition MonthFromTime (t : Z) : Z :=
  let d := DayWithinYear t in
  let l := InLeapYear t in
  if d <? 31 then 0
  else if d <? 59 + l then 1
  else if d <? 90 + l then 2
  else if d <? 120 + l then 3
  else if d <? 151 + l then 4
  else if d <? 181 + l then 5
  else if d <? 212 + l then 6
  else if d <? 243 + l then 7
  else if d <? 273 + l then 8
  else if d <? 304 + l then 9
  else if d <? 334 + l then 10
  else 11.

Definition DateFromTime (t : Z) : Z :=
  let d := DayWithinYear t in
  let l := InLeapYear t in
  match MonthFromTime t with
  | 0 => d + 1
  | 1 => d - 30
  | 2 => d - 58 - l
  | 3 => d - 89 - l
  | 4 => d - 119 - l
  | 5 => d - 150 - l
  | 6 => d - 180 - l
  | 7 => d - 211 - l
  | 8 => d - 242 - l
  | 9 => d - 272 - l
  | 10 => d - 303 - l
  | _ => d - 333 - l
  end.

Definition WeekDay (t : Z) : Z := (Day t + 4) mod 7.

Definition HourFromTime (t : Z) : Z := (t / msPerHour) mod 24.
Definition MinFromTime (t : Z) : Z := (t / msPerMinute) mod 60.
Definition SecFromTime (t : Z) : Z := (t / msPerSecond) mod 60.
Definition msFromTime (t : Z) : Z := t mod msPerSecond.

(** [MakeTime]: [((hour * msPerHour + min * msPerMinute) + sec * msPerSecond)
    + ms], each product and each sum rounded to a double. *)
Definition MakeTime (hour min sec ms : Z) : Z :=
  rnd (rnd (rnd (rnd (hour * msPerHour) + rnd (min * msPerMinute))
            + rnd (sec * msPerSecond))
       + ms).

(** [MakeDay]: the day number of the first of month [month mod 12] of year
    [year + floor(month / 12)], plus [date - 1].  [MakeDay] and [MakeDate]
    are written on the integers: in every call of a setter one of the two
    arguments of [MakeDate] comes from the date itself (its day number or
    its time within the day), so that a result within the range of
    [TimeClip] was computed from numbers below 2^53, without rounding, and
    a rounded result outside the range is outside it unrounded, too
    ([TimeClip_MakeDate_double], [TimeClip_MakeDay_double]). *)
Definition MakeDay (year month date : Z) : Z :=
  let ym := year + month / 12 in
  let mn := month mod 12 in
  let leap := if DaysInYear ym =? 366 then 1 else 0 in
  DayFromYear ym + monthStart mn leap + date - 1.

Definition MakeDate (day time : Z) : Z := day * msPerDay + time.

(** [MakeDay] and [MakeDate] as the host computes them from the day number
    of the month's first day: each sum and the product rounded to a
    double. *)
Definition MakeDay_double (year month date : Z) : Z :=
  let ym := year + month / 12 in
  let mn := month mod 12 in
  let leap := if DaysInYear ym =? 366 then 1 else 0 in
  rnd (rnd (DayFromYear ym + monthStart mn leap + date) - 1).

Definition MakeDate_double (day time : Z) : Z :=
  rnd (rnd (day * msPerDay) + time).

Definition maxTime : Z := 8640000000000000.

(** A Number that is an integer, or NaN. *)
Definition Num : Type := option Z.

(** A [Date] object holds a time value or NaN ("Invalid Date"). *)
Definition Date : Type := option Z.

Definition TimeClip (time : Z) : Date :=
  if maxTime <? Z.abs time then None else Some time.

(** The [Date] with these calendar fields in UTC, the month counted from 0:
    [new Date(Date.UTC(year, month, date, hours, minutes, seconds, ms))]
    for a year that is not in 0..99, and [new Date] of the ISO text of the
    fields. *)
Definition UTC (year month date hours minutes seconds ms : Z) : Date :=
  TimeClip (MakeDate (MakeDay year month date)
                     (MakeTime hours minutes seconds ms)).

(** *** Getters: NaN on an invalid date *)

Definition getTime (d : Date) : Num := d.
Definition getUTCFullYear (d : Date) : Num := option_map YearFromTime d.
Definition getUTCMonth (d : Date) : Num := option_map MonthFromTime d.
Definition getUTCDate (d : Date) : Num := option_map DateFromTime d.
Definition getUTCDay (d : Date) : Num := option_map WeekDay d.
Definition getUTCHours (d : Date) : Num := option_map HourFromTime d.
Definition getUTCMinutes (d : Date) : Num := option_map MinFromTime d.
Definition getUTCSeconds (d : Date) : Num := option_map SecFromTime d.
Definition getUTCMilliseconds (d : Date) : Num := option_map msFromTime d.

(** *** Setters.  The suffix is the number of arguments of the call. *)

Definition setUTCMilliseconds (d : Date) (ms : Num) : Date :=
  match d, ms with
  | Some t, Some milli =>
      TimeClip (MakeDate (Day t)
        (MakeTime (HourFromTime t) (MinFromTime t) (SecFromTime t) milli))
  | _, _ => None
  end.

Definition setUTCSeconds1 (d : Date) (sec : Num) : Date :=
  match d, sec with
  | Some t, Some s =>
      TimeClip (MakeDate (Day t)
        (MakeTime (HourFromTime t) (MinFromTime t) s (msFromTime t)))
  | _, _ => None
  end.

Definition setUTCSeconds2 (d : Date) (sec ms : Num) : Date :=
  match d, sec, ms with
  | Some t, Some s, Some milli =>
      TimeClip (MakeDate (Day t)
        (MakeTime (HourFromTime t) (MinFromTime t) s milli))
  | _, _, _ => None
  end.

Definition setUTCMinutes1 (d : Date) (min : Num) : Date :=
  match d, min with
  | Some t, Some m =>
      TimeClip (MakeDate (Day t)
        (MakeTime (HourFromTime t) m (SecFromTime t) (msFromTime t)))
  | _, _ => None
  end.

Definition setUTCMinutes3 (d : Date) (min sec ms : Num) : Date :=
  match d, min, sec, ms with
  | Some t, Some m, Some s, Some milli =>
      TimeClip (MakeDate (Day t) (MakeTime (HourFromTime t) m s milli))
  | _, _, _, _ => None
  end.

Definition setUTCHours1 (d : Date) (hour : Num) : Date :=
  match d, hour with
  | Some t, Some h =>
      TimeClip (MakeDate (Day t)
        (MakeTime h (MinFromTime t) (SecFromTime t) (msFromTime t)))
  | _, _ => None
  end.

Definition setUTCHours4 (d : Date) (hour min sec ms : Num) : Date :=
  match d, hour, min, sec, ms with
  | Some t, Some h, Some m, Some s, Some milli =>
      TimeClip (MakeDate (Day t) (MakeTime h m s milli))
  | _, _, _, _, _ => None
  end.

Definition setUTCDate (d : Date) (date : Num) : Date :=
  match d, date with
  | Some t, Some dt =>
      TimeClip (MakeDate (MakeDay (YearFromTime t) (MonthFromTime t) dt)
                         (TimeWithinDay t))
  | _, _ => None
  end.

Definition setUTCMonth1 (d : Date) (month : Num) : Date :=
  match d, month with
  | Some t, Some m =>
      TimeClip (MakeDate (MakeDay (YearFromTime t) m (DateFromTime t))
                         (TimeWithinDay t))
  | _, _ => None
  end.

Definition setUTCMonth2 (d : Date) (month date : Num) : Date :=
  match d, month, date with
  | Some t, Some m, Some dt =>
      TimeClip (MakeDate (MakeDay (YearFromTime t) m dt) (TimeWithinDay t))
  | _, _, _ => None
  end.

(** [setUTCFullYear] starts from time value 0 when the date is invalid. *)
Definition setUTCFullYear1 (d : Date) (year : Num) : Date :=
  match year with
  | Some y =>
      let t := match d with Some t => t | None => 0 end in
      TimeClip (MakeDate (MakeDay y (MonthFromTime t) (DateFromTime t))
                         (TimeWithinDay t))
  | None => None
  end.

(** *** Number operators, NaN-aware *)

Definition num (z : Z) : Num := Some z.
Definition num_add (a b : Num) : Num :=
  match a, b with Some x, Some y => Some (rnd (x + y)) | _, _ => None end.
Definition num_sub (a b : Num) : Num :=
  match a, b with Some x, Some y => Some (rnd (x - y)) | _, _ => None end.
Definition num_mul (a b : Num) : Num :=
  match a, b with Some x, Some y => Some (rnd (x * y)) | _, _ => None end.
(** [Math.abs] *)
Definition Math_abs (a : Num) : Num := option_map Z.abs a.
(** [Math.floor(a / b)] for a positive constant [b] *)
Definition Math_floor_div (a : Num) (b : Z) : Num :=
  option_map (fun x => floorDiv x b) a.
(** [a % b]: the remainder has the sign of the dividend; the remainder of
    two doubles is a double, so nothing is rounded *)
Definition num_rem (a : Num) (b : Z) : Num :=
  option_map (fun x => Z.rem x b) a.
(** [a === z], [a !== z], [a >= z], [a > z]: comparisons with NaN are false,
    and [NaN !== z] is true. *)
Definition num_eqb (a : Num) (z : Z) : bool :=
  match a with Some x => x =? z | None => false end.
Definition num_neqb (a : Num) (z : Z) : bool := negb (num_eqb a z).
Definition num_geb (a : Num) (z : Z) : bool :=
  match a with Some x => z <=? x | None => false end.
Definition num_gtb (a : Num) (z : Z) : bool :=
  match a with Some x => z <? x | None => false end.

(** A number inside a template literal: decimal digits, with a leading
    minus sign when negative (all values here are below 1e21). *)
Definition toString (a : Num) : string :=
  match a with
  | Some x => NilZero.string_of_int (Z.to_int x)
  | None => "NaN"
  end.

End JSDate.

Import JSDate.

(** ** Calls that may throw *)

Inductive result (A : Type) : Type :=
| Ok (a : A)
| Throw (message : string).
Arguments Ok {A} a.
Arguments Throw {A} message.

Definition bind {A B : Type} (c : result A) (k : A -> result B) : result B :=
  match c with
  | Ok a => k a
  | Throw m => Throw m
  end.

Notation "x <- c ;; k" := (bind c (fun x => k))
  (at level 61, c at next level, right associativity).

(** [xs.forEach(f)] where [f] updates a captured variable and may throw. *)
Fixpoint forEach {A S : Type} (xs : list A) (f : S -> A -> result S) (s : S)
  : result S :=
  match xs with
  | [] => Ok s
  | x :: xs' => s' <- f s x ;; forEach xs' f s'
  end.

(** ** Strings *)

Local Open Scope string_scope.

Module JSString.

(** [s.startsWith(p)] *)
Fixpoint startsWith (s p : string) {struct p} : bool :=
  match p with
  | EmptyString => true
  | String a p' =>
      match s with
      | String b s' => Ascii.eqb a b && startsWith s' p'
      | EmptyString => false
      end
  end.

(** [s.slice(n)] for [n >= 0] *)
Fixpoint slice_from (n : nat) (s : string) : string :=
  match n, s with
  | O, _ => s
  | S n', String _ s' => slice_from n' s'
  | S _, EmptyString => EmptyString
  end.

(** [s[0]]; [undefined] (on the empty string) is modelled as the empty
    string: both are falsy, different from every one-character string and
    members of no list of one-character strings. *)
Definition first_char (s : string) : string := substring 0 1 s.

(** [s.slice(1, -1)] *)
Definition slice_1_m1 (s : string) : string :=
  substring 1 (String.length s - 2) s.

(** [s.slice(-1)] *)
Definition slice_m1 (s : string) : string :=
  substring (String.length s - 1) 1 s.

(** truthiness of a string *)
Definition truthy (s : string) : bool :=
  match s with EmptyString => false | _ => true end.

(** [xs.includes(s)] *)
Definition includes (xs : list string) (s : string) : bool :=
  existsb (String.eqb s) xs.

Definition isDigit (c : ascii) : bool :=
  let n := nat_of_ascii c in (48 <=? n)%nat && (n <=? 57)%nat.

Definition digit_value (c : ascii) : Z := Z.of_nat (nat_of_ascii c) - 48.

Fixpoint digits_value (acc : Z) (s : string) : Z :=
  match s with
  | String c s' =>
      if isDigit c then digits_value (10 * acc + digit_value c) s' else acc
  | EmptyString => acc
  end.

(** [parseInt(s)] on a string without leading white space, sign or [0x]
    prefix (the program calls it on the inside of a matched token, which
    has none): the double nearest to the value of the leading decimal
    digits, NaN without any. *)
Definition parseInt (s : string) : JSDate.Num :=
  match s with
  | String c _ =>
      if isDigit c then Some (JSDate.rnd (digits_value 0 s)) else None
  | EmptyString => None
  end.

End JSString.

Import JSString.

(** ** Regular expressions

    The constructs of the pattern language that the program uses, matched
    by backtracking in the order of ECMA-262: the alternatives from left to
    right, the quantifiers greedy.  [exec fuel r s k] matches [r] at the
    head of [s] and hands what follows the match to the continuation [k];
    when [k] fails the matcher tries the next way to match [r].  [fuel]
    bounds the depth of the search; [operationRegex_scan] below shows that
    the fuel [operationRegex] gives is enough. *)

Inductive regex : Type :=
| Chars (cs : list ascii)
| Digit
| Seq (r1 r2 : regex)
| Alt (r1 r2 : regex)
| Opt (r : regex)
| Plus (r : regex).

Definition orElse {A : Type} (a b : option A) : option A :=
  match a with
  | Some x => Some x
  | None => b
  end.

Fixpoint exec (fuel : nat) (r : regex) (s : string)
  (k : string -> option string) : option string :=
  match fuel with
  | O => None
  | S fuel' =>
      match r with
      | Chars cs =>
          match s with
          | String c s' => if existsb (Ascii.eqb c) cs then k s' else None
          | EmptyString => None
          end
      | Digit =>
          match s with
          | String c s' => if isDigit c then k s' else None
          | EmptyString => None
          end
      | Seq r1 r2 => exec fuel' r1 s (fun s1 => exec fuel' r2 s1 k)
      | Alt r1 r2 => orElse (exec fuel' r1 s k) (exec fuel' r2 s k)
      | Opt r1 => orElse (exec fuel' r1 s k) (k s)
      | Plus r1 =>
          exec fuel' r1 s
            (fun s1 => orElse (exec fuel' (Plus r1) s1 k) (k s1))
      end
  end.

(** ** The token pattern

    [/([+-]?\d+[dMyhmsw]|\/[dMyhmsw])/] *)

Definition unitChars : list ascii := ["d"; "M"; "y"; "h"; "m"; "s"; "w"]%char.

Definition operationPattern : regex :=
  Alt (Seq (Opt (Chars ["+"; "-"]%char)) (Seq (Plus Digit) (Chars unitChars)))
      (Seq (Chars ["/"]%char) (Chars unitChars)).

(** One attempt of the pattern at the head of [s]: the matched text and
    what follows it. *)
Definition operationRegex (s : string) : option (string * string) :=
  match exec (String.length s + 8) operationPattern s Some with
  | Some rest =>
      Some (substring 0 (String.length s - String.length rest) s, rest)
  | None => None
  end.

(** [s.match(operationRegex) || []] with the [g] flag: the matches from left
    to right, each search starting where the previous match ended, a
    position without a match being skipped.  [fuel] bounds the number of
    positions tried. *)
Fixpoint match_from (fuel : nat) (s : string) : list string :=
  match fuel with
  | O => []
  | S fuel' =>
      match s with
      | EmptyString => []
      | String _ s' =>
          match operationRegex s with
          | Some (tok, rest) => tok :: match_from fuel' rest
          | None => match_from fuel' s'
          end
      end
  end.

Definition match_all (s : string) : list string :=
  match_from (String.length s) s.

(** ** [applyAdjustment]

    The table [adjustments] is looked up by the unit code; a code without
    an entry changes nothing. *)

Definition applyAdjustment (date : Date) (sign : string) (value : Z)
  (unit : string) : Date :=
  let multiplier := if sign =? "+" then 1 else -1 in
  let delta := num_mul (num value) (num multiplier) in
  if unit =? "d" then setUTCDate date (num_add (getUTCDate date) delta)
  else if unit =? "M" then setUTCMonth1 date (num_add (getUTCMonth date) delta)
  else if unit =? "y"
       then setUTCFullYear1 date (num_add (getUTCFullYear date) delta)
  else if unit =? "h" then setUTCHours1 date (num_add (getUTCHours date) delta)
  else if unit =? "m"
       then setUTCMinutes1 date (num_add (getUTCMinutes date) delta)
  else if unit =? "s"
       then setUTCSeconds1 date (num_add (getUTCSeconds date) delta)
  else if unit =? "w"
       then setUTCDate date
              (num_add (getUTCDate date)
                       (num_mul (num_mul (num value) (num 7)) (num multiplier)))
  else date.

(** ** [applyRounding]

    The [switch] on the unit code; its [default] throws. *)

Definition applyRounding (date : Date) (unit : string) : result Date :=
  if unit =? "d" then Ok (setUTCHours4 date (num 0) (num 0) (num 0) (num 0))
  else if unit =? "M" then
    let date := setUTCDate date (num 1) in
    Ok (setUTCHours4 date (num 0) (num 0) (num 0) (num 0))
  else if unit =? "y" then
    let date := setUTCMonth2 date (num 0) (num 1) in
    Ok (setUTCHours4 date (num 0) (num 0) (num 0) (num 0))
  else if unit =? "h" then Ok (setUTCMinutes3 date (num 0) (num 0) (num 0))
  else if unit =? "m" then Ok (setUTCSeconds2 date (num 0) (num 0))
  else if unit =? "s" then Ok (setUTCMilliseconds date (num 0))
  else if unit =? "w" then
    let day := getUTCDay date in
    let date := setUTCDate date (num_sub (getUTCDate date) day) in
    Ok (setUTCHours4 date (num 0) (num 0) (num 0) (num 0))
  else Throw ("Invalid rounding unit: " ++ unit).

(** ** [parse]

    [now] is the reading of the clock by [new Date()]. *)

(** The body of the [forEach] callback of [parse]. *)
Definition applyOperation (baseDate : Date) (operation : string)
  : result Date :=
  let sign := first_char operation in
  let value :=
    match parseInt (slice_1_m1 operation) with
    | Some v => if (v =? 0)%Z then 1%Z else v
    | None => 1%Z
    end in
  let unit := slice_m1 operation in
  if truthy sign && negb (includes ["+"; "-"; "/"] sign)
  then Throw ("Invalid sign in operation '" ++ operation ++ "'")
  else
    baseDate <- (if (sign =? "/") && truthy unit
                 then applyRounding baseDate unit
                 else Ok baseDate) ;;
    Ok (if (sign =? "+") || (sign =? "-")
        then applyAdjustment baseDate sign value unit
        else baseDate).

Definition parse (now : Z) (datestring : string) : result Date :=
  let baseDate : Date := Some now in
  if negb (startsWith datestring "now")
  then Throw "Invalid date string: Must start with 'now'."
  else
    let operations := slice_from 3 datestring in
    let operationsArray := match_all operations in
    forEach operationsArray applyOperation baseDate.

(** ** [convertToDateOnly]

    The argument is a [Date] or a string.  [toISOString] throws a
    [RangeError] on an invalid date; otherwise the part before the ['T'] is
    the calendar date, and [new Date] of it is the midnight (UTC) of that
    date. *)
Definition convertToDateOnly (datetimeString : Date + string) : result Date :=
  match datetimeString with
  | inl (Some t) =>
      Ok (UTC (YearFromTime t) (MonthFromTime t) (DateFromTime t) 0 0 0 0)
  | inl None => Throw "Invalid time value"
  | inr _ => Throw "Input is not a Date object."
  end.

(** ** [stringify]

    [now] is the reading of the clock by [Date.now()]. *)

Definition msInSecond : Z := 1000.
Definition msInMinute : Z := msInSecond * 60.
Definition msInHour : Z := msInMinute * 60.
Definition msInDay : Z := msInHour * 24.
Definition msInWeek : Z := msInDay * 7.
Definition msInMonth : Z := msInDay * 30.
Definition msInYear : Z := msInDay * 365.

Record unit_entry : Type := { label : string; duration : Z }.

Definition units : list unit_entry :=
  [ {| label := "y"; duration := msInYear |};
    {| label := "M"; duration := msInMonth |};
    {| label := "w"; duration := msInWeek |};
    {| label := "d"; duration := msInDay |};
    {| label := "h"; duration := msInHour |};
    {| label := "m"; duration := msInMinute |};
    {| label := "s"; duration := msInSecond |} ].

(** One round of the [units.forEach] of [stringify]; the state is
    [(timeDifference, result)]. *)
Definition breakdownStep (sign : string) (st : Num * string) (unit : unit_entry)
  : Num * string :=
  let (timeDifference, result) := st in
  let value := Math_floor_div timeDifference (duration unit) in
  let timeDifference := num_rem timeDifference (duration unit) in
  (timeDifference,
   if num_gtb value 0
   then result ++ sign ++ toString value ++ label unit
   else result).

Definition stringify (now : Z) (date : Date) : result string :=
  let nowUTC : Date := TimeClip now in
  let result := "now" in
  let timeDifference := num_sub (getTime date) (getTime nowUTC) in
  let sign := if num_geb timeDifference 0 then "+" else "-" in
  let timeDifference := Math_abs timeDifference in
  let timeZero :=
    num_eqb (getUTCHours date) 0 && num_eqb (getUTCMinutes date) 0 &&
    num_eqb (getUTCSeconds date) 0 && num_eqb (getUTCMilliseconds date) 0 in
  if num_eqb (getUTCMonth date) 0 && num_eqb (getUTCDate date) 1 && timeZero
  then
    let years := num_sub (getUTCFullYear date) (getUTCFullYear nowUTC) in
    Ok (if num_neqb years 0
        then "now" ++ sign ++ toString (Math_abs years) ++ "y/y"
        else "now/y")
  else if num_eqb (getUTCDate date) 1 && timeZero
  then
    let months :=
      num_sub
        (num_add
           (num_mul (num_sub (getUTCFullYear date) (getUTCFullYear nowUTC))
                    (num 12))
           (getUTCMonth date))
        (getUTCMonth nowUTC) in
    Ok (if num_neqb months 0
        then "now" ++ sign ++ toString (Math_abs months) ++ "M"
        else "now/M")
  else if num_eqb (getUTCDay date) 0 && timeZero
  then
    dateOnly <- convertToDateOnly (inl nowUTC) ;;
    let timeDifferences := num_sub (getTime date) (getTime dateOnly) in
    let msInDays := (24 * 60 * 60 * 1000)%Z in
    let totalDaysDiffs := Math_floor_div timeDifferences msInDays in
    let weeks := Math_floor_div totalDaysDiffs 7 in
    let daysExtra := num_rem totalDaysDiffs 7 in
    Ok (if num_neqb weeks 0 || num_neqb daysExtra 0
        then "now" ++ sign
             ++ toString (num_add (num_mul weeks (num 7)) daysExtra) ++ "d/w"
        else "now/w")
  else if timeZero
  then
    let days := Math_floor_div timeDifference msInDay in
    Ok (if num_neqb days 0 then "now" ++ sign ++ toString days ++ "d"
        else "now/d")
  else if num_eqb (getUTCMinutes date) 0 && num_eqb (getUTCSeconds date) 0 &&
          num_eqb (getUTCMilliseconds date) 0
  then
    let hours := Math_floor_div timeDifference msInHour in
    Ok (if num_neqb hours 0 then "now" ++ sign ++ toString hours ++ "h"
        else "now/h")
  else if num_eqb (getUTCSeconds date) 0 &&
          num_eqb (getUTCMilliseconds date) 0
  then
    let minutes := Math_floor_div timeDifference msInMinute in
    Ok (if num_neqb minutes 0 then "now" ++ sign ++ toString minutes ++ "m"
        else "now/m")
  else
    let (_, result) :=
      fold_left (breakdownStep sign) units (timeDifference, result) in
    let result := if result =? "now" then "now" else result in
    Ok result.

(** ** Vocabulary of the statements *)

(** The token pattern, read as a scanner. *)

Definition isSign (c : ascii) : bool := existsb (Ascii.eqb c) ["+"; "-"]%char.

Definition isUnit (c : ascii) : bool := existsb (Ascii.eqb c) unitChars.

(** The longest run of digits at the head of [s], and what follows it. *)
Fixpoint span_digits (s : string) : string * string :=
  match s with
  | String c s' =>
      if isDigit c
      then let (ds, rest) := span_digits s' in (String c ds, rest)
      else (EmptyString, s)
  | EmptyString => (EmptyString, EmptyString)
  end.

(** [\d+[dMyhmsw]] at the head of [s]: the match and the rest. *)
Definition match_digits_unit (s : string) : option (string * string) :=
  match span_digits s with
  | (String d ds, String u rest) =>
      if isUnit u then Some (String d ds ++ String u "", rest) else None
  | _ => None
  end.

(** [\/[dMyhmsw]] at the head of [s] *)
Definition match_slash_unit (s : string) : option (string * string) :=
  match s with
  | String "/" (String u rest) =>
      if isUnit u then Some (String "/" (String u ""), rest) else None
  | _ => None
  end.

(** The whole pattern at the head of [s]: the first alternative with the
    optional sign taken, then without it, then the second alternative. *)
Definition scanToken (s : string) : option (string * string) :=
  let with_sign :=
    match s with
    | String c s' =>
        if isSign c
        then match match_digits_unit s' with
             | Some (tok, rest) => Some (String c tok, rest)
             | None => None
             end
        else None
    | EmptyString => None
    end in
  match with_sign with
  | Some r => Some r
  | None =>
      match match_digits_unit s with
      | Some r => Some r
      | None => match_slash_unit s
      end
  end.

(** [toks.join("")] *)
Definition join (toks : list string) : string := fold_right append "" toks.

Fixpoint allDigits (s : string) : bool :=
  match s with
  | String c s' => isDigit c && allDigits s'
  | EmptyString => true
  end.

(** The strings the token pattern matches: an optional sign, one or more
    digits and a unit code; or a slash and a unit code. *)
Inductive token : string -> Prop :=
| token_number (sign : string) (d : ascii) (ds : string) (u : ascii) :
    sign = "" \/ sign = "+" \/ sign = "-" ->
    isDigit d = true -> allDigits ds = true -> isUnit u = true ->
    token (sign ++ String d ds ++ String u "")
| token_slash (u : ascii) :
    isUnit u = true -> token (String "/" (String u "")).




(** The first character of the token is none of ['+'], ['-'], ['/']. *)
Definition badMarker (tok : string) : bool :=
  match tok with
  | String c _ => negb (Ascii.eqb c "+" || Ascii.eqb c "-" || Ascii.eqb c "/")
  | EmptyString => false
  end.

(** The time values of [Date] objects: the range of [TimeClip]. *)
Definition timeValue (t : Z) : Prop := (- maxTime <= t <= maxTime)%Z.

(** 1 in a leap year, 0 otherwise; the number of days of month [m]. *)
Definition leapDay (y : Z) : Z := if (DaysInYear y =? 366)%Z then 1%Z else 0%Z.

Definition monthLength (m leap : Z) : Z :=
  match m with
  | 1 => 28 + leap
  | 3 | 5 | 8 | 10 => 30
  | _ => 31
  end%Z.

(** The start of the period of length [q] that contains [t]. *)
Definition floorTo (q t : Z) : Z := (q * (t / q))%Z.

(** The unit codes, as [applyRounding] and [applyAdjustment] list them. *)
Definition unitCodes : list string := ["d"; "M"; "y"; "h"; "m"; "s"; "w"].

(** The units of fixed length, and their length in milliseconds. *)
Definition fixedUnits : list string := ["s"; "m"; "h"; "d"; "w"].

Definition unitMs (u : string) : Z :=
  if u =? "s" then msPerSecond
  else if u =? "m" then msPerMinute
  else if u =? "h" then msPerHour
  else if u =? "d" then msPerDay
  else (7 * msPerDay)%Z.

(** The six alignment checks of [stringify], in its order. *)
Definition timeIsZero (t : Z) : bool :=
  (HourFromTime t =? 0)%Z && (MinFromTime t =? 0)%Z &&
  (SecFromTime t =? 0)%Z && (msFromTime t =? 0)%Z.
Definition yearAligned (t : Z) : bool :=
  (MonthFromTime t =? 0)%Z && (DateFromTime t =? 1)%Z && timeIsZero t.
Definition monthAligned (t : Z) : bool :=
  (DateFromTime t =? 1)%Z && timeIsZero t.
Definition weekAligned (t : Z) : bool := (WeekDay t =? 0)%Z && timeIsZero t.
Definition dayAligned (t : Z) : bool := timeIsZero t.
Definition hourAligned (t : Z) : bool :=
  (MinFromTime t =? 0)%Z && (SecFromTime t =? 0)%Z && (msFromTime t =? 0)%Z.
Definition minuteAligned (t : Z) : bool :=
  (SecFromTime t =? 0)%Z && (msFromTime t =? 0)%Z.

Definition noAlignment (t : Z) : bool :=
  negb (yearAligned t) && negb (monthAligned t) && negb (weekAligned t) &&
  negb (dayAligned t) && negb (hourAligned t) && negb (minuteAligned t).

(** The units of the fallback breakdown with their fixed lengths in
    milliseconds, as the specification lists them: year (365 days), month
    (30 days), week (7 days), day, hour, minute, second. *)
Definition breakdownUnits : list (string * Z) :=
  [ ("y", 365 * 86400000); ("M", 30 * 86400000); ("w", 7 * 86400000);
    ("d", 86400000); ("h", 3600000); ("m", 60000); ("s", 1000) ]%Z.

(** The greedy breakdown as the specification words it: for each unit in
    order, the whole number of units in what remains, whose contribution is
    then subtracted. *)
Fixpoint greedyBreakdown (us : list (string * Z)) (remaining : Z)
  : list (Z * string) :=
  match us with
  | [] => []
  | (unitLabel, ms) :: us' =>
      let value := (remaining / ms)%Z in
      (value, unitLabel) :: greedyBreakdown us' (remaining - value * ms)%Z
  end.

(** What the [units.forEach] of [stringify] computes for each unit: the
    floored quotient, in doubles, of what remains, the remainder going to
    the next unit. *)
Fixpoint hostBreakdown (us : list unit_entry) (remaining : Z)
  : list (Z * string) :=
  match us with
  | [] => []
  | u :: us' =>
      (floorDiv remaining (duration u), label u)
        :: hostBreakdown us' (Z.rem remaining (duration u))
  end.

(** One component [{sign}{value}{unitLabel}]. *)
Definition component (sign : string) (c : Z * string) : string :=
  sign ++ toString (Some (fst c)) ++ snd c.

(** The text of the fallback branch, as the specification words it. *)
Definition fallbackText (now t : Z) : string :=
  let difference := (t - now)%Z in
  let sign := if (0 <=? difference)%Z then "+" else "-" in
  let components :=
    filter (fun c => (0 <? fst c)%Z)
           (greedyBreakdown breakdownUnits (Z.abs difference)) in
  match components with
  | [] => "now"
  | _ => "now" ++ join (map (component sign) components)
  end.

(** [parse(stringify(date))], both calls reading the same clock. *)
Definition roundTrip (now : Z) (date : Date) : result Date :=
  text <- stringify now date ;; parse now text.

(** 2020-03-31T00:00:00.000Z, the last day of a month of 31 days that is
    followed by a month of 30. *)
Definition march31 : Z := 1585612800000.

(** The reference instant of the repository's tests,
    2020-06-12T13:20:17.486Z. *)
Definition systemTime : Z := 1591968017486.

(** ** Vocabulary of the further properties *)

(** The alignment check of [stringify] for a unit code; for seconds, which
    [stringify] does not test, milliseconds at zero. *)
Definition alignedTo (u : string) (t : Z) : bool :=
  if u =? "y" then yearAligned t
  else if u =? "M" then monthAligned t
  else if u =? "w" then weekAligned t
  else if u =? "d" then dayAligned t
  else if u =? "h" then hourAligned t
  else if u =? "m" then minuteAligned t
  else (msFromTime t =? 0)%Z.

(** The first instant of the period of a unit that contains [t]. *)
Definition periodStart (u : string) (t : Z) : Z :=
  if u =? "y" then (msPerDay * DayFromYear (YearFromTime t))%Z
  else if u =? "M" then (msPerDay * (Day t - (DateFromTime t - 1)))%Z
  else if u =? "w" then (msPerDay * (Day t - WeekDay t))%Z
  else if u =? "d" then floorTo msPerDay t
  else if u =? "h" then floorTo msPerHour t
  else if u =? "m" then floorTo msPerMinute t
  else floorTo msPerSecond t.

(** The milliseconds that an adjustment by [n] units of fixed length adds. *)
Definition signedMs (sign : string) (n : Z) (u : string) : Z :=
  (n * (if (sign =? "+")%string then 1 else -1) * unitMs u)%Z.

(** The magnitudes that an adjustment by a unit of fixed length applies
    without rounding: below 10^15, and for seconds, minutes and hours, which
    go through the time of day, at most 2^53 ms less a day. *)
Definition exactMagnitude (u : string) (n : Z) : Prop :=
  (n <= 1000000000000000)%Z /\
  (In u ["s"; "m"; "h"] -> (n * unitMs u + msPerDay <= two53)%Z).

(** The milliseconds that components of units of fixed length stand for. *)
Definition componentsMs (cs : list (Z * string)) : Z :=
  fold_right (fun c acc => (fst c * unitMs (snd c) + acc)%Z) 0%Z cs.

(** The unit of the first alignment check of [stringify] that an instant
    passes; seconds when it passes none. *)
Definition precision (t : Z) : string :=
  if yearAligned t then "y"
  else if monthAligned t then "M"
  else if weekAligned t then "w"
  else if dayAligned t then "d"
  else if hourAligned t then "h"
  else if minuteAligned t then "m"
  else "s".

(** * Integers in doubles: where nothing is rounded *)

Section Doubles.

Local Open Scope Z_scope.

Lemma roundDiv_near (n d : Z) :
  0 < d ->
  n / d <= roundDiv n d <= n / d + 1 /\
  2 * Z.abs (roundDiv n d * d - n) <= d.
Proof.
  intros Hd. unfold roundDiv. cbv zeta.
  pose proof (Z.div_mod n d ltac:(lia)) as E.
  pose proof (Z.mod_pos_bound n d Hd) as B.
  set (q := n / d) in *. set (r := n mod d) in *.
  destruct (Z.ltb_spec (2 * r) d); [split; nia|].
  destruct (Z.ltb_spec d (2 * r)); [split; nia|].
  destruct (Z.even q); split; nia.
Qed.

Lemma roundDiv_exact (q d : Z) : 0 < d -> roundDiv (q * d) d = q.
Proof.
  intros Hd. unfold roundDiv. cbv zeta.
  rewrite Z.div_mul, Z.mod_mul by lia.
  destruct (Z.ltb_spec (2 * 0) d); [reflexivity|lia].
Qed.

Lemma log2_small (a : Z) : 0 <= a < two53 -> Z.log2 a <= 52.
Proof.
  intros [H0 H1]. destruct (Z.eq_dec a 0) as [->|Hn]; [cbn; lia|].
  assert (Z.log2 a < 53); [|lia].
  apply Z.log2_lt_pow2; [lia|exact H1].
Qed.

Lemma log2_big (a : Z) : two53 <= a -> 53 <= Z.log2 a.
Proof.
  intros H. apply Z.log2_le_pow2; [unfold two53 in H; lia|exact H].
Qed.

Lemma rnd_small (z : Z) : Z.abs z <= two53 -> rnd z = z.
Proof.
  intros H. unfold rnd. cbv zeta.
  destruct (Z.leb_spec (Z.log2 (Z.abs z) - 52) 0) as [|He]; [reflexivity|].
  assert (Ha : Z.abs z = two53).
  { destruct (Z_lt_le_dec (Z.abs z) two53) as [Hl|Hl]; [|lia].
    pose proof (log2_small (Z.abs z) ltac:(lia)). lia. }
  assert (Hz : z = two53 \/ z = - two53) by lia.
  destruct Hz as [-> | ->]; reflexivity.
Qed.

(** The shape of a rounded integer from 2^53: a multiple of a power of two
    with 53 significant bits, at most half that power away. *)
Lemma rnd_large (z : Z) :
  two53 <= Z.abs z ->
  exists P m, 2 <= P /\ rnd z = m * P /\ 4503599627370496 <= Z.abs m /\
              2 * Z.abs (m * P - z) <= P.
Proof.
  intros H. unfold rnd. cbv zeta.
  pose proof (log2_big _ H) as Hl.
  destruct (Z.leb_spec (Z.log2 (Z.abs z) - 52) 0) as [|He]; [lia|].
  set (e := Z.log2 (Z.abs z) - 52) in *.
  pose proof (Z.log2_spec (Z.abs z) ltac:(unfold two53 in H; lia)) as [Hlo Hhi].
  replace (Z.log2 (Z.abs z)) with (52 + e) in Hlo by (unfold e; lia).
  rewrite Z.pow_add_r in Hlo by lia.
  change (2 ^ 52) with 4503599627370496 in Hlo.
  assert (HP : 2 <= 2 ^ e).
  { change 2 with (2 ^ 1) at 1. apply Z.pow_le_mono_r; lia. }
  set (P := 2 ^ e) in *.
  exists P, (roundDiv z P). 
  destruct (roundDiv_near z P ltac:(lia)) as [[Hq1 Hq2] Hn].
  split; [exact HP|]. split; [reflexivity|]. split; [|exact Hn].
  pose proof (Z.div_mod z P ltac:(lia)) as E.
  pose proof (Z.mod_pos_bound z P ltac:(lia)) as B.
  destruct (Z_le_gt_dec 0 z) as [Hz|Hz].
  - rewrite Z.abs_eq in Hlo by lia.
    assert (4503599627370496 <= z / P)
      by (apply Z.div_le_lower_bound; lia).
    lia.
  - rewrite Z.abs_neq in Hlo by lia.
    assert (Hm : roundDiv z P <= - 4503599627370496); [|lia].
    destruct (Z.eq_dec (z mod P) 0) as [E0|E0].
    + assert (roundDiv z P = z / P).
      { replace z with (z / P * P) at 1 by lia. apply roundDiv_exact. lia. }
      nia.
    + assert (z / P + 1 <= - 4503599627370496); [nia|lia].
Qed.

Lemma rnd_big_pos (z : Z) : two53 <= z -> two53 <= rnd z.
Proof.
  intros H. destruct (rnd_large z ltac:(lia)) as (P & m & HP & -> & Hm & Hn).
  unfold two53 in *. nia.
Qed.

Lemma rnd_big_neg (z : Z) : z <= - two53 -> rnd z <= - two53.
Proof.
  intros H. destruct (rnd_large z ltac:(lia)) as (P & m & HP & -> & Hm & Hn).
  unfold two53 in *. nia.
Qed.

Lemma rnd_inv_small (z : Z) : Z.abs (rnd z) < two53 -> rnd z = z.
Proof.
  intros H. destruct (Z_le_gt_dec (Z.abs z) two53) as [Hs|Hb];
    [apply rnd_small, Hs|].
  exfalso. destruct (Z_le_gt_dec 0 z).
  - pose proof (rnd_big_pos z ltac:(lia)). lia.
  - pose proof (rnd_big_neg z ltac:(lia)). lia.
Qed.

Lemma rnd_sign (z : Z) : (0 <=? rnd z) = (0 <=? z).
Proof.
  destruct (Z_le_gt_dec (Z.abs z) two53) as [Hs|Hb];
    [rewrite rnd_small by exact Hs; reflexivity|].
  destruct (Z_le_gt_dec 0 z).
  - pose proof (rnd_big_pos z ltac:(lia)). unfold two53 in *.
    destruct (Z.leb_spec 0 (rnd z)), (Z.leb_spec 0 z); try reflexivity; lia.
  - pose proof (rnd_big_neg z ltac:(lia)). unfold two53 in *.
    destruct (Z.leb_spec 0 (rnd z)), (Z.leb_spec 0 z); try reflexivity; lia.
Qed.

Lemma rnd_pos (z : Z) : 0 < z -> 0 < rnd z.
Proof.
  intros H. destruct (Z_le_gt_dec z two53) as [Hs|Hb].
  - rewrite rnd_small by lia. exact H.
  - pose proof (rnd_big_pos z ltac:(lia)). unfold two53 in *. lia.
Qed.

Lemma rnd_even (z : Z) :
  Z.even z = true -> Z.abs z < 2 * two53 -> rnd z = z.
Proof.
  intros Hev Hb.
  destruct (Z_le_gt_dec (Z.abs z) two53) as [Hs|Hl]; [apply rnd_small, Hs|].
  unfold rnd. cbv zeta.
  assert (Hlog : Z.log2 (Z.abs z) = 53).
  { apply Z.log2_unique; [lia|]. change (2 ^ 53) with two53.
    change (2 ^ Z.succ 53) with (2 * two53). lia. }
  rewrite Hlog. change (53 - 52 <=? 0) with false. cbv iota.
  change (2 ^ (53 - 52)) with 2.
  apply Z.even_spec in Hev as [k ->].
  rewrite (Z.mul_comm 2 k), roundDiv_exact by lia. reflexivity.
Qed.

Lemma quotientExponent_spec (n d : Z) :
  n <> 0 -> 0 < d ->
  let L := quotientExponent n d in
  (0 <= L -> d * 2 ^ L <= Z.abs n < d * 2 ^ (L + 1)) /\
  (L < 0 -> d <= Z.abs n * 2 ^ (- L) /\ Z.abs n * 2 ^ (- L) < 2 * d).
Proof.
  intros Hn Hd. unfold quotientExponent. cbv zeta.
  assert (Ha : 0 < Z.abs n) by lia. set (a := Z.abs n) in *.
  destruct (Z.leb_spec d a) as [Hle|Hlt].
  - assert (Hq : 0 < a / d) by (apply Z.div_str_pos; lia).
    pose proof (Z.log2_spec (a / d) Hq) as [H1 H2].
    pose proof (Z.log2_nonneg (a / d)) as H0.
    pose proof (Z.div_mod a d ltac:(lia)) as E.
    pose proof (Z.mod_pos_bound a d Hd) as B.
    split; [|lia]. intros _.
    replace (Z.succ (Z.log2 (a / d))) with (Z.log2 (a / d) + 1) in H2 by lia.
    split; nia.
  - assert (Hc : 1 < (d + a - 1) / a).
    { assert (2 <= (d + a - 1) / a); [|lia].
      apply Z.div_le_lower_bound; lia. }
    pose proof (Z.log2_up_spec _ Hc) as [H1 H2].
    pose proof (Z.log2_up_pos _ Hc) as H0.
    pose proof (Z.div_mod (d + a - 1) a ltac:(lia)) as E.
    pose proof (Z.mod_pos_bound (d + a - 1) a Ha) as B.
    set (c := (d + a - 1) / a) in *. set (u := Z.log2_up c) in *.
    split; [lia|]. intros _. rewrite Z.opp_involutive.
    replace u with (Z.pred u + 1) at 2 by lia.
    rewrite Z.pow_add_r by lia. change (2 ^ 1) with 2.
    split; nia.
Qed.

Lemma floorDiv_exact (n d : Z) :
  Z.abs n < two53 -> 0 < d -> floorDiv n d = n / d.
Proof.
  intros Hn Hd. unfold floorDiv.
  destruct (Z.eqb_spec n 0) as [->|Hn0]; [reflexivity|]. cbv zeta.
  pose proof (quotientExponent_spec n d Hn0 Hd) as [Hpos Hneg].
  cbv zeta in Hpos, Hneg. set (L := quotientExponent n d) in *.
  assert (HL : L <= 52).
  { destruct (Z_le_gt_dec L 52) as [|Hg]; [assumption|exfalso].
    destruct (Hpos ltac:(lia)) as [H1 _].
    assert (2 ^ 53 <= 2 ^ L) by (apply Z.pow_le_mono_r; lia).
    change (2 ^ 53) with two53 in *. nia. }
  destruct (Z.leb_spec 0 (L - 52)) as [He|He].
  - replace (L - 52) with 0 by lia. change (2 ^ 0) with 1.
    rewrite !Z.mul_1_r.
    destruct (Hpos ltac:(lia)) as [H1 _].
    replace L with 52 in H1 by lia. change (2 ^ 52) with 4503599627370496 in H1.
    assert (d = 1) by (unfold two53 in Hn; nia). subst d.
    rewrite Z.div_1_r. replace n with (n * 1) at 1 by lia.
    apply roundDiv_exact. lia.
  - replace (- (L - 52)) with (52 - L) by lia.
    set (s := 52 - L) in *.
    assert (Hs : 1 <= s) by (unfold s; lia).
    assert (HQ : 2 <= 2 ^ s).
    { change 2 with (2 ^ 1) at 1. apply Z.pow_le_mono_r; lia. }
    assert (Hd2 : d < 2 * 2 ^ s).
    { destruct (Z_le_gt_dec 0 L) as [HL0|HL0].
      - destruct (Hpos HL0) as [H1 _].
        assert (E : 2 ^ L * 2 ^ s = 4503599627370496).
        { rewrite <- Z.pow_add_r by lia. unfold s.
          replace (L + (52 - L)) with 52 by lia. reflexivity. }
        assert (0 < 2 ^ L) by (apply Z.pow_pos_nonneg; lia).
        unfold two53 in Hn. nia.
      - destruct (Hneg ltac:(lia)) as [H1 _].
        assert (E : 2 ^ s = 4503599627370496 * 2 ^ (- L)).
        { unfold s. replace (52 - L) with (52 + - L) by lia.
          rewrite Z.pow_add_r by lia. reflexivity. }
        assert (0 < 2 ^ (- L)) by (apply Z.pow_pos_nonneg; lia).
        unfold two53 in Hn. nia. }
    set (Q := 2 ^ s) in *.
    destruct (roundDiv_near (n * Q) d Hd) as [_ Hnear].
    set (m := roundDiv (n * Q) d) in *.
    pose proof (Z.div_mod n d ltac:(lia)) as E.
    pose proof (Z.mod_pos_bound n d Hd) as B.
    set (q0 := n / d) in *. set (r0 := n mod d) in *.
    symmetry. apply (Z.div_unique m Q q0 (m - Q * q0)); [|lia].
    left.
    assert (Hm1 : q0 * Q <= m).
    { assert (q0 * Q * d - d < m * d); [|nia].
      assert (n * Q = q0 * Q * d + r0 * Q) by nia. nia. }
    assert (Hm2 : m < (q0 + 1) * Q).
    { assert (m * d < (q0 + 1) * Q * d); [|nia].
      assert (n * Q = q0 * Q * d + r0 * Q) by nia.
      assert (r0 * Q <= d * Q - Q) by nia. nia. }
    lia.
Qed.

Lemma floorDiv_multiple (D d : Z) :
  Z.abs D < 4503599627370496 -> 0 < d -> floorDiv (D * d) d = D.
Proof.
  intros HD Hd. unfold floorDiv.
  destruct (Z.eqb_spec (D * d) 0) as [E|Hn0]; [nia|]. cbv zeta.
  assert (HD0 : D <> 0) by nia.
  unfold quotientExponent.
  rewrite Z.abs_mul, (Z.abs_eq d) by lia.
  destruct (Z.leb_spec d (Z.abs D * d)) as [_|H]; [|nia].
  rewrite Z.div_mul by lia.
  assert (HL : Z.log2 (Z.abs D) < 52).
  { apply Z.log2_lt_pow2; [lia|exact HD]. }
  pose proof (Z.log2_nonneg (Z.abs D)).
  destruct (Z.leb_spec 0 (Z.log2 (Z.abs D) - 52)); [lia|].
  set (s := - (Z.log2 (Z.abs D) - 52)).
  assert (0 < 2 ^ s) by (apply Z.pow_pos_nonneg; unfold s; lia).
  replace (D * d * 2 ^ s) with (D * 2 ^ s * d) by ring.
  rewrite roundDiv_exact by lia. apply Z.div_mul. lia.
Qed.

Lemma roundDiv_nonneg (n d : Z) : 0 <= n -> 0 < d -> 0 <= roundDiv n d.
Proof.
  intros Hn Hd. destruct (roundDiv_near n d Hd) as [[H _] _].
  pose proof (Z.div_pos n d Hn Hd). lia.
Qed.

Lemma floorDiv_nonneg (n d : Z) : 0 <= n -> 0 < d -> 0 <= floorDiv n d.
Proof.
  intros Hn Hd. unfold floorDiv.
  destruct (Z.eqb_spec n 0); [lia|]. cbv zeta.
  destruct (Z.leb_spec 0 (quotientExponent n d - 52)) as [He|He].
  - assert (0 < 2 ^ (quotientExponent n d - 52))
      by (apply Z.pow_pos_nonneg; lia).
    pose proof (roundDiv_nonneg n (d * 2 ^ (quotientExponent n d - 52)) Hn
                  ltac:(nia)). nia.
  - assert (0 < 2 ^ (- (quotientExponent n d - 52)))
      by (apply Z.pow_pos_nonneg; lia).
    apply Z.div_pos; [|lia].
    apply roundDiv_nonneg; [nia|lia].
Qed.

(** [MakeTime] on fields whose products stay within 2^53 is the plain sum. *)
Lemma MakeTime_exact (h m s ms : Z) :
  Z.abs (h * msPerHour) + Z.abs (m * msPerMinute) + Z.abs (s * msPerSecond)
  + Z.abs ms <= two53 ->
  MakeTime h m s ms = h * msPerHour + m * msPerMinute + s * msPerSecond + ms.
Proof.
  intros H. unfold MakeTime.
  rewrite (rnd_small (h * msPerHour)) by lia.
  rewrite (rnd_small (m * msPerMinute)) by lia.
  rewrite (rnd_small (s * msPerSecond)) by lia.
  rewrite (rnd_small (h * msPerHour + m * msPerMinute)) by lia.
  rewrite (rnd_small (h * msPerHour + m * msPerMinute + s * msPerSecond))
    by lia.
  apply rnd_small. lia.
Qed.

Lemma timeFields_range (t : Z) :
  0 <= HourFromTime t < 24 /\ 0 <= MinFromTime t < 60 /\
  0 <= SecFromTime t < 60 /\ 0 <= msFromTime t < 1000.
Proof.
  unfold HourFromTime, MinFromTime, SecFromTime, msFromTime, msPerSecond.
  repeat split; apply Z.mod_pos_bound; reflexivity.
Qed.

End Doubles.

(** * Properties of the host's calendar *)

Local Open Scope Z_scope.

Section Calendar.

Lemma YearFromDay_spec (d : Z) :
  DayFromYear (YearFromDay d) <= d < DayFromYear (YearFromDay d + 1).
Proof.
  unfold YearFromDay.
  set (y0 := 1970 + 400 * d / 146097).
  destruct (Z.ltb_spec d (DayFromYear y0)) as [H1|H1].
  - replace (y0 - 1 + 1) with y0 by lia. split; [|lia].
    unfold DayFromYear in *. subst y0.
    Z.div_mod_to_equations. lia.
  - destruct (Z.leb_spec (DayFromYear (y0 + 1)) d) as [H2|H2].
    + split; [lia|].
      unfold DayFromYear in *. subst y0.
      Z.div_mod_to_equations. lia.
    + lia.
Qed.

Lemma DaysInYear_cases (y : Z) : DaysInYear y = 365 \/ DaysInYear y = 366.
Proof.
  unfold DaysInYear.
  repeat match goal with |- context [if ?b then _ else _] => destruct b end;
    auto.
Qed.

Lemma DayFromYear_succ (y : Z) :
  DayFromYear (y + 1) = DayFromYear y + DaysInYear y.
Proof.
  unfold DayFromYear, DaysInYear.
  destruct (Z.eqb_spec (y mod 4) 0); cbn [negb];
    destruct (Z.eqb_spec (y mod 100) 0); cbn [negb];
    destruct (Z.eqb_spec (y mod 400) 0); cbn [negb];
    Z.div_mod_to_equations; lia.
Qed.

Lemma DayFromYear_mono (y1 y2 : Z) :
  y1 <= y2 -> DayFromYear y1 <= DayFromYear y2.
Proof.
  intros H. unfold DayFromYear. Z.div_mod_to_equations. lia.
Qed.

(** The year of a day is the only [y] whose year contains the day: it is the
    largest [y] with [DayFromYear y <= d], as the standard has it. *)
Lemma YearFromDay_unique (d y : Z) :
  DayFromYear y <= d < DayFromYear (y + 1) -> YearFromDay d = y.
Proof.
  intros [Hlo Hhi].
  pose proof (YearFromDay_spec d) as [Slo Shi].
  destruct (Z.lt_trichotomy (YearFromDay d) y) as [Hlt|[Heq|Hgt]]; auto.
  - pose proof (DayFromYear_mono (YearFromDay d + 1) y ltac:(lia)). lia.
  - pose proof (DayFromYear_mono (y + 1) (YearFromDay d) ltac:(lia)). lia.
Qed.

Lemma YearFromTime_largest (t y : Z) :
  TimeFromYear y <= t <-> y <= YearFromTime t.
Proof.
  unfold TimeFromYear, YearFromTime, Day, msPerDay.
  pose proof (YearFromDay_spec (t / 86400000)) as [Slo Shi].
  split; intros H.
  - destruct (Z_le_gt_dec y (YearFromDay (t / 86400000))) as [|Hgt]; auto.
    pose proof (DayFromYear_mono (YearFromDay (t / 86400000) + 1) y
                  ltac:(lia)).
    Z.div_mod_to_equations. lia.
  - pose proof (DayFromYear_mono y _ H).
    Z.div_mod_to_equations. lia.
Qed.

Lemma DayWithinYear_range (t : Z) :
  0 <= DayWithinYear t < DaysInYear (YearFromTime t).
Proof.
  unfold DayWithinYear, YearFromTime.
  pose proof (YearFromDay_spec (Day t)).
  rewrite DayFromYear_succ in H. lia.
Qed.

Lemma InLeapYear_cases (t : Z) : InLeapYear t = 0 \/ InLeapYear t = 1.
Proof. unfold InLeapYear. destruct (_ =? _); auto. Qed.

Lemma MonthFromTime_range (t : Z) : 0 <= MonthFromTime t <= 11.
Proof.
  unfold MonthFromTime.
  repeat match goal with |- context [if ?b then _ else _] => destruct b end;
    lia.
Qed.

(** Year, month and day of month determine the day: setting the day of
    month to [DateFromTime t + k] moves the day by [k]. *)
Lemma MakeDay_DateFromTime (t k : Z) :
  MakeDay (YearFromTime t) (MonthFromTime t) (DateFromTime t + k) = Day t + k.
Proof.
  unfold MakeDay.
  pose proof (MonthFromTime_range t) as Hm.
  rewrite (Z.div_small (MonthFromTime t) 12) by lia.
  rewrite (Z.mod_small (MonthFromTime t) 12) by lia.
  rewrite Z.add_0_r.
  fold (InLeapYear t).
  unfold DateFromTime, MonthFromTime, DayWithinYear in *.
  repeat match goal with
         | |- context [if ?b then _ else _] => destruct b
         end; cbv beta iota delta [monthStart]; lia.
Qed.

Lemma MakeDay_Day (t : Z) :
  MakeDay (YearFromTime t) (MonthFromTime t) (DateFromTime t) = Day t.
Proof.
  pose proof (MakeDay_DateFromTime t 0) as H.
  rewrite !Z.add_0_r in H. exact H.
Qed.

Lemma MakeTime_fields (t : Z) :
  MakeTime (HourFromTime t) (MinFromTime t) (SecFromTime t) (msFromTime t)
  = TimeWithinDay t.
Proof.
  pose proof (timeFields_range t) as (Hh & Hm & Hs & Hms).
  rewrite MakeTime_exact
    by (unfold msPerHour, msPerMinute, msPerSecond, two53; lia).
  unfold HourFromTime, MinFromTime, SecFromTime, msFromTime,
    TimeWithinDay, msPerHour, msPerMinute, msPerSecond, msPerDay.
  Z.div_mod_to_equations. lia.
Qed.

Lemma TimeWithinDay_fields (t : Z) :
  HourFromTime t * msPerHour + MinFromTime t * msPerMinute
  + SecFromTime t * msPerSecond + msFromTime t = TimeWithinDay t.
Proof.
  unfold HourFromTime, MinFromTime, SecFromTime, msFromTime,
    TimeWithinDay, msPerHour, msPerMinute, msPerSecond, msPerDay.
  Z.div_mod_to_equations. lia.
Qed.

Lemma MakeDate_Day (t : Z) : MakeDate (Day t) (TimeWithinDay t) = t.
Proof.
  unfold MakeDate, Day, TimeWithinDay, msPerDay.
  Z.div_mod_to_equations. lia.
Qed.

Lemma Day_MakeDate (day time : Z) :
  0 <= time < msPerDay -> Day (MakeDate day time) = day.
Proof.
  unfold Day, MakeDate, msPerDay. intros H.
  Z.div_mod_to_equations. lia.
Qed.

Lemma TimeWithinDay_MakeDate (day time : Z) :
  0 <= time < msPerDay -> TimeWithinDay (MakeDate day time) = time.
Proof.
  unfold TimeWithinDay, MakeDate, msPerDay. intros H.
  Z.div_mod_to_equations. lia.
Qed.

Lemma TimeWithinDay_range (t : Z) : 0 <= TimeWithinDay t < msPerDay.
Proof. unfold TimeWithinDay, msPerDay. apply Z.mod_pos_bound. lia. Qed.

Lemma leapDay_DaysInYear (y : Z) : DaysInYear y = 365 + leapDay y.
Proof.
  unfold leapDay. destruct (DaysInYear_cases y) as [-> | ->]; reflexivity.
Qed.

Lemma MakeDay_month (y m dt : Z) :
  0 <= m <= 11 ->
  MakeDay y m dt = DayFromYear y + monthStart m (leapDay y) + dt - 1.
Proof.
  intros Hm. unfold MakeDay.
  rewrite (Z.div_small m 12), (Z.mod_small m 12), Z.add_0_r by lia.
  reflexivity.
Qed.

(** The calendar fields of the day that [MakeDay] builds from a year, a
    month and a day of that month are this year, month and day. *)
Lemma MakeDay_fields (y m dt time : Z) :
  0 <= m <= 11 -> 1 <= dt <= monthLength m (leapDay y) ->
  0 <= time < msPerDay ->
  YearFromTime (MakeDate (MakeDay y m dt) time) = y /\
  MonthFromTime (MakeDate (MakeDay y m dt) time) = m /\
  DateFromTime (MakeDate (MakeDay y m dt) time) = dt.
Proof.
  intros Hm Hdt Htime.
  assert (Hl : leapDay y = 0 \/ leapDay y = 1)
    by (unfold leapDay; destruct (_ =? _); auto).
  assert (Hy : YearFromTime (MakeDate (MakeDay y m dt) time) = y).
  { unfold YearFromTime. rewrite Day_MakeDate by exact Htime.
    apply YearFromDay_unique.
    rewrite DayFromYear_succ, leapDay_DaysInYear, MakeDay_month by exact Hm.
    assert (Hc : m = 0 \/ m = 1 \/ m = 2 \/ m = 3 \/ m = 4 \/ m = 5 \/
                 m = 6 \/ m = 7 \/ m = 8 \/ m = 9 \/ m = 10 \/ m = 11) by lia.
    repeat (destruct Hc as [-> | Hc]); try subst m;
      cbv beta iota delta [monthStart monthLength] in *; lia. }
  assert (Hd : DayWithinYear (MakeDate (MakeDay y m dt) time)
               = monthStart m (leapDay y) + dt - 1).
  { unfold DayWithinYear. rewrite Hy, Day_MakeDate, MakeDay_month; lia. }
  assert (Hi : InLeapYear (MakeDate (MakeDay y m dt) time) = leapDay y).
  { unfold InLeapYear. rewrite Hy. reflexivity. }
  split; [exact Hy|].
  unfold DateFromTime, MonthFromTime. rewrite Hd, Hi.
  assert (Hc : m = 0 \/ m = 1 \/ m = 2 \/ m = 3 \/ m = 4 \/ m = 5 \/
               m = 6 \/ m = 7 \/ m = 8 \/ m = 9 \/ m = 10 \/ m = 11) by lia.
  repeat (destruct Hc as [-> | Hc]); try subst m;
    cbv beta iota delta [monthStart monthLength] in *;
    repeat match goal with
           | |- context [?a <? ?b] => destruct (Z.ltb_spec a b); try lia
           end; split; lia.
Qed.

Lemma monthLength_ge_28 (m leap : Z) : 0 <= leap -> 28 <= monthLength m leap.
Proof.
  intros H. unfold monthLength.
  repeat match goal with |- context [match ?x with _ => _ end] =>
                           destruct x end; lia.
Qed.

Lemma DateFromTime_range (t : Z) :
  1 <= DateFromTime t <= monthLength (MonthFromTime t) (InLeapYear t).
Proof.
  pose proof (DayWithinYear_range t) as Hd.
  rewrite leapDay_DaysInYear in Hd. change (leapDay (YearFromTime t))
    with (InLeapYear t) in Hd.
  pose proof (InLeapYear_cases t) as Hl.
  unfold DateFromTime, MonthFromTime.
  repeat match goal with
         | |- context [?a <? ?b] => destruct (Z.ltb_spec a b)
         end; cbv beta iota delta [monthLength]; lia.
Qed.

Lemma MakeDay_normalize (y m dt : Z) :
  MakeDay y m dt = MakeDay (y + m / 12) (m mod 12) dt.
Proof.
  unfold MakeDay.
  rewrite (Z.div_small (m mod 12) 12), Z.mod_mod, Z.add_0_r; [reflexivity|lia|].
  apply Z.mod_pos_bound. lia.
Qed.

Lemma MakeDay_eq (y y' m m' dt : Z) :
  y = y' -> m = m' -> MakeDay y m dt = MakeDay y' m' dt.
Proof. intros -> ->. reflexivity. Qed.

(** A day of month beyond the end of the month is a day of the next
    month. *)
Lemma MakeDay_overflow (y m dt : Z) :
  0 <= m <= 10 ->
  MakeDay y m dt = MakeDay y (m + 1) (dt - monthLength m (leapDay y)).
Proof.
  intros Hm. rewrite !MakeDay_month by lia.
  assert (Hc : m = 0 \/ m = 1 \/ m = 2 \/ m = 3 \/ m = 4 \/ m = 5 \/
               m = 6 \/ m = 7 \/ m = 8 \/ m = 9 \/ m = 10) by lia.
  repeat (destruct Hc as [-> | Hc]); try subst m;
    match goal with
    | |- context [monthStart (?a + 1) _] =>
        let v := eval vm_compute in (a + 1) in change (a + 1) with v
    end;
    cbv beta iota delta [monthStart monthLength]; lia.
Qed.

(** When [MakeDay] keeps the day of month it was given, it kept the year
    and the month too. *)
Lemma MakeDay_fields_kept (y m dt time : Z) :
  0 <= m <= 11 -> 1 <= dt <= 31 -> 0 <= time < msPerDay ->
  DateFromTime (MakeDate (MakeDay y m dt) time) = dt ->
  YearFromTime (MakeDate (MakeDay y m dt) time) = y /\
  MonthFromTime (MakeDate (MakeDay y m dt) time) = m.
Proof.
  intros Hm Hdt Htime Hkept.
  assert (Hl : leapDay y = 0 \/ leapDay y = 1)
    by (unfold leapDay; destruct (_ =? _); auto).
  destruct (Z_le_gt_dec dt (monthLength m (leapDay y))) as [Hle|Hgt].
  - destruct (MakeDay_fields y m dt time Hm ltac:(lia) Htime) as (Hy & Hmo & _).
    auto.
  - exfalso.
    assert (Hm' : 0 <= m <= 10).
    { assert (m = 11 -> False); [|lia].
      intros ->. cbv beta iota delta [monthLength] in Hgt. lia. }
    pose proof (monthLength_ge_28 m (leapDay y) ltac:(lia)) as Hlen.
    rewrite (MakeDay_overflow y m dt Hm') in Hkept.
    destruct (MakeDay_fields y (m + 1) (dt - monthLength m (leapDay y)) time)
      as (_ & _ & Hd); [lia| |exact Htime|lia].
    split; [lia|].
    pose proof (monthLength_ge_28 (m + 1) (leapDay y) ltac:(lia)). lia.
Qed.

Lemma DateFromTime_1_31 (t : Z) : 1 <= DateFromTime t <= 31.
Proof.
  pose proof (DateFromTime_range t) as H.
  pose proof (InLeapYear_cases t) as Hl.
  assert (monthLength (MonthFromTime t) (InLeapYear t) <= 31); [|lia].
  unfold monthLength.
  repeat match goal with |- context [match ?x with _ => _ end] =>
                           destruct x end; lia.
Qed.

Lemma WeekDay_range (t : Z) : 0 <= WeekDay t < 7.
Proof. unfold WeekDay. apply Z.mod_pos_bound. lia. Qed.

Lemma monthStart_range (m leap : Z) :
  0 <= leap <= 1 -> 0 <= monthStart m leap <= 335.
Proof.
  intros H. unfold monthStart.
  repeat match goal with |- context [match ?x with _ => _ end] =>
                           destruct x end; lia.
Qed.

(** A date within the range of [Date] lies in a year within 300 000 years
    of the epoch. *)
Lemma MakeDay_year_bound (y m dt time : Z) :
  1 <= dt <= 31 -> 0 <= time < msPerDay ->
  timeValue (MakeDate (MakeDay y m dt) time) ->
  Z.abs (y + m / 12) <= 300000.
Proof.
  intros Hdt Htime. unfold timeValue, MakeDate, MakeDay, maxTime. cbv zeta.
  set (ym := y + m / 12).
  pose proof (monthStart_range (m mod 12)
                (if DaysInYear ym =? 366 then 1 else 0)
                ltac:(destruct (DaysInYear ym =? 366); lia)) as Hms.
  set (ms := monthStart _ _) in *.
  unfold DayFromYear, msPerDay in *. intros H.
  Z.div_mod_to_equations. lia.
Qed.

Lemma YearFromTime_bound (t : Z) :
  timeValue t -> Z.abs (YearFromTime t) <= 300000.
Proof.
  unfold timeValue, maxTime, YearFromTime. intros H.
  pose proof (YearFromDay_spec (Day t)) as [H1 H2].
  assert (Hd : - 100000000 <= Day t <= 100000000)
    by (unfold Day, msPerDay; Z.div_mod_to_equations; lia).
  unfold DayFromYear in *. Z.div_mod_to_equations. lia.
Qed.

(** A field that a setter accepted for a date within the range was
    computed without rounding. *)
Lemma field_exact_inv (field x : Z) :
  Z.abs field <= 300000 -> Z.abs (rnd (field + rnd x)) <= 10000000 ->
  rnd (field + rnd x) = field + x /\ Z.abs x <= 10300000.
Proof.
  intros Hf Hb.
  assert (E1 : rnd (field + rnd x) = field + rnd x)
    by (apply rnd_inv_small; unfold two53; lia).
  rewrite E1 in *.
  assert (E2 : rnd x = x) by (apply rnd_inv_small; unfold two53; lia).
  rewrite E2 in *. split; lia.
Qed.

(** The day of the month less the day of the week, as [applyRounding]
    computes it for the week: nothing to round. *)
Lemma rnd_date_weekday (t : Z) :
  rnd (DateFromTime t - WeekDay t) = DateFromTime t - WeekDay t.
Proof.
  pose proof (DateFromTime_1_31 t). pose proof (WeekDay_range t).
  apply rnd_small. unfold two53. lia.
Qed.

End Calendar.

(** * The setters, as arithmetic on the time value *)

Section Setters.

Lemma TimeClip_Some (t s : Z) : TimeClip t = Some s -> s = t /\ timeValue t.
Proof.
  unfold TimeClip, timeValue.
  destruct (Z.ltb_spec maxTime (Z.abs t)) as [Hlt|Hle]; [discriminate|].
  intros E. injection E as <-. split; [reflexivity|lia].
Qed.

Lemma TimeClip_timeValue (t : Z) : timeValue t -> TimeClip t = Some t.
Proof.
  unfold timeValue, TimeClip. intros H.
  destruct (Z.ltb_spec maxTime (Z.abs t)); [lia|reflexivity].
Qed.

(** Rounding to a double does not move a number across the bounds of
    [TimeClip]. *)
Lemma TimeClip_rnd (z : Z) : TimeClip (rnd z) = TimeClip z.
Proof.
  destruct (Z_le_gt_dec (Z.abs z) two53) as [Hs|Hb];
    [rewrite (rnd_small z Hs); reflexivity|].
  unfold TimeClip.
  destruct (Z_le_gt_dec 0 z) as [Hp|Hn].
  - pose proof (rnd_big_pos z ltac:(lia)) as H.
    destruct (Z.ltb_spec maxTime (Z.abs (rnd z)));
      destruct (Z.ltb_spec maxTime (Z.abs z));
      unfold maxTime, two53 in *; try reflexivity; lia.
  - pose proof (rnd_big_neg z ltac:(lia)) as H.
    destruct (Z.ltb_spec maxTime (Z.abs (rnd z)));
      destruct (Z.ltb_spec maxTime (Z.abs z));
      unfold maxTime, two53 in *; try reflexivity; lia.
Qed.

Lemma TimeClip_far (z : Z) :
  two53 - msPerDay <= Z.abs z -> TimeClip z = None.
Proof.
  unfold TimeClip, two53, msPerDay, maxTime. intros H.
  destruct (Z.ltb_spec 8640000000000000 (Z.abs z)); [reflexivity|lia].
Qed.

Lemma rnd_far (z : Z) : two53 <= Z.abs z -> two53 <= Z.abs (rnd z).
Proof.
  intros H. destruct (Z_le_gt_dec 0 z) as [Hp|Hn].
  - pose proof (rnd_big_pos z ltac:(lia)). lia.
  - pose proof (rnd_big_neg z ltac:(lia)). lia.
Qed.

(** The setters compute in doubles the date that they compute here: when
    the day's milliseconds are below 2^53, as those of the day number of a
    date are, or the time is one within a day. *)
Lemma TimeClip_MakeDate_double (day time : Z) :
  Z.abs (day * msPerDay) <= two53 \/ Z.abs time <= msPerDay ->
  TimeClip (MakeDate_double day time) = TimeClip (MakeDate day time).
Proof.
  intros H. unfold MakeDate_double, MakeDate. rewrite TimeClip_rnd.
  destruct (Z_le_gt_dec (Z.abs (day * msPerDay)) two53) as [Hs|Hb];
    [rewrite (rnd_small _ Hs); reflexivity|].
  destruct H as [H|H]; [lia|].
  pose proof (rnd_far (day * msPerDay) ltac:(lia)) as Hr.
  rewrite !TimeClip_far by lia. reflexivity.
Qed.

Lemma TimeClip_MakeDay_double (year month date time : Z) :
  0 <= time < msPerDay ->
  TimeClip (MakeDate_double (MakeDay_double year month date) time)
  = TimeClip (MakeDate (MakeDay year month date) time).
Proof.
  intros Ht. unfold MakeDay_double, MakeDay. cbv zeta.
  set (a := DayFromYear (year + month / 12)
            + monthStart (month mod 12)
                (if DaysInYear (year + month / 12) =? 366 then 1 else 0)
            + date).
  destruct (Z_le_gt_dec (Z.abs a) (two53 - 1)) as [Hs|Hb].
  - rewrite (rnd_small a) by lia.
    rewrite (rnd_small (a - 1)) by lia.
    apply TimeClip_MakeDate_double. right. lia.
  - pose proof (rnd_far a ltac:(lia)) as Hr.
    assert (Hd : two53 - 1 <= Z.abs (rnd (rnd a - 1))).
    { destruct (Z_le_gt_dec (Z.abs (rnd a - 1)) two53) as [Hs'|Hb'].
      - rewrite (rnd_small _ Hs'). lia.
      - pose proof (rnd_far (rnd a - 1) ltac:(lia)). lia. }
    rewrite TimeClip_MakeDate_double by (right; lia).
    unfold MakeDate.
    rewrite !TimeClip_far; [reflexivity| |];
      unfold two53, msPerDay in *; nia.
Qed.

Lemma floorTo_fix (q t : Z) : 0 < q -> floorTo q (floorTo q t) = floorTo q t.
Proof.
  intros Hq. unfold floorTo. f_equal.
  rewrite Z.mul_comm. apply Z.div_mul. lia.
Qed.

Lemma setUTCDate_to (t dt : Z) :
  setUTCDate (Some t) (Some dt)
  = TimeClip (t + (dt - DateFromTime t) * msPerDay).
Proof.
  unfold setUTCDate. f_equal.
  replace dt with (DateFromTime t + (dt - DateFromTime t)) at 1 by lia.
  rewrite MakeDay_DateFromTime.
  pose proof (MakeDate_Day t) as H. unfold MakeDate in *. lia.
Qed.

(** The setters of the time of day, for a field that moves the time by at
    most 2^53 ms less a day: nothing is rounded. *)
Lemma setUTCHours1_to (t h : Z) :
  Z.abs (h - HourFromTime t) * msPerHour + msPerDay <= two53 ->
  setUTCHours1 (Some t) (Some h)
  = TimeClip (t + (h - HourFromTime t) * msPerHour).
Proof.
  intros Hb. unfold setUTCHours1. f_equal.
  pose proof (timeFields_range t) as (Hh & Hm & Hs & Hms).
  pose proof (TimeWithinDay_fields t) as H1. pose proof (MakeDate_Day t) as H2.
  pose proof (TimeWithinDay_range t) as H3.
  rewrite MakeTime_exact
    by (unfold msPerHour, msPerMinute, msPerSecond, msPerDay, two53 in *; lia).
  unfold MakeDate in *. lia.
Qed.

Lemma setUTCMinutes1_to (t m : Z) :
  Z.abs (m - MinFromTime t) * msPerMinute + msPerDay <= two53 ->
  setUTCMinutes1 (Some t) (Some m)
  = TimeClip (t + (m - MinFromTime t) * msPerMinute).
Proof.
  intros Hb. unfold setUTCMinutes1. f_equal.
  pose proof (timeFields_range t) as (Hh & Hm & Hs & Hms).
  pose proof (TimeWithinDay_fields t) as H1. pose proof (MakeDate_Day t) as H2.
  pose proof (TimeWithinDay_range t) as H3.
  rewrite MakeTime_exact
    by (unfold msPerHour, msPerMinute, msPerSecond, msPerDay, two53 in *; lia).
  unfold MakeDate in *. lia.
Qed.

Lemma setUTCSeconds1_to (t sec : Z) :
  Z.abs (sec - SecFromTime t) * msPerSecond + msPerDay <= two53 ->
  setUTCSeconds1 (Some t) (Some sec)
  = TimeClip (t + (sec - SecFromTime t) * msPerSecond).
Proof.
  intros Hb. unfold setUTCSeconds1. f_equal.
  pose proof (timeFields_range t) as (Hh & Hm & Hs & Hms).
  pose proof (TimeWithinDay_fields t) as H1. pose proof (MakeDate_Day t) as H2.
  pose proof (TimeWithinDay_range t) as H3.
  rewrite MakeTime_exact
    by (unfold msPerHour, msPerMinute, msPerSecond, msPerDay, two53 in *; lia).
  unfold MakeDate in *. lia.
Qed.

Lemma setUTCHours4_zero (t : Z) :
  setUTCHours4 (Some t) (num 0) (num 0) (num 0) (num 0)
  = TimeClip (floorTo msPerDay t).
Proof.
  unfold setUTCHours4, num. change (MakeTime 0 0 0 0) with 0.
  unfold floorTo, MakeDate, Day. f_equal. lia.
Qed.

Lemma setUTCMinutes3_zero (t : Z) :
  setUTCMinutes3 (Some t) (num 0) (num 0) (num 0)
  = TimeClip (floorTo msPerHour t).
Proof.
  unfold setUTCMinutes3, num.
  pose proof (timeFields_range t) as (Hh & Hm & Hs & Hms).
  rewrite MakeTime_exact
    by (unfold msPerHour, msPerMinute, msPerSecond, two53; lia).
  unfold floorTo, MakeDate, Day, HourFromTime,
    msPerDay, msPerHour, msPerMinute, msPerSecond.
  f_equal. Z.div_mod_to_equations. lia.
Qed.

Lemma setUTCSeconds2_zero (t : Z) :
  setUTCSeconds2 (Some t) (num 0) (num 0) = TimeClip (floorTo msPerMinute t).
Proof.
  unfold setUTCSeconds2, num.
  pose proof (timeFields_range t) as (Hh & Hm & Hs & Hms).
  rewrite MakeTime_exact
    by (unfold msPerHour, msPerMinute, msPerSecond, two53; lia).
  unfold floorTo, MakeDate, Day, HourFromTime,
    MinFromTime, msPerDay, msPerHour, msPerMinute, msPerSecond.
  f_equal. Z.div_mod_to_equations. lia.
Qed.

Lemma setUTCMilliseconds_zero (t : Z) :
  setUTCMilliseconds (Some t) (num 0) = TimeClip (floorTo msPerSecond t).
Proof.
  unfold setUTCMilliseconds, num.
  pose proof (timeFields_range t) as (Hh & Hm & Hs & Hms).
  rewrite MakeTime_exact
    by (unfold msPerHour, msPerMinute, msPerSecond, two53; lia).
  unfold floorTo, MakeDate, Day,
    HourFromTime, MinFromTime, SecFromTime, msPerDay, msPerHour, msPerMinute,
    msPerSecond.
  f_equal. Z.div_mod_to_equations. lia.
Qed.

(** A time value at the start of a period stays where it is. *)
Lemma TimeClip_floorTo_fix (q t s : Z) :
  0 < q -> TimeClip (floorTo q t) = Some s -> TimeClip (floorTo q s) = Some s.
Proof.
  intros Hq H. destruct (TimeClip_Some _ _ H) as [-> Hv].
  rewrite floorTo_fix by exact Hq. exact H.
Qed.

End Setters.

(** * [applyRounding]: a rounded date is a fixed point *)

Section Rounding.

Local Open Scope string_scope.
Local Open Scope Z_scope.

Lemma Ok_inj {A : Type} (a b : A) : Ok a = Ok b -> a = b.
Proof. intros H. injection H as H. exact H. Qed.

Lemma applyRounding_invalid (u : string) :
  In u unitCodes -> applyRounding None u = Ok None.
Proof.
  cbn [unitCodes In]. intros H.
  repeat (destruct H as [<- | H]; [reflexivity|]). destruct H.
Qed.

Lemma Day_floorTo (a : Z) : Day (floorTo msPerDay a) = Day a.
Proof.
  unfold Day, floorTo, msPerDay. rewrite Z.mul_comm. apply Z.div_mul. lia.
Qed.

Lemma floorTo_MakeDate (a : Z) : floorTo msPerDay a = MakeDate (Day a) 0.
Proof. unfold floorTo, MakeDate, Day. lia. Qed.

Lemma Day_shift (t k : Z) : Day (t + k * msPerDay) = Day t + k.
Proof. unfold Day, msPerDay. apply Z.div_add. lia. Qed.

Lemma monthLength_positive (m leap : Z) :
  0 <= leap -> 1 <= monthLength m leap.
Proof.
  intros H. unfold monthLength.
  repeat match goal with |- context [match ?x with _ => _ end] =>
                           destruct x end; lia.
Qed.

Lemma leapDay_nonneg (y : Z) : 0 <= leapDay y.
Proof. unfold leapDay. destruct (_ =? _); lia. Qed.

(** The start of a day is a fixed point of [setUTCHours(0, 0, 0, 0)]. *)
Lemma startOfDay_fixed (a s : Z) :
  TimeClip (floorTo msPerDay a) = Some s ->
  setUTCHours4 (Some s) (num 0) (num 0) (num 0) (num 0) = Some s.
Proof.
  intros H. rewrite setUTCHours4_zero.
  apply (TimeClip_floorTo_fix msPerDay a s); [reflexivity|exact H].
Qed.

Lemma round_fixed_d (t : Z) (r : Date) :
  applyRounding (Some t) "d" = Ok r -> applyRounding r "d" = Ok r.
Proof.
  change (applyRounding (Some t) "d")
    with (Ok (setUTCHours4 (Some t) (num 0) (num 0) (num 0) (num 0))).
  rewrite setUTCHours4_zero. intros H. apply Ok_inj in H. subst r.
  destruct (TimeClip (floorTo msPerDay t)) as [s|] eqn:E; [|reflexivity].
  change (applyRounding (Some s) "d")
    with (Ok (setUTCHours4 (Some s) (num 0) (num 0) (num 0) (num 0))).
  rewrite (startOfDay_fixed t s E). reflexivity.
Qed.

Lemma round_fixed_h (t : Z) (r : Date) :
  applyRounding (Some t) "h" = Ok r -> applyRounding r "h" = Ok r.
Proof.
  change (applyRounding (Some t) "h")
    with (Ok (setUTCMinutes3 (Some t) (num 0) (num 0) (num 0))).
  rewrite setUTCMinutes3_zero. intros H. apply Ok_inj in H. subst r.
  destruct (TimeClip (floorTo msPerHour t)) as [s|] eqn:E; [|reflexivity].
  change (applyRounding (Some s) "h")
    with (Ok (setUTCMinutes3 (Some s) (num 0) (num 0) (num 0))).
  rewrite setUTCMinutes3_zero.
  rewrite (TimeClip_floorTo_fix msPerHour t s); [reflexivity..|exact E].
Qed.

Lemma round_fixed_m (t : Z) (r : Date) :
  applyRounding (Some t) "m" = Ok r -> applyRounding r "m" = Ok r.
Proof.
  change (applyRounding (Some t) "m")
    with (Ok (setUTCSeconds2 (Some t) (num 0) (num 0))).
  rewrite setUTCSeconds2_zero. intros H. apply Ok_inj in H. subst r.
  destruct (TimeClip (floorTo msPerMinute t)) as [s|] eqn:E; [|reflexivity].
  change (applyRounding (Some s) "m")
    with (Ok (setUTCSeconds2 (Some s) (num 0) (num 0))).
  rewrite setUTCSeconds2_zero.
  rewrite (TimeClip_floorTo_fix msPerMinute t s); [reflexivity..|exact E].
Qed.

Lemma round_fixed_s (t : Z) (r : Date) :
  applyRounding (Some t) "s" = Ok r -> applyRounding r "s" = Ok r.
Proof.
  change (applyRounding (Some t) "s")
    with (Ok (setUTCMilliseconds (Some t) (num 0))).
  rewrite setUTCMilliseconds_zero. intros H. apply Ok_inj in H. subst r.
  destruct (TimeClip (floorTo msPerSecond t)) as [s|] eqn:E; [|reflexivity].
  change (applyRounding (Some s) "s")
    with (Ok (setUTCMilliseconds (Some s) (num 0))).
  rewrite setUTCMilliseconds_zero.
  rewrite (TimeClip_floorTo_fix msPerSecond t s); [reflexivity..|exact E].
Qed.

Lemma round_fixed_M (t : Z) (r : Date) :
  applyRounding (Some t) "M" = Ok r -> applyRounding r "M" = Ok r.
Proof.
  change (applyRounding (Some t) "M")
    with (Ok (setUTCHours4 (setUTCDate (Some t) (num 1))
                (num 0) (num 0) (num 0) (num 0))).
  unfold num at 1. rewrite setUTCDate_to.
  set (a := t + (1 - DateFromTime t) * msPerDay).
  intros H. apply Ok_inj in H. subst r.
  destruct (TimeClip a) as [a'|] eqn:Ea; [|reflexivity].
  destruct (TimeClip_Some _ _ Ea) as [-> _].
  rewrite setUTCHours4_zero.
  destruct (TimeClip (floorTo msPerDay a)) as [s|] eqn:E; [|reflexivity].
  destruct (TimeClip_Some _ _ E) as [Hs Hv].
  assert (Hday : Day a = MakeDay (YearFromTime t) (MonthFromTime t) 1).
  { unfold a. rewrite Day_shift.
    rewrite <- (MakeDay_DateFromTime t (1 - DateFromTime t)).
    f_equal. lia. }
  assert (Hdate : DateFromTime s = 1).
  { rewrite Hs, floorTo_MakeDate, Hday.
    apply (MakeDay_fields (YearFromTime t) (MonthFromTime t) 1 0).
    - apply MonthFromTime_range.
    - split; [lia|]. apply monthLength_positive, leapDay_nonneg.
    - unfold msPerDay. lia. }
  change (applyRounding (Some s) "M")
    with (Ok (setUTCHours4 (setUTCDate (Some s) (num 1))
                (num 0) (num 0) (num 0) (num 0))).
  unfold num at 1. rewrite setUTCDate_to, Hdate.
  replace (s + (1 - 1) * msPerDay) with s by lia.
  rewrite (TimeClip_timeValue s) by (rewrite Hs; exact Hv).
  rewrite (startOfDay_fixed a s E). reflexivity.
Qed.

Lemma round_fixed_y (t : Z) (r : Date) :
  applyRounding (Some t) "y" = Ok r -> applyRounding r "y" = Ok r.
Proof.
  change (applyRounding (Some t) "y")
    with (Ok (setUTCHours4 (setUTCMonth2 (Some t) (num 0) (num 1))
                (num 0) (num 0) (num 0) (num 0))).
  unfold setUTCMonth2 at 1, num at 1 2.
  set (a := MakeDate (MakeDay (YearFromTime t) 0 1) (TimeWithinDay t)).
  intros H. apply Ok_inj in H. subst r.
  destruct (TimeClip a) as [a'|] eqn:Ea; [|reflexivity].
  destruct (TimeClip_Some _ _ Ea) as [-> _].
  rewrite setUTCHours4_zero.
  destruct (TimeClip (floorTo msPerDay a)) as [s|] eqn:E; [|reflexivity].
  destruct (TimeClip_Some _ _ E) as [Hs Hv].
  assert (Hday : Day a = MakeDay (YearFromTime t) 0 1).
  { unfold a. apply Day_MakeDate, TimeWithinDay_range. }
  assert (Hs' : s = MakeDate (MakeDay (YearFromTime t) 0 1) 0).
  { rewrite Hs, floorTo_MakeDate, Hday. reflexivity. }
  assert (Hyear : YearFromTime s = YearFromTime t).
  { rewrite Hs'.
    apply (MakeDay_fields (YearFromTime t) 0 1 0).
    - lia.
    - split; [lia|]. apply monthLength_positive, leapDay_nonneg.
    - unfold msPerDay. lia. }
  change (applyRounding (Some s) "y")
    with (Ok (setUTCHours4 (setUTCMonth2 (Some s) (num 0) (num 1))
                (num 0) (num 0) (num 0) (num 0))).
  unfold setUTCMonth2 at 1, num at 1 2.
  rewrite Hyear.
  assert (Htw : TimeWithinDay s = 0).
  { rewrite Hs'. apply TimeWithinDay_MakeDate. unfold msPerDay. lia. }
  rewrite Htw, <- Hs'.
  rewrite (TimeClip_timeValue s) by (rewrite Hs; exact Hv).
  rewrite (startOfDay_fixed a s E). reflexivity.
Qed.

Lemma round_fixed_w (t : Z) (r : Date) :
  applyRounding (Some t) "w" = Ok r -> applyRounding r "w" = Ok r.
Proof.
  change (applyRounding (Some t) "w")
    with (Ok (setUTCHours4
                (setUTCDate (Some t)
                   (num_sub (getUTCDate (Some t)) (getUTCDay (Some t))))
                (num 0) (num 0) (num 0) (num 0))).
  cbn [getUTCDate getUTCDay option_map num_sub].
  rewrite rnd_date_weekday, setUTCDate_to.
  set (a := t + (DateFromTime t - WeekDay t - DateFromTime t) * msPerDay).
  intros H. apply Ok_inj in H. subst r.
  destruct (TimeClip a) as [a'|] eqn:Ea; [|reflexivity].
  destruct (TimeClip_Some _ _ Ea) as [-> _].
  rewrite setUTCHours4_zero.
  destruct (TimeClip (floorTo msPerDay a)) as [s|] eqn:E; [|reflexivity].
  destruct (TimeClip_Some _ _ E) as [Hs Hv].
  assert (Hwd : WeekDay s = 0).
  { rewrite Hs. unfold WeekDay. rewrite Day_floorTo. unfold a.
    rewrite Day_shift. unfold WeekDay. Z.div_mod_to_equations. lia. }
  change (applyRounding (Some s) "w")
    with (Ok (setUTCHours4
                (setUTCDate (Some s)
                   (num_sub (getUTCDate (Some s)) (getUTCDay (Some s))))
                (num 0) (num 0) (num 0) (num 0))).
  cbn [getUTCDate getUTCDay option_map num_sub].
  rewrite rnd_date_weekday, setUTCDate_to, Hwd.
  replace (s + (DateFromTime s - 0 - DateFromTime s) * msPerDay) with s
    by lia.
  rewrite (TimeClip_timeValue s) by (rewrite Hs; exact Hv).
  rewrite (startOfDay_fixed a s E). reflexivity.
Qed.

(** Whatever date a rounding returns, rounding it again returns it. *)
Lemma applyRounding_fixed (date r : Date) (u : string) :
  In u unitCodes -> applyRounding date u = Ok r -> applyRounding r u = Ok r.
Proof.
  intros Hu. destruct date as [t|].
  - cbn [unitCodes In] in Hu.
    destruct Hu as [<- | [<- | [<- | [<- | [<- | [<- | [<- | []]]]]]]].
    + apply round_fixed_d.
    + apply round_fixed_M.
    + apply round_fixed_y.
    + apply round_fixed_h.
    + apply round_fixed_m.
    + apply round_fixed_s.
    + apply round_fixed_w.
  - rewrite (applyRounding_invalid u Hu). intros H. apply Ok_inj in H. subst r.
    apply applyRounding_invalid, Hu.
Qed.

Lemma applyRounding_returns (date : Date) (u : string) :
  In u unitCodes -> exists r, applyRounding date u = Ok r.
Proof.
  cbn [unitCodes In]. intros H.
  repeat (destruct H as [<- | H]; [eexists; reflexivity|]). destruct H.
Qed.

End Rounding.

(** * [applyAdjustment] as arithmetic on the time value *)

(** The side conditions of [applyAdjustment_fixed] at a given unit and a
    small magnitude. *)
Ltac fixed_side :=
  first
    [ lia
    | cbn; tauto
    | let H := fresh in
      intros H; cbn in H;
      repeat (destruct H as [H | H]; [discriminate H|]); destruct H
    | intros _; vm_compute; discriminate ].

Section Adjustments.

Local Open Scope string_scope.
Local Open Scope Z_scope.

(** The field that an adjustment hands to its setter, for a magnitude
    below 10^15: nothing is rounded. *)
Lemma adjusted_field (field n k dir : Z) :
  0 <= field <= 60 -> 0 <= n <= 1000000000000000 -> k = 1 \/ k = 7 ->
  dir = 1 \/ dir = -1 ->
  rnd (field + rnd (rnd (n * k) * dir)) = field + n * k * dir.
Proof.
  intros Hf Hn Hk Hd.
  rewrite (rnd_small (n * k)) by (unfold two53; lia).
  rewrite (rnd_small (n * k * dir)) by (unfold two53; lia).
  apply rnd_small. unfold two53. lia.
Qed.

Lemma adjusted_field_1 (field n dir : Z) :
  0 <= field <= 60 -> 0 <= n <= 1000000000000000 -> dir = 1 \/ dir = -1 ->
  rnd (field + rnd (n * dir)) = field + n * dir.
Proof.
  intros Hf Hn Hd.
  rewrite (rnd_small (n * dir)) by (unfold two53; lia).
  apply rnd_small. unfold two53. lia.
Qed.

(** On a unit of fixed length the adjustment adds that many milliseconds,
    for a magnitude that nothing rounds: below 10^15, and for seconds,
    minutes and hours at most 2^53 ms less a day. *)
Lemma applyAdjustment_fixed (t n : Z) (sign u : string) :
  In u fixedUnits -> 0 <= n <= 1000000000000000 ->
  (In u ["s"; "m"; "h"] -> n * unitMs u + msPerDay <= two53) ->
  applyAdjustment (Some t) sign n u
  = TimeClip (t + n * (if (sign =? "+")%string then 1 else -1) * unitMs u).
Proof.
  cbn [fixedUnits In]. intros Hu Hn Hb.
  pose proof (timeFields_range t) as (Hh & Hm & Hs & Hms).
  pose proof (DateFromTime_1_31 t) as Hdt.
  set (dir := if (sign =? "+")%string then 1 else -1).
  assert (Hdir : dir = 1 \/ dir = -1)
    by (unfold dir; destruct (sign =? "+")%string; auto).
  destruct Hu as [<- | [<- | [<- | [<- | [<- | []]]]]].
  - change (applyAdjustment (Some t) sign n "s")
      with (setUTCSeconds1 (Some t)
              (Some (rnd (SecFromTime t + rnd (n * dir))))).
    rewrite adjusted_field_1 by lia.
    specialize (Hb ltac:(cbn; tauto)). change (unitMs "s") with msPerSecond in *.
    rewrite setUTCSeconds1_to; [f_equal; lia|].
    unfold msPerSecond in *. lia.
  - change (applyAdjustment (Some t) sign n "m")
      with (setUTCMinutes1 (Some t)
              (Some (rnd (MinFromTime t + rnd (n * dir))))).
    rewrite adjusted_field_1 by lia.
    specialize (Hb ltac:(cbn; tauto)). change (unitMs "m") with msPerMinute in *.
    rewrite setUTCMinutes1_to; [f_equal; lia|].
    unfold msPerMinute in *. lia.
  - change (applyAdjustment (Some t) sign n "h")
      with (setUTCHours1 (Some t)
              (Some (rnd (HourFromTime t + rnd (n * dir))))).
    rewrite adjusted_field_1 by lia.
    specialize (Hb ltac:(cbn; tauto)). change (unitMs "h") with msPerHour in *.
    rewrite setUTCHours1_to; [f_equal; lia|].
    unfold msPerHour in *. lia.
  - change (applyAdjustment (Some t) sign n "d")
      with (setUTCDate (Some t)
              (Some (rnd (DateFromTime t + rnd (n * dir))))).
    rewrite adjusted_field_1 by lia.
    rewrite setUTCDate_to. f_equal. change (unitMs "d") with msPerDay.
    lia.
  - change (applyAdjustment (Some t) sign n "w")
      with (setUTCDate (Some t)
              (Some (rnd (DateFromTime t + rnd (rnd (n * 7) * dir))))).
    rewrite (adjusted_field _ n 7 dir) by lia.
    rewrite setUTCDate_to. f_equal.
    change (unitMs "w") with (7 * msPerDay). lia.
Qed.

Lemma floorTo_hour_range (t : Z) : timeValue t -> timeValue (floorTo msPerHour t).
Proof.
  unfold timeValue, floorTo, maxTime, msPerHour. intros H.
  Z.div_mod_to_equations. lia.
Qed.

(** Four days back and the start of the hour, in either order. *)
Lemma adjust_round_commute (now : Z) :
  timeValue now -> parse now "now-4d/h" = parse now "now/h-4d".
Proof.
  intros Hnow.
  change (parse now "now-4d/h")
    with (Ok (setUTCMinutes3 (applyAdjustment (Some now) "-" 4 "d")
                (num 0) (num 0) (num 0))).
  change (parse now "now/h-4d")
    with (Ok (applyAdjustment
                (setUTCMinutes3 (Some now) (num 0) (num 0) (num 0))
                "-" 4 "d")).
  f_equal.
  rewrite setUTCMinutes3_zero.
  rewrite (TimeClip_timeValue _ (floorTo_hour_range now Hnow)).
  rewrite !applyAdjustment_fixed by fixed_side.
  change ("-" =? "+")%string with false. change (unitMs "d") with msPerDay.
  cbv iota.
  destruct (TimeClip (now + 4 * -1 * msPerDay)) as [a|] eqn:Ea.
  - destruct (TimeClip_Some _ _ Ea) as [-> Ha].
    rewrite setUTCMinutes3_zero. f_equal.
    unfold floorTo, msPerHour, msPerDay. Z.div_mod_to_equations. lia.
  - cbn [setUTCMinutes3]. symmetry.
    unfold TimeClip in *.
    destruct (Z.ltb_spec maxTime (Z.abs (now + 4 * -1 * msPerDay)));
      [|discriminate].
    destruct (Z.ltb_spec maxTime
                (Z.abs (floorTo msPerHour now + 4 * -1 * msPerDay)));
      [reflexivity|].
    exfalso. unfold timeValue, floorTo, maxTime, msPerHour, msPerDay in *.
    Z.div_mod_to_equations. lia.
Qed.

(** Months forward, then as many months back: the reference again, when
    the day of month survived the way forward. *)
Lemma adjust_month_back (t n t' : Z) :
  timeValue t ->
  applyAdjustment (Some t) "+" n "M" = Some t' ->
  DateFromTime t' = DateFromTime t ->
  applyAdjustment (Some t') "-" n "M" = Some t.
Proof.
  intros Ht.
  change (applyAdjustment (Some t) "+" n "M")
    with (setUTCMonth1 (Some t) (Some (rnd (MonthFromTime t + rnd (n * 1))))).
  change (applyAdjustment (Some t') "-" n "M")
    with (setUTCMonth1 (Some t')
            (Some (rnd (MonthFromTime t' + rnd (n * -1))))).
  unfold setUTCMonth1. intros H Hkept.
  assert (Hex : rnd (MonthFromTime t + rnd (n * 1)) = MonthFromTime t + n * 1
                /\ Z.abs (n * 1) <= 10300000).
  { destruct (TimeClip_Some _ _ H) as [_ Hv].
    pose proof (MakeDay_year_bound _ _ _ _ (DateFromTime_1_31 t)
                  (TimeWithinDay_range t) Hv) as Hb.
    pose proof (YearFromTime_bound t Ht) as Hy.
    pose proof (MonthFromTime_range t) as HM.
    apply field_exact_inv; [lia|].
    set (m := rnd (MonthFromTime t + rnd (n * 1))) in *.
    Z.div_mod_to_equations. lia. }
  destruct Hex as [Hex Hn]. rewrite Hex in H.
  pose proof (MonthFromTime_range t') as HM'.
  rewrite (rnd_small (n * -1)) by (unfold two53; lia).
  rewrite (rnd_small (MonthFromTime t' + n * -1)) by (unfold two53; lia).
  destruct (TimeClip_Some _ _ H) as [Ht' _].
  rewrite MakeDay_normalize in Ht'.
  set (ym := YearFromTime t + (MonthFromTime t + n * 1) / 12) in *.
  set (mn := (MonthFromTime t + n * 1) mod 12) in *.
  pose proof (MonthFromTime_range t) as HM.
  pose proof (TimeWithinDay_range t) as HT.
  assert (Hmn : 0 <= mn <= 11) by (unfold mn; Z.div_mod_to_equations; lia).
  rewrite Ht' in Hkept.
  destruct (MakeDay_fields_kept ym mn (DateFromTime t) (TimeWithinDay t)
              Hmn (DateFromTime_1_31 t) HT Hkept) as [Hy Hm].
  rewrite <- Ht' in Hy, Hm, Hkept.
  rewrite Hy, Hm, Hkept.
  assert (Htw : TimeWithinDay t' = TimeWithinDay t)
    by (rewrite Ht'; apply TimeWithinDay_MakeDate, HT).
  rewrite Htw, MakeDay_normalize.
  rewrite (MakeDay_eq _ (YearFromTime t) _ (MonthFromTime t)).
  - rewrite MakeDay_Day, MakeDate_Day.
    apply TimeClip_timeValue, Ht.
  - unfold ym, mn. Z.div_mod_to_equations. lia.
  - unfold ym, mn. Z.div_mod_to_equations. lia.
Qed.

(** The same for years. *)
Lemma adjust_year_back (t n t' : Z) :
  timeValue t ->
  applyAdjustment (Some t) "+" n "y" = Some t' ->
  DateFromTime t' = DateFromTime t ->
  applyAdjustment (Some t') "-" n "y" = Some t.
Proof.
  intros Ht.
  change (applyAdjustment (Some t) "+" n "y")
    with (setUTCFullYear1 (Some t)
            (Some (rnd (YearFromTime t + rnd (n * 1))))).
  change (applyAdjustment (Some t') "-" n "y")
    with (setUTCFullYear1 (Some t')
            (Some (rnd (YearFromTime t' + rnd (n * -1))))).
  unfold setUTCFullYear1. intros H Hkept.
  assert (Hex : rnd (YearFromTime t + rnd (n * 1)) = YearFromTime t + n * 1
                /\ Z.abs (n * 1) <= 10300000).
  { destruct (TimeClip_Some _ _ H) as [_ Hv].
    pose proof (MonthFromTime_range t) as HM.
    pose proof (MakeDay_year_bound _ _ _ _ (DateFromTime_1_31 t)
                  (TimeWithinDay_range t) Hv) as Hb.
    rewrite (Z.div_small (MonthFromTime t) 12), Z.add_0_r in Hb by lia.
    pose proof (YearFromTime_bound t Ht) as Hy.
    apply field_exact_inv; lia. }
  destruct Hex as [Hex Hn]. rewrite Hex in H.
  assert (Ht'v : timeValue t').
  { destruct (TimeClip_Some _ _ H) as [E Hv]. rewrite E. exact Hv. }
  pose proof (YearFromTime_bound t' Ht'v) as Hy'.
  rewrite (rnd_small (n * -1)) by (unfold two53; lia).
  rewrite (rnd_small (YearFromTime t' + n * -1)) by (unfold two53; lia).
  destruct (TimeClip_Some _ _ H) as [Ht' _].
  pose proof (MonthFromTime_range t) as HM.
  pose proof (TimeWithinDay_range t) as HT.
  rewrite Ht' in Hkept.
  destruct (MakeDay_fields_kept (YearFromTime t + n * 1) (MonthFromTime t)
              (DateFromTime t) (TimeWithinDay t)
              HM (DateFromTime_1_31 t) HT Hkept) as [Hy Hm].
  rewrite <- Ht' in Hy, Hm, Hkept.
  rewrite Hy, Hm, Hkept.
  assert (Htw : TimeWithinDay t' = TimeWithinDay t)
    by (rewrite Ht'; apply TimeWithinDay_MakeDate, HT).
  rewrite Htw.
  rewrite (MakeDay_eq _ (YearFromTime t) _ (MonthFromTime t)); [|lia|lia].
  rewrite MakeDay_Day, MakeDate_Day.
  apply TimeClip_timeValue, Ht.
Qed.

End Adjustments.

(** * The token pattern *)

Section Tokens.

Local Open Scope string_scope.

Lemma isUnit_cases (u : ascii) :
  isUnit u = true ->
  u = "d"%char \/ u = "M"%char \/ u = "y"%char \/ u = "h"%char \/
  u = "m"%char \/ u = "s"%char \/ u = "w"%char.
Proof.
  unfold isUnit, unitChars. cbn [existsb].
  repeat rewrite orb_true_iff. repeat rewrite Ascii.eqb_eq.
  intuition (auto; discriminate).
Qed.

Lemma isUnit_not_digit (u : ascii) : isUnit u = true -> isDigit u = false.
Proof.
  intros H.
  destruct (isUnit_cases u H) as [?|[?|[?|[?|[?|[?|?]]]]]]; subst; reflexivity.
Qed.

Lemma isDigit_not_sign (c : ascii) : isDigit c = true -> isSign c = false.
Proof.
  intros H. unfold isSign. cbn [existsb].
  destruct (Ascii.eqb_spec c "+"); [subst; discriminate|].
  destruct (Ascii.eqb_spec c "-"); [subst; discriminate|].
  reflexivity.
Qed.

Lemma append_assoc (a b c : string) : (a ++ b) ++ c = a ++ (b ++ c).
Proof. induction a; simpl; congruence. Qed.

Lemma append_empty_r (a : string) : a ++ "" = a.
Proof. induction a; simpl; congruence. Qed.

Lemma length_append (a b : string) :
  String.length (a ++ b) = (String.length a + String.length b)%nat.
Proof. induction a; simpl; congruence. Qed.

Lemma span_digits_spec (s ds rest : string) :
  span_digits s = (ds, rest) ->
  s = ds ++ rest /\ allDigits ds = true.
Proof.
  revert ds rest. induction s as [|c s IH]; simpl; intros ds rest H.
  - inversion H; subst. auto.
  - destruct (isDigit c) eqn:Hc.
    + destruct (span_digits s) as [ds' rest'].
      inversion H; subst.
      destruct (IH ds' rest eq_refl) as [-> Hd].
      simpl. rewrite Hc, Hd. auto.
    + inversion H; subst. auto.
Qed.

Lemma span_digits_app (ds : string) (c : ascii) (r : string) :
  allDigits ds = true -> isDigit c = false ->
  span_digits (ds ++ String c r) = (ds, String c r).
Proof.
  intros Hd Hc. induction ds as [|d ds IH]; simpl in *.
  - rewrite Hc. reflexivity.
  - apply andb_true_iff in Hd as [Hd1 Hd2].
    rewrite Hd1, (IH Hd2). reflexivity.
Qed.

Lemma match_digits_unit_spec (s tok rest : string) :
  match_digits_unit s = Some (tok, rest) ->
  s = tok ++ rest /\
  exists d ds u, tok = String d ds ++ String u "" /\
    isDigit d = true /\ allDigits ds = true /\ isUnit u = true.
Proof.
  unfold match_digits_unit.
  destruct (span_digits s) as [ds r] eqn:Hs.
  destruct (span_digits_spec _ _ _ Hs) as [-> Hd].
  destruct ds as [|d ds]; [discriminate|].
  destruct r as [|u r]; [discriminate|].
  destruct (isUnit u) eqn:Hu; [|discriminate].
  intros H. inversion H; subst. split.
  - symmetry. apply (append_assoc (String d ds) (String u "") rest).
  - simpl in Hd. apply andb_true_iff in Hd as [Hd1 Hd2].
    exists d, ds, u. auto.
Qed.

Lemma match_digits_unit_app (d : ascii) (ds : string) (u : ascii)
  (r : string) :
  isDigit d = true -> allDigits ds = true -> isUnit u = true ->
  match_digits_unit ((String d ds ++ String u "") ++ r)
  = Some (String d ds ++ String u "", r).
Proof.
  intros Hd Hds Hu. unfold match_digits_unit.
  rewrite append_assoc. cbn [append].
  change (String d (ds ++ String u r)) with (String d ds ++ String u r).
  rewrite span_digits_app.
  - rewrite Hu. reflexivity.
  - simpl. rewrite Hd, Hds. reflexivity.
  - apply isUnit_not_digit, Hu.
Qed.

Lemma match_slash_unit_spec (s tok rest : string) :
  match_slash_unit s = Some (tok, rest) ->
  s = tok ++ rest /\ exists u, tok = String "/" (String u "") /\
                               isUnit u = true.
Proof.
  unfold match_slash_unit.
  destruct s as [|c s]; [discriminate|].
  destruct (Ascii.eqb_spec c "/") as [-> | Hc].
  - destruct s as [|u r]; [discriminate|].
    destruct (isUnit u) eqn:Hu; [|discriminate].
    intros H. inversion H; subst. split; [reflexivity|].
    exists u. auto.
  - intros H. exfalso.
    destruct c as [[] [] [] [] [] [] [] []]; try discriminate.
    apply Hc. reflexivity.
Qed.

(** What the scanner matches is a prefix of the text and a token. *)
Lemma scanToken_spec (s tok rest : string) :
  scanToken s = Some (tok, rest) -> s = tok ++ rest /\ token tok.
Proof.
  unfold scanToken.
  destruct s as [|c s'].
  - cbn. discriminate.
  - destruct (isSign c) eqn:Hc.
    + destruct (match_digits_unit s') as [[tok' rest']|] eqn:Hm.
      * intros H. inversion H; subst.
        destruct (match_digits_unit_spec _ _ _ Hm)
          as [-> (d & ds & u & -> & Hd & Hds & Hu)].
        split; [reflexivity|].
        apply (token_number (String c "") d ds u); auto.
        unfold isSign in Hc. cbn [existsb] in Hc.
        rewrite orb_false_r in Hc. apply orb_true_iff in Hc.
        rewrite !Ascii.eqb_eq in Hc. destruct Hc; subst; auto.
      * destruct (match_digits_unit (String c s')) as [[tok' rest']|] eqn:Hm2.
        -- intros H. inversion H; subst.
           destruct (match_digits_unit_spec _ _ _ Hm2)
             as [E (d & ds & u & -> & Hd & Hds & Hu)].
           split; [exact E|].
           apply (token_number "" d ds u); auto.
        -- intros H.
           destruct (match_slash_unit_spec _ _ _ H) as [E (u & -> & Hu)].
           split; [exact E|]. apply token_slash, Hu.
    + destruct (match_digits_unit (String c s')) as [[tok' rest']|] eqn:Hm2.
      * intros H. inversion H; subst.
        destruct (match_digits_unit_spec _ _ _ Hm2)
          as [E (d & ds & u & -> & Hd & Hds & Hu)].
        split; [exact E|].
        apply (token_number "" d ds u); auto.
      * intros H.
        destruct (match_slash_unit_spec _ _ _ H) as [E (u & -> & Hu)].
        split; [exact E|]. apply token_slash, Hu.
Qed.

(** A token followed by anything is matched, whole and alone. *)
Lemma scanToken_token (tok r : string) :
  token tok -> scanToken (tok ++ r) = Some (tok, r).
Proof.
  intros [sign d ds u Hs Hd Hds Hu | u Hu].
  - pose proof (match_digits_unit_app d ds u r Hd Hds Hu) as Hm.
    destruct Hs as [-> | [-> | ->]].
    + cbn [append] in *. unfold scanToken.
      rewrite (isDigit_not_sign d Hd).
      change (String d (ds ++ String u "")) with (String d ds ++ String u "")
        in Hm.
      cbn [append] in Hm. rewrite Hm. reflexivity.
    + unfold scanToken. cbn [append isSign Ascii.eqb orb].
      change (isSign "+") with true. cbv iota.
      cbn [append] in Hm. rewrite Hm. reflexivity.
    + unfold scanToken. cbn [append].
      change (isSign "-") with true. cbv iota.
      cbn [append] in Hm. rewrite Hm. reflexivity.
  - unfold scanToken. cbn [append].
    change (isSign "/") with false. cbv iota.
    unfold match_digits_unit. cbn [span_digits].
    change (isDigit "/") with false. cbv iota.
    unfold match_slash_unit. rewrite Hu. reflexivity.
Qed.

Lemma substring_prefix (x y : string) :
  substring 0 (String.length x) (x ++ y) = x.
Proof.
  induction x as [|c x IH]; cbn [String.length append substring].
  - destruct y; reflexivity.
  - rewrite IH. reflexivity.
Qed.

(** *** The backtracking matcher on the token pattern is the scanner *)

Lemma orElse_None_r {A : Type} (a : option A) : orElse a None = a.
Proof. destruct a; reflexivity. Qed.

Lemma span_digits_nil (s r : string) : span_digits s = ("", r) -> r = s.
Proof. intros H. destruct (span_digits_spec _ _ _ H) as [-> _]. reflexivity. Qed.

Lemma span_digits_head (s : string) (d : ascii) (ds r : string) :
  span_digits s = (String d ds, r) ->
  exists s', s = String d s' /\ isDigit d = true.
Proof.
  intros H. destruct (span_digits_spec _ _ _ H) as [-> Hd].
  cbn [allDigits] in Hd. apply andb_true_iff in Hd as [Hd _].
  exists (ds ++ r). auto.
Qed.

(** [\d+] takes the longest run of digits.  Giving digits back cannot
    help a continuation that fails on a digit: what follows a shorter run
    is a digit. *)
Lemma exec_plus_digit (s : string) :
  forall (f : nat) (k : string -> option string),
  (String.length s < f)%nat ->
  (forall c r, isDigit c = true -> k (String c r) = None) ->
  exec f (Plus Digit) s k
  = match span_digits s with
    | (String _ _, r) => k r
    | (EmptyString, _) => None
    end.
Proof.
  induction s as [|c s IH]; intros f k Hf Hk.
  - destruct f as [|[|f]]; [simpl in Hf; lia|reflexivity|reflexivity].
  - destruct f as [|[|f]]; [simpl in Hf; lia|simpl in Hf; lia|].
    change (exec (S (S f)) (Plus Digit) (String c s) k)
      with (if isDigit c
            then orElse (exec (S f) (Plus Digit) s k) (k s)
            else None).
    cbn [span_digits]. destruct (isDigit c) eqn:Hc; [|reflexivity].
    rewrite (IH (S f) k) by (simpl in Hf; lia || exact Hk).
    destruct (span_digits s) as [[|d ds] r] eqn:E.
    + rewrite (span_digits_nil _ _ E). reflexivity.
    + destruct (span_digits_head _ _ _ _ E) as (s' & -> & Hd).
      rewrite (Hk d s' Hd). apply orElse_None_r.
Qed.

Lemma exec_digits_unit (s : string) (f : nat) :
  (String.length s < S f)%nat ->
  exec (S (S f)) (Seq (Plus Digit) (Chars unitChars)) s Some
  = option_map snd (match_digits_unit s).
Proof.
  intros Hf.
  change (exec (S (S f)) (Seq (Plus Digit) (Chars unitChars)) s Some)
    with (exec (S f) (Plus Digit) s
            (fun s1 => exec (S f) (Chars unitChars) s1 Some)).
  rewrite exec_plus_digit; [|exact Hf|].
  - unfold match_digits_unit.
    destruct (span_digits s) as [[|d ds] [|u r]]; try reflexivity.
    cbn [exec]. fold (isUnit u). destruct (isUnit u); reflexivity.
  - intros c r Hc. cbn [exec]. fold (isUnit c).
    destruct (isUnit c) eqn:Hu; [|reflexivity].
    rewrite (isUnit_not_digit c Hu) in Hc. discriminate Hc.
Qed.

Lemma exec_slash_unit (s : string) (f : nat) :
  exec (S (S f)) (Seq (Chars ["/"%char]) (Chars unitChars)) s Some
  = option_map snd (match_slash_unit s).
Proof.
  destruct s as [|c s]; [reflexivity|].
  cbn [exec existsb]. rewrite orb_false_r. unfold match_slash_unit.
  destruct (Ascii.eqb_spec c "/") as [-> | Hc].
  - destruct s as [|u r]; [reflexivity|]. fold (isUnit u).
    destruct (isUnit u); reflexivity.
  - destruct c as [[] [] [] [] [] [] [] []]; try reflexivity.
    exfalso. apply Hc. reflexivity.
Qed.

Lemma exec_operationPattern (s : string) :
  exec (String.length s + 8) operationPattern s Some
  = option_map snd (scanToken s).
Proof.
  replace (String.length s + 8)%nat
    with (S (S (S (S (S (String.length s + 3)))))) by lia.
  set (f := (String.length s + 3)%nat).
  unfold operationPattern.
  change (exec (S (S (S (S (S f)))))
            (Alt (Seq (Opt (Chars ["+"; "-"]%char))
                      (Seq (Plus Digit) (Chars unitChars)))
                 (Seq (Chars ["/"%char]) (Chars unitChars))) s Some)
    with (orElse
            (orElse
               (exec (S (S f)) (Chars ["+"; "-"]%char) s
                  (fun s1 => exec (S (S (S f)))
                               (Seq (Plus Digit) (Chars unitChars)) s1 Some))
               (exec (S (S (S f)))
                  (Seq (Plus Digit) (Chars unitChars)) s Some))
            (exec (S (S (S (S f))))
               (Seq (Chars ["/"%char]) (Chars unitChars)) s Some)).
  rewrite exec_slash_unit, (exec_digits_unit s (S f)) by (unfold f; lia).
  unfold scanToken.
  destruct s as [|c s'].
  - reflexivity.
  - change (exec (S (S f)) (Chars ["+"; "-"]%char) (String c s')
              (fun s1 => exec (S (S (S f)))
                           (Seq (Plus Digit) (Chars unitChars)) s1 Some))
      with (if isSign c
            then exec (S (S (S f)))
                   (Seq (Plus Digit) (Chars unitChars)) s' Some
            else None).
    rewrite (exec_digits_unit s' (S f)) by (unfold f; simpl; lia).
    destruct (isSign c).
    + destruct (match_digits_unit s') as [[tok rest]|]; [reflexivity|].
      cbn [option_map orElse].
      destruct (match_digits_unit (String c s')) as [[tok rest]|];
        reflexivity.
    + cbn [orElse].
      destruct (match_digits_unit (String c s')) as [[tok rest]|];
        reflexivity.
Qed.

(** The pattern, matched by backtracking, finds what the scanner finds. *)
Lemma operationRegex_scan (s : string) : operationRegex s = scanToken s.
Proof.
  unfold operationRegex. rewrite exec_operationPattern.
  destruct (scanToken s) as [[tok rest]|] eqn:E; [|reflexivity].
  cbn [option_map snd].
  destruct (scanToken_spec _ _ _ E) as [-> _].
  rewrite length_append.
  replace (String.length tok + String.length rest - String.length rest)%nat
    with (String.length tok) by lia.
  rewrite substring_prefix. reflexivity.
Qed.

Lemma operationRegex_spec (s tok rest : string) :
  operationRegex s = Some (tok, rest) -> s = tok ++ rest /\ token tok.
Proof. rewrite operationRegex_scan. apply scanToken_spec. Qed.

Lemma operationRegex_token (tok r : string) :
  token tok -> operationRegex (tok ++ r) = Some (tok, r).
Proof. rewrite operationRegex_scan. apply scanToken_token. Qed.

Lemma token_nonempty (tok : string) :
  token tok -> exists c r, tok = String c r.
Proof.
  intros [sign d ds u Hs Hd Hds Hu | u Hu].
  - destruct Hs as [-> | [-> | ->]]; cbn [append]; eauto.
  - eauto.
Qed.

Lemma operationRegex_shorter (s tok rest : string) :
  operationRegex s = Some (tok, rest) ->
  (String.length rest < String.length s)%nat.
Proof.
  intros H. destruct (operationRegex_spec _ _ _ H) as [-> Ht].
  destruct (token_nonempty _ Ht) as (c & r & ->).
  rewrite length_append. simpl. lia.
Qed.

(** Fuel beyond the length of the text changes nothing. *)
Lemma match_from_fuel (n m : nat) (s : string) :
  (String.length s <= n)%nat -> (String.length s <= m)%nat ->
  match_from n s = match_from m s.
Proof.
  revert m s. induction n as [|n IH]; intros m s Hn Hm.
  - destruct s; [|simpl in Hn; lia]. destruct m; reflexivity.
  - destruct m as [|m].
    + destruct s; [reflexivity|simpl in Hm; lia].
    + destruct s as [|c s']; [reflexivity|].
      cbn [match_from].
      destruct (operationRegex (String c s')) as [[tok rest]|] eqn:Hr.
      * pose proof (operationRegex_shorter _ _ _ Hr) as Hl. simpl in *.
        f_equal. apply IH; lia.
      * simpl in *. apply IH; lia.
Qed.

Lemma match_all_empty : match_all "" = [].
Proof. reflexivity. Qed.

Lemma match_all_step (c : ascii) (s' : string) :
  match_all (String c s') =
  match operationRegex (String c s') with
  | Some (tok, rest) => tok :: match_all rest
  | None => match_all s'
  end.
Proof.
  unfold match_all. cbn [String.length match_from].
  destruct (operationRegex (String c s')) as [[tok rest]|] eqn:Hr.
  - pose proof (operationRegex_shorter _ _ _ Hr) as Hl. simpl in Hl.
    f_equal. apply match_from_fuel; lia.
  - reflexivity.
Qed.

Lemma match_from_tokens (n : nat) (s : string) : Forall token (match_from n s).
Proof.
  revert s. induction n as [|n IH]; intros s; cbn [match_from].
  - constructor.
  - destruct s as [|c s']; [constructor|].
    destruct (operationRegex (String c s')) as [[tok rest]|] eqn:Hr.
    + constructor; [|apply IH].
      apply (operationRegex_spec _ _ _ Hr).
    + apply IH.
Qed.

Lemma match_all_tokens (s : string) : Forall token (match_all s).
Proof. apply match_from_tokens. Qed.

Lemma match_all_token_app (tok r : string) :
  token tok -> match_all (tok ++ r) = tok :: match_all r.
Proof.
  intros Ht. pose proof (operationRegex_token tok r Ht) as Hr.
  destruct (token_nonempty _ Ht) as (c & t & ->).
  cbn [append] in *. rewrite match_all_step, Hr. reflexivity.
Qed.

(** Scanning the matched tokens, written one after the other, finds them
    again. *)
Lemma match_all_join (toks : list string) :
  Forall token toks -> match_all (join toks) = toks.
Proof.
  induction 1 as [|tok toks Ht _ IH]; [reflexivity|].
  cbn [join fold_right]. fold (join toks).
  rewrite match_all_token_app, IH; auto.
Qed.

(** A slash ends every match that could be under way: the scan of a text
    followed by a slash is the scan of the text, then the scan from the
    slash. *)
Lemma span_digits_app_slash (a b : string) :
  span_digits (a ++ String "/" b)
  = let (ds, r) := span_digits a in (ds, r ++ String "/" b).
Proof.
  induction a as [|c a IH]; [reflexivity|].
  cbn [append span_digits]. destruct (isDigit c); [|reflexivity].
  rewrite IH. destruct (span_digits a). reflexivity.
Qed.

Lemma match_digits_unit_app_slash (a b : string) :
  match_digits_unit (a ++ String "/" b)
  = match match_digits_unit a with
    | Some (tok, r) => Some (tok, r ++ String "/" b)
    | None => None
    end.
Proof.
  unfold match_digits_unit. rewrite span_digits_app_slash.
  destruct (span_digits a) as [[|d ds] [|u r]]; try reflexivity.
  cbn [append]. destruct (isUnit u); reflexivity.
Qed.

Lemma match_slash_unit_app_slash (c : ascii) (a b : string) :
  match_slash_unit (String c a ++ String "/" b)
  = match match_slash_unit (String c a) with
    | Some (tok, r) => Some (tok, r ++ String "/" b)
    | None => None
    end.
Proof.
  unfold match_slash_unit. cbn [append].
  destruct (Ascii.eqb_spec c "/") as [-> | Hc].
  - destruct a as [|u r]; [reflexivity|].
    cbn [append]. destruct (isUnit u); reflexivity.
  - destruct c as [[] [] [] [] [] [] [] []]; try reflexivity.
    exfalso. apply Hc. reflexivity.
Qed.

Lemma operationRegex_app_slash (c : ascii) (a b : string) :
  operationRegex (String c a ++ String "/" b)
  = match operationRegex (String c a) with
    | Some (tok, r) => Some (tok, r ++ String "/" b)
    | None => None
    end.
Proof.
  rewrite !operationRegex_scan. unfold scanToken.
  rewrite match_slash_unit_app_slash.
  rewrite (match_digits_unit_app_slash (String c a) b).
  cbn [append]. rewrite (match_digits_unit_app_slash a b).
  destruct (isSign c).
  - destruct (match_digits_unit a) as [[tok r]|]; [reflexivity|].
    destruct (match_digits_unit (String c a)) as [[tok r]|]; reflexivity.
  - destruct (match_digits_unit (String c a)) as [[tok r]|]; reflexivity.
Qed.

Lemma match_all_app_slash (a b : string) :
  match_all (a ++ String "/" b) = (match_all a ++ match_all (String "/" b))%list.
Proof.
  remember (String.length a) as n eqn:Hn.
  revert a Hn. induction n as [n IH] using lt_wf_ind. intros a Hn.
  destruct a as [|c a]; [reflexivity|].
  change ((String c a ++ String "/" b)%string)
    with (String c (a ++ String "/" b)).
  rewrite match_all_step.
  change (String c (a ++ String "/" b))
    with ((String c a ++ String "/" b)%string).
  rewrite operationRegex_app_slash, (match_all_step c a).
  destruct (operationRegex (String c a)) as [[tok r]|] eqn:Hr.
  - pose proof (operationRegex_shorter _ _ _ Hr) as Hl.
    rewrite (IH (String.length r)); [reflexivity|lia|reflexivity].
  - apply (IH (String.length a)); [simpl in Hn; lia|reflexivity].
Qed.

End Tokens.

(** * Numbers in tokens: printing, then [parseInt] *)

Section Decimal.

Local Open Scope string_scope.
Local Open Scope Z_scope.

Lemma allDigits_string_of_uint (d : Decimal.uint) :
  allDigits (NilEmpty.string_of_uint d) = true.
Proof. induction d; cbn [NilEmpty.string_of_uint allDigits]; auto. Qed.

Lemma digits_value_acc (d : Decimal.uint) (acc : positive) :
  digits_value (Z.pos acc) (NilEmpty.string_of_uint d)
  = Z.pos (Pos.of_uint_acc d acc).
Proof.
  revert acc. induction d; intros acc;
    cbn [NilEmpty.string_of_uint digits_value Pos.of_uint_acc];
    [reflexivity|..];
    match goal with
    | |- context [isDigit ?c] => change (isDigit c) with true; cbv iota
    end;
    rewrite <- IHd; f_equal;
    match goal with
    | |- context [digit_value ?c] =>
        let v := eval vm_compute in (digit_value c) in
        change (digit_value c) with v
    end; lia.
Qed.

Lemma digits_value_of_uint (d : Decimal.uint) :
  digits_value 0 (NilEmpty.string_of_uint d) = Z.of_N (Pos.of_uint d).
Proof.
  induction d; cbn [NilEmpty.string_of_uint digits_value Pos.of_uint];
    [reflexivity|..];
    match goal with
    | |- context [isDigit ?c] => change (isDigit c) with true; cbv iota
    end;
    match goal with
    | |- context [digit_value ?c] =>
        let v := eval vm_compute in (digit_value c) in
        change (digit_value c) with v
    end;
    cbn [Z.mul Z.add]; [exact IHd|..]; apply digits_value_acc.
Qed.

(** A positive magnitude is printed as digits that [parseInt] reads back,
    as the double nearest to it. *)
Lemma toString_positive (n : Z) :
  0 < n ->
  exists d ds, toString (Some n) = String d ds /\ isDigit d = true /\
               allDigits ds = true /\ parseInt (String d ds) = Some (rnd n).
Proof.
  intros Hn. destruct n as [|p|p]; try lia.
  unfold toString. cbn [Z.to_int NilZero.string_of_int].
  pose proof (DecimalPos.Unsigned.of_to p) as Hp.
  pose proof (allDigits_string_of_uint (Pos.to_uint p)) as Ha.
  pose proof (digits_value_of_uint (Pos.to_uint p)) as Hv.
  rewrite Hp in Hv.
  unfold NilZero.string_of_uint.
  destruct (Pos.to_uint p) eqn:E; [discriminate Hp|..];
    cbn [NilEmpty.string_of_uint] in *;
    apply andb_true_iff in Ha as [Ha1 Ha2];
    (eexists; eexists; split; [reflexivity|]; split; [exact Ha1|];
     split; [exact Ha2|]);
    unfold parseInt; rewrite Ha1, Hv; reflexivity.
Qed.

End Decimal.

(** * [parse]: which calls throw *)

Section ParseErrors.

Local Open Scope string_scope.

Lemma applyRounding_unit (date : Date) (u : ascii) :
  isUnit u = true -> exists d, applyRounding date (String u "") = Ok d.
Proof.
  intros Hu.
  destruct (isUnit_cases u Hu) as [?|[?|[?|[?|[?|[?|?]]]]]]; subst;
    eexists; reflexivity.
Qed.

Lemma slice_m1_snoc (x : string) (u : ascii) :
  slice_m1 (x ++ String u "") = String u "".
Proof.
  unfold slice_m1. rewrite length_append. cbn [String.length].
  replace (String.length x + 1 - 1)%nat with (String.length x) by lia.
  induction x as [|c x IH]; [reflexivity|]. cbn. exact IH.
Qed.

(** A token whose first character is a digit makes the callback throw;
    every other token is applied. *)
Lemma applyOperation_token (date : Date) (tok : string) :
  token tok ->
  if badMarker tok
  then applyOperation date tok
       = Throw ("Invalid sign in operation '" ++ tok ++ "'")
  else exists d, applyOperation date tok = Ok d.
Proof.
  intros [sign d ds u Hs Hd Hds Hu | u Hu].
  - destruct Hs as [-> | [-> | ->]].
    + pose proof (isDigit_not_sign d Hd) as Hns. unfold isSign in Hns.
      cbn [existsb] in Hns. rewrite orb_false_r in Hns.
      apply orb_false_iff in Hns as [Hp Hm].
      assert (Hsl : Ascii.eqb d "/" = false).
      { destruct (Ascii.eqb_spec d "/"); [subst; discriminate|reflexivity]. }
      cbn [append badMarker]. rewrite Hp, Hm, Hsl. cbn [orb negb].
      unfold applyOperation. cbn [first_char substring truthy].
      unfold includes. cbn [existsb String.eqb].
      rewrite Hp, Hm, Hsl. reflexivity.
    + cbn [append badMarker]. cbn.
      eexists. reflexivity.
    + cbn [append badMarker]. cbn.
      eexists. reflexivity.
  - cbn [badMarker]. cbn.
    destruct (applyRounding_unit date u Hu) as [d' Hd'].
    unfold applyOperation.
    change (slice_m1 (String "/" (String u ""))) with (String u "").
    cbn [first_char substring truthy includes existsb String.eqb Ascii.eqb
         Bool.eqb andb orb negb].
    rewrite Hd'. cbn. eexists. reflexivity.
Qed.

(** The [forEach] of [parse] stops at the first token with a bad marker,
    and runs to the end when there is none. *)
Lemma forEach_tokens (toks : list string) :
  Forall token toks -> forall date : Date,
  match find badMarker toks with
  | Some tok =>
      forEach toks applyOperation date
      = Throw ("Invalid sign in operation '" ++ tok ++ "'")
  | None => exists d, forEach toks applyOperation date = Ok d
  end.
Proof.
  induction 1 as [|tok toks Ht _ IH]; intros date; cbn [find forEach].
  - eauto.
  - pose proof (applyOperation_token date tok Ht) as Ha.
    destruct (badMarker tok).
    + rewrite Ha. reflexivity.
    + destruct Ha as [d' ->]. cbn [bind]. apply IH.
Qed.

Lemma startsWith_now (expr : string) :
  startsWith expr "now" = true -> expr = "now" ++ slice_from 3 expr.
Proof.
  intros H.
  destruct expr as [|a [|b [|c r]]]; cbn [startsWith] in H;
    try discriminate H;
    repeat match type of H with
           | context [Ascii.eqb ?x ?y] => destruct (Ascii.eqb_spec x y)
           end; try discriminate H.
  subst. reflexivity.
Qed.

Lemma parse_now (now : Z) (rest : string) :
  parse now ("now" ++ rest) = forEach (match_all rest) applyOperation (Some now).
Proof.
  unfold parse. cbn [append startsWith slice_from].
  change (Ascii.eqb "n" "n") with true.
  change (Ascii.eqb "o" "o") with true.
  change (Ascii.eqb "w" "w") with true.
  reflexivity.
Qed.

Lemma Throw_inj {A : Type} (a b : string) : @Throw A a = Throw b -> a = b.
Proof. intros H. injection H as H. exact H. Qed.

Lemma sign_message_inj (a b : string) :
  "Invalid sign in operation '" ++ a ++ "'"
  = "Invalid sign in operation '" ++ b ++ "'" -> a = b.
Proof.
  cbn [append]. intros H. injection H as H.
  revert b H. induction a as [|x a IH]; intros [|y b] H; cbn in H.
  - reflexivity.
  - injection H as _ H. destruct b; discriminate.
  - injection H as _ H. destruct a; discriminate.
  - injection H as -> H. f_equal. apply IH, H.
Qed.

Lemma forEach_app {A S : Type} (xs ys : list A) (f : S -> A -> result S)
  (s : S) :
  forEach (xs ++ ys)%list f s = (s' <- forEach xs f s ;; forEach ys f s').
Proof.
  revert s. induction xs as [|x xs IH]; intros s; [reflexivity|].
  cbn [app forEach]. destruct (f s x) as [s'|m]; [apply IH|reflexivity].
Qed.

(** A rounding token does what [applyRounding] does. *)
Lemma applyOperation_round (date : Date) (u : string) :
  In u unitCodes -> applyOperation date ("/" ++ u) = applyRounding date u.
Proof.
  cbn [unitCodes In]. intros H.
  repeat (destruct H as [<- | H]; [reflexivity|]). destruct H.
Qed.

Lemma match_all_round (u : string) :
  In u unitCodes ->
  match_all ("/" ++ u) = ["/" ++ u] /\
  match_all ("/" ++ u ++ "/" ++ u) = ["/" ++ u; "/" ++ u].
Proof.
  cbn [unitCodes In]. intros H.
  repeat (destruct H as [<- | H]; [split; reflexivity|]). destruct H.
Qed.

Lemma slice_1_m1_token (c : ascii) (x : string) (v : ascii) :
  slice_1_m1 (String c "" ++ x ++ String v "") = x.
Proof.
  unfold slice_1_m1. cbn [append String.length]. rewrite length_append.
  cbn [String.length].
  replace (S (String.length x + 1) - 2)%nat with (String.length x) by lia.
  cbn [substring]. apply substring_prefix.
Qed.

Lemma slice_m1_token (c : ascii) (x : string) (v : ascii) :
  slice_m1 (String c "" ++ x ++ String v "") = String v "".
Proof. apply (slice_m1_snoc (String c x) v). Qed.

(** A signed token with a positive magnitude is a token, and the callback
    applies the adjustment it writes, by the double nearest to the
    magnitude. *)
Lemma applyOperation_adjust (date : Date) (sign : string) (n : Z)
  (u : string) :
  sign = "+" \/ sign = "-" -> In u unitCodes -> (0 < n)%Z ->
  token (sign ++ toString (Some n) ++ u) /\
  applyOperation date (sign ++ toString (Some n) ++ u)
  = Ok (applyAdjustment date sign (rnd n) u).
Proof.
  intros Hs Hu Hn. pose proof (rnd_pos n Hn) as Hr.
  destruct (toString_positive n Hn) as (d & ds & -> & Hd & Hds & Hp).
  cbn [unitCodes In] in Hu.
  destruct Hs as [-> | ->];
    destruct Hu as [<- | [<- | [<- | [<- | [<- | [<- | [<- | []]]]]]]];
    (split;
     [ apply (token_number _ d ds _); auto
     | unfold applyOperation;
       rewrite slice_1_m1_token, slice_m1_token, Hp;
       cbn [first_char substring truthy includes existsb String.eqb
            Ascii.eqb Bool.eqb andb orb negb bind];
       destruct (Z.eqb_spec (rnd n) 0); [lia|reflexivity] ]).
Qed.

(** [parse] of one adjustment, and of two in a row. *)
Lemma parse_adjust (now n : Z) (sign u : string) :
  sign = "+" \/ sign = "-" -> In u unitCodes -> (0 < n)%Z ->
  parse now ("now" ++ sign ++ toString (Some n) ++ u)
  = Ok (applyAdjustment (Some now) sign (rnd n) u).
Proof.
  intros Hs Hu Hn.
  destruct (applyOperation_adjust (Some now) sign n u Hs Hu Hn) as [Ht Ha].
  rewrite parse_now.
  rewrite <- (append_empty_r (sign ++ toString (Some n) ++ u)).
  rewrite (match_all_token_app _ "" Ht), match_all_empty.
  cbn [forEach]. rewrite Ha. reflexivity.
Qed.

Lemma parse_adjust_twice (now n : Z) (sign1 sign2 u : string) :
  sign1 = "+" \/ sign1 = "-" -> sign2 = "+" \/ sign2 = "-" ->
  In u unitCodes -> (0 < n)%Z ->
  parse now ("now" ++ (sign1 ++ toString (Some n) ++ u)
                   ++ (sign2 ++ toString (Some n) ++ u))
  = Ok (applyAdjustment (applyAdjustment (Some now) sign1 (rnd n) u)
                        sign2 (rnd n) u).
Proof.
  intros Hs1 Hs2 Hu Hn.
  destruct (applyOperation_adjust (Some now) sign1 n u Hs1 Hu Hn) as [Ht1 Ha1].
  destruct (applyOperation_adjust (applyAdjustment (Some now) sign1 (rnd n) u)
              sign2 n u Hs2 Hu Hn) as [Ht2 Ha2].
  rewrite parse_now.
  rewrite (match_all_token_app _ _ Ht1).
  rewrite <- (append_empty_r (sign2 ++ toString (Some n) ++ u)).
  rewrite (match_all_token_app _ "" Ht2), match_all_empty.
  cbn [forEach]. rewrite Ha1. cbn [bind]. rewrite Ha2. reflexivity.
Qed.

End ParseErrors.

(** * The claims *)

Section Scenarios.

Local Open Scope string_scope.

Example systemTime_UTC : UTC 2020 5 12 13 20 17 486 = Some systemTime.
Proof. reflexivity. Qed.

(** C2.  With the clock at 2020-06-12T13:20:17.486Z, [parse] returns
    2019-01-01T00:00:00.000Z for "now-1y/y", 2020-01-01T00:00:00.000Z for
    "now/y", 2020-06-07T00:00:00.000Z for "now/w", 2020-06-14T00:00:00.000Z
    for "now+2d/w" and 2020-06-08T00:00:00.000Z for "now-4d-4h+13m/d". *)
Theorem parse_scenarios :
  parse systemTime "now-1y/y" = Ok (UTC 2019 0 1 0 0 0 0) /\
  parse systemTime "now/y" = Ok (UTC 2020 0 1 0 0 0 0) /\
  parse systemTime "now/w" = Ok (UTC 2020 5 7 0 0 0 0) /\
  parse systemTime "now+2d/w" = Ok (UTC 2020 5 14 0 0 0 0) /\
  parse systemTime "now-4d-4h+13m/d" = Ok (UTC 2020 5 8 0 0 0 0).
Proof. repeat split; vm_compute; reflexivity. Qed.

(** C5.  The token "+0d" does not adjust by 0 days: [parseInt("0") || 1] is
    1, so for every reference "now+0d" is the adjustment by one day, as
    "now+1d" is; with the clock at 2020-06-12T13:20:17.486Z it is
    2020-06-13T13:20:17.486Z, not the reference. *)
Theorem parse_zero_magnitude :
  (forall now : Z,
     parse now "now+0d" = Ok (applyAdjustment (Some now) "+" 1 "d") /\
     parse now "now+0d" = parse now "now+1d") /\
  parse systemTime "now+0d" = Ok (UTC 2020 5 13 13 20 17 486) /\
  parse systemTime "now+0d" <> Ok (Some systemTime).
Proof.
  split; [intros now; split; reflexivity|].
  split; vm_compute; congruence.
Qed.

(** C1.  The round trip fails at aligned instants.  With the clock at
    2020-06-12T13:20:17.486Z: the day-aligned 2020-06-10T00:00:00.000Z is
    written "now-2d", which parses to 2020-06-10T13:20:17.486Z; the
    month-aligned 2020-05-01T00:00:00.000Z is written "now-1M", which parses
    to 2020-05-12T13:20:17.486Z; the week-aligned 2020-05-31T00:00:00.000Z
    is written "now--19d/w", which parses to 2020-05-24T00:00:00.000Z; the
    hour-aligned 2020-06-12T10:00:00.000Z is written "now-3h", which parses
    to 2020-06-12T10:20:17.486Z; the minute-aligned
    2020-06-12T13:10:00.000Z is written "now-10m", which parses to
    2020-06-12T13:10:17.486Z.  Where [stringify] appends the rounding suffix
    the round trip holds: 2019-01-01T00:00:00.000Z is written "now-1y/y"
    and the week-aligned 2020-06-28T00:00:00.000Z "now+16d/w", and both
    parse to themselves. *)
Theorem round_trip_fails_at_aligned_instants :
  (stringify systemTime (UTC 2020 5 10 0 0 0 0) = Ok "now-2d" /\
   roundTrip systemTime (UTC 2020 5 10 0 0 0 0)
   = Ok (UTC 2020 5 10 13 20 17 486)) /\
  (stringify systemTime (UTC 2020 4 1 0 0 0 0) = Ok "now-1M" /\
   roundTrip systemTime (UTC 2020 4 1 0 0 0 0)
   = Ok (UTC 2020 4 12 13 20 17 486)) /\
  (stringify systemTime (UTC 2020 4 31 0 0 0 0) = Ok "now--19d/w" /\
   roundTrip systemTime (UTC 2020 4 31 0 0 0 0)
   = Ok (UTC 2020 4 24 0 0 0 0)) /\
  (stringify systemTime (UTC 2020 5 12 10 0 0 0) = Ok "now-3h" /\
   roundTrip systemTime (UTC 2020 5 12 10 0 0 0)
   = Ok (UTC 2020 5 12 10 20 17 486)) /\
  (stringify systemTime (UTC 2020 5 12 13 10 0 0) = Ok "now-10m" /\
   roundTrip systemTime (UTC 2020 5 12 13 10 0 0)
   = Ok (UTC 2020 5 12 13 10 17 486)) /\
  roundTrip systemTime (UTC 2020 5 10 0 0 0 0) <> Ok (UTC 2020 5 10 0 0 0 0) /\
  (stringify systemTime (UTC 2019 0 1 0 0 0 0) = Ok "now-1y/y" /\
   roundTrip systemTime (UTC 2019 0 1 0 0 0 0) = Ok (UTC 2019 0 1 0 0 0 0)) /\
  (stringify systemTime (UTC 2020 5 28 0 0 0 0) = Ok "now+16d/w" /\
   roundTrip systemTime (UTC 2020 5 28 0 0 0 0) = Ok (UTC 2020 5 28 0 0 0 0)).
Proof. repeat split; vm_compute; congruence. Qed.

End Scenarios.

Section ParseClaims.

Local Open Scope string_scope.

(** C3.  [parse] throws the missing-prefix error exactly when the expression
    does not start with "now".  Given the prefix, it throws the invalid-sign
    error exactly when some matched token has a first character other than
    ['+'], ['-'], ['/']; the message carries the first such token, verbatim;
    and [parse] returns exactly when there is no such token.  "now-4d/3h"
    throws the invalid-sign error for '3h', "invalid-date-string" the
    missing-prefix error. *)
Theorem parse_throws_iff_malformed (now : Z) (expr rest : string) :
  (parse now expr = Throw "Invalid date string: Must start with 'now'."
   <-> startsWith expr "now" = false) /\
  ((exists tok, parse now ("now" ++ rest)
                = Throw ("Invalid sign in operation '" ++ tok ++ "'"))
   <-> (exists tok, In tok (match_all rest) /\ badMarker tok = true)) /\
  (forall tok, parse now ("now" ++ rest)
               = Throw ("Invalid sign in operation '" ++ tok ++ "'")
   <-> find badMarker (match_all rest) = Some tok) /\
  ((exists d, parse now ("now" ++ rest) = Ok d)
   <-> find badMarker (match_all rest) = None) /\
  parse now "now-4d/3h" = Throw "Invalid sign in operation '3h'" /\
  parse now "invalid-date-string"
  = Throw "Invalid date string: Must start with 'now'.".
Proof.
  pose proof (forEach_tokens _ (match_all_tokens rest) (Some now)) as Hrest.
  rewrite <- parse_now in Hrest.
  assert (Hcases : forall tok,
             parse now ("now" ++ rest)
             = Throw ("Invalid sign in operation '" ++ tok ++ "'")
             <-> find badMarker (match_all rest) = Some tok).
  { intros tok. destruct (find badMarker (match_all rest)) as [tok'|].
    - rewrite Hrest. split; intros H.
      + f_equal. apply sign_message_inj.
        exact (Throw_inj _ _ H).
      + injection H as ->. reflexivity.
    - destruct Hrest as [d ->]. split; discriminate. }
  split; [|split; [|split; [|split; [|split]]]].
  - split; intros H.
    + destruct (startsWith expr "now") eqn:Hp; [|reflexivity].
      exfalso.
      pose proof (forEach_tokens _ (match_all_tokens (slice_from 3 expr))
                    (Some now)) as He.
      rewrite <- parse_now, <- (startsWith_now expr Hp), H in He.
      destruct (find badMarker (match_all (slice_from 3 expr))).
      * cbn [append] in He. discriminate He.
      * destruct He as [d He]. discriminate He.
    + unfold parse. rewrite H. reflexivity.
  - split.
    + intros [tok H]. exists tok. apply Hcases in H.
      apply find_some in H. exact H.
    + intros [tok [Hin Hbad]].
      destruct (find badMarker (match_all rest)) as [tok'|] eqn:Hf.
      * exists tok'. exact Hrest.
      * pose proof (find_none _ _ Hf tok Hin). congruence.
  - exact Hcases.
  - destruct (find badMarker (match_all rest)) as [tok'|].
    + rewrite Hrest. split; [intros [d H]|intros H]; discriminate H.
    + split; [reflexivity|intros _; exact Hrest].
  - reflexivity.
  - reflexivity.
Qed.






(** C7.  Rounding is idempotent: for every unit code and every date,
    [applyRounding] returns a date on which the same rounding returns the
    same date; and an expression that ends with "/u/u" parses to what it
    parses to with one "/u". *)
Theorem rounding_idempotent (u : string) (date : Date)
  (Hu : In u unitCodes) :
  (exists r, applyRounding date u = Ok r /\ applyRounding r u = Ok r) /\
  (forall (now : Z) (rest : string),
     parse now ("now" ++ rest ++ "/" ++ u ++ "/" ++ u)
     = parse now ("now" ++ rest ++ "/" ++ u)).
Proof.
  split.
  - destruct (applyRounding_returns date u Hu) as [r Hr].
    exists r. split; [exact Hr|].
    apply (applyRounding_fixed date r u Hu Hr).
  - intros now rest. rewrite !parse_now.
    change (rest ++ "/" ++ u ++ "/" ++ u)
      with (rest ++ String "/" (u ++ "/" ++ u)).
    change (rest ++ "/" ++ u) with (rest ++ String "/" u).
    rewrite !match_all_app_slash, !forEach_app.
    destruct (forEach (match_all rest) applyOperation (Some now)) as [d|m];
      [|reflexivity].
    cbn [bind].
    destruct (match_all_round u Hu) as [H1 H2].
    change (String "/" (u ++ "/" ++ u)) with ("/" ++ u ++ "/" ++ u).
    change (String "/" u) with ("/" ++ u).
    rewrite H1, H2. cbn [forEach].
    rewrite !applyOperation_round by exact Hu.
    destruct (applyRounding_returns d u Hu) as [r Hr].
    rewrite Hr. cbn [bind].
    rewrite applyOperation_round by exact Hu.
    rewrite (applyRounding_fixed d r u Hu Hr). reflexivity.
Qed.

Lemma rounding_idempotent_witness :
  In "w" unitCodes /\
  applyRounding (UTC 2020 5 7 0 0 0 0) "w" = Ok (UTC 2020 5 7 0 0 0 0) /\
  parse systemTime "now-4d/w/w" = parse systemTime "now-4d/w".
Proof.
  assert (Hu : In "w" unitCodes) by (cbn; tauto).
  split; [exact Hu|]. split; [reflexivity|].
  apply (proj2 (rounding_idempotent "w" (Some systemTime) Hu) systemTime
               "-4d").
Defined.

(** C4, as stated, fails: no reference instant separates "now-4d/h" from
    "now/h-4d". *)
Lemma order_sensitivity_counterexample :
  ~ (exists now : Z,
        timeValue now /\ parse now "now-4d/h" <> parse now "now/h-4d").
Proof.
  intros [now [Hnow Hne]]. apply Hne, adjust_round_commute, Hnow.
Qed.

(** C4, amended.  "now-4d/h" and "now/h-4d" are equal for every reference
    instant, four days being a multiple of the hour; the order of the
    operations matters when the adjustment is not a multiple of the
    rounding unit: with the clock at 2020-06-12T13:20:17.486Z, "now-4h/d"
    is 2020-06-12T00:00:00.000Z and "now/d-4h" is
    2020-06-11T20:00:00.000Z. *)
Theorem order_sensitivity (now : Z) (Hnow : timeValue now) :
  parse now "now-4d/h" = parse now "now/h-4d" /\
  parse systemTime "now-4h/d" = Ok (UTC 2020 5 12 0 0 0 0) /\
  parse systemTime "now/d-4h" = Ok (UTC 2020 5 11 20 0 0 0) /\
  parse systemTime "now-4h/d" <> parse systemTime "now/d-4h".
Proof.
  split; [apply adjust_round_commute, Hnow|].
  repeat split; vm_compute; congruence.
Qed.

Lemma order_sensitivity_witness :
  timeValue systemTime /\
  parse systemTime "now-4d/h" = Ok (UTC 2020 5 8 13 0 0 0) /\
  parse systemTime "now/h-4d" = Ok (UTC 2020 5 8 13 0 0 0).
Proof.
  assert (H : timeValue systemTime)
    by (unfold timeValue, maxTime, systemTime; lia).
  split; [exact H|].
  rewrite <- (proj1 (order_sensitivity systemTime H)).
  split; reflexivity.
Defined.

Example march31_UTC : UTC 2020 2 31 0 0 0 0 = Some march31.
Proof. reflexivity. Qed.

(** C6, as stated, fails for months.  With the clock at
    2020-03-31T00:00:00.000Z, "now+1M" is 2020-05-01 (April has no 31st),
    31 days later, and "now-1M" is 2020-03-02, 29 days earlier; the '+'
    form followed by the '-' form, "now+1M-1M", is 2020-04-01, not the
    reference.  It fails outside the range of [Date] too: 200000000 days
    forward is an invalid date, and stays one.  And it fails where the
    host rounds the time of day: with the clock 7999999999999999 ms before
    the epoch, 16000000000000 seconds are 2^53 ms and more, "now+...s" is
    8000000000000000 ms after the epoch, one less than the sum, and the
    '-' form after it ends one millisecond before the reference. *)
Lemma sign_symmetry_counterexample :
  parse march31 "now+1M" = Ok (UTC 2020 4 1 0 0 0 0) /\
  parse march31 "now-1M" = Ok (UTC 2020 2 2 0 0 0 0) /\
  parse march31 "now+1M-1M" = Ok (UTC 2020 3 1 0 0 0 0) /\
  parse march31 "now+1M-1M" <> Ok (Some march31) /\
  parse systemTime "now+200000000d-200000000d" = Ok None /\
  (timeValue (-7999999999999999) /\
   timeValue (-7999999999999999 + 16000000000000 * unitMs "s") /\
   parse (-7999999999999999) "now+16000000000000s"
   = Ok (Some 8000000000000000%Z) /\
   parse (-7999999999999999) "now+16000000000000s"
   <> Ok (Some (-7999999999999999 + 16000000000000 * unitMs "s")%Z) /\
   parse (-7999999999999999) "now+16000000000000s-16000000000000s"
   = Ok (Some (-8000000000000000)%Z)).
Proof.
  repeat split; try (vm_compute; congruence).
Qed.

Lemma unitMs_at_least (u : string) : (1000 <= unitMs u)%Z.
Proof.
  unfold unitMs.
  repeat match goal with
         | |- context [(u =? ?c)%string] => destruct (u =? c)%string
         end; vm_compute; discriminate.
Qed.

(** C6, amended.  For a positive n and a unit of fixed length (s, m, h, d,
    w), "now+nu" is the reference plus n units and "now-nu" the reference
    minus n units, whenever these are time values of [Date] and, for s, m
    and h, n units are at most 2^53 ms less a day; and the '+' form
    followed by the '-' form returns to the reference.  For M and y, the
    '+' form followed by the '-' form returns to the reference whenever the
    '+' form kept the day of month. *)
Theorem sign_symmetry (now n : Z) (u : string)
  (Hn : (0 < n)%Z) (Hnow : timeValue now) (Hu : In u unitCodes) :
  (In u fixedUnits -> timeValue (now + n * unitMs u) ->
   (In u ["s"; "m"; "h"] -> (n * unitMs u + msPerDay <= two53)%Z) ->
   parse now ("now" ++ "+" ++ toString (Some n) ++ u)
   = Ok (Some (now + n * unitMs u)%Z) /\
   parse now ("now" ++ ("+" ++ toString (Some n) ++ u)
                    ++ ("-" ++ toString (Some n) ++ u))
   = Ok (Some now)) /\
  (In u fixedUnits -> timeValue (now - n * unitMs u) ->
   (In u ["s"; "m"; "h"] -> (n * unitMs u + msPerDay <= two53)%Z) ->
   parse now ("now" ++ "-" ++ toString (Some n) ++ u)
   = Ok (Some (now - n * unitMs u)%Z)) /\
  (u = "M" \/ u = "y" ->
   forall t' : Z,
     parse now ("now" ++ "+" ++ toString (Some n) ++ u) = Ok (Some t') ->
     DateFromTime t' = DateFromTime now ->
     parse now ("now" ++ ("+" ++ toString (Some n) ++ u)
                      ++ ("-" ++ toString (Some n) ++ u))
     = Ok (Some now)).
Proof.
  assert (Hp : "+" = "+" \/ "+" = "-") by (left; reflexivity).
  assert (Hm : "-" = "+" \/ "-" = "-") by (right; reflexivity).
  rewrite (parse_adjust now n "+" u Hp Hu Hn).
  rewrite (parse_adjust now n "-" u Hm Hu Hn).
  rewrite (parse_adjust_twice now n "+" "-" u Hp Hm Hu Hn).
  pose proof (unitMs_at_least u) as Hms.
  assert (Hsmall : timeValue (now + n * unitMs u) \/
                   timeValue (now - n * unitMs u) ->
                   (0 <= n <= 1000000000000000)%Z /\ rnd n = n).
  { intros Hr.
    assert (Hb : (0 <= n <= 1000000000000000)%Z)
      by (unfold timeValue, maxTime in *; nia).
    split; [exact Hb|]. apply rnd_small. unfold two53. lia. }
  split; [|split].
  - intros Hf Hr Hex. destruct (Hsmall (or_introl Hr)) as [Hb ->].
    rewrite (applyAdjustment_fixed now n "+" u Hf Hb Hex).
    change (("+" =? "+")%string) with true. cbv iota.
    replace (now + n * 1 * unitMs u)%Z with (now + n * unitMs u)%Z by lia.
    rewrite (TimeClip_timeValue _ Hr). split; [reflexivity|].
    rewrite (applyAdjustment_fixed _ n "-" u Hf Hb Hex).
    change (("-" =? "+")%string) with false. cbv iota.
    replace (now + n * unitMs u + n * -1 * unitMs u)%Z with now by lia.
    rewrite (TimeClip_timeValue _ Hnow). reflexivity.
  - intros Hf Hr Hex. destruct (Hsmall (or_intror Hr)) as [Hb ->].
    rewrite (applyAdjustment_fixed now n "-" u Hf Hb Hex).
    change (("-" =? "+")%string) with false. cbv iota.
    replace (now + n * -1 * unitMs u)%Z with (now - n * unitMs u)%Z by lia.
    rewrite (TimeClip_timeValue _ Hr). reflexivity.
  - intros Hmy t' Hplus Hkept.
    apply Ok_inj in Hplus. rewrite Hplus. f_equal.
    destruct Hmy as [-> | ->].
    + apply (adjust_month_back now (rnd n) t' Hnow Hplus Hkept).
    + apply (adjust_year_back now (rnd n) t' Hnow Hplus Hkept).
Qed.

Lemma sign_symmetry_witness :
  parse systemTime "now+3d" = Ok (UTC 2020 5 15 13 20 17 486) /\
  parse systemTime "now+3d-3d" = Ok (Some systemTime) /\
  parse systemTime "now-3h" = Ok (UTC 2020 5 12 10 20 17 486) /\
  parse systemTime "now+1M-1M" = Ok (Some systemTime).
Proof.
  assert (Hnow : timeValue systemTime)
    by (unfold timeValue, maxTime, systemTime; lia).
  assert (Hd : In "d" unitCodes) by (cbn; tauto).
  assert (Hh : In "h" unitCodes) by (cbn; tauto).
  assert (HM : In "M" unitCodes) by (cbn; tauto).
  assert (Hf : In "d" fixedUnits) by (cbn; tauto).
  assert (Hfh : In "h" fixedUnits) by (cbn; tauto).
  destruct (sign_symmetry systemTime 3 "d" eq_refl Hnow Hd)
    as (Hplus & _ & _).
  destruct (sign_symmetry systemTime 3 "h" eq_refl Hnow Hh)
    as (_ & Hminus & _).
  destruct (sign_symmetry systemTime 1 "M" eq_refl Hnow HM)
    as (_ & _ & Hmonth).
  split; [|split; [|split]].
  - apply Hplus; [exact Hf|vm_compute; split; discriminate|].
    intros _. vm_compute. discriminate.
  - apply Hplus; [exact Hf|vm_compute; split; discriminate|].
    intros _. vm_compute. discriminate.
  - apply Hminus; [exact Hfh|vm_compute; split; discriminate|].
    intros _. vm_compute. discriminate.
  - apply (Hmonth (or_introl eq_refl) 1594560017486%Z); reflexivity.
Defined.

End ParseClaims.

(** * [stringify]: the fallback branch *)

Section Fallback.

Local Open Scope string_scope.
Local Open Scope Z_scope.

Lemma noAlignment_minute (t : Z) :
  noAlignment t = true -> minuteAligned t = false.
Proof.
  unfold noAlignment. intros H.
  repeat (apply andb_true_iff in H as [H ?]).
  apply negb_true_iff. assumption.
Qed.

Lemma minute_noAlignment (t : Z) :
  minuteAligned t = false -> noAlignment t = true.
Proof.
  unfold noAlignment, yearAligned, monthAligned, weekAligned, dayAligned,
    hourAligned, timeIsZero, minuteAligned.
  intros H.
  destruct (SecFromTime t =? 0), (msFromTime t =? 0); try discriminate H;
    rewrite ?andb_false_r; reflexivity.
Qed.

(** Without minute alignment none of the six checks of [stringify] passes
    and the result is the one of the [forEach] over the units. *)
Lemma stringify_fallback (now t : Z) :
  timeValue now -> minuteAligned t = false ->
  stringify now (Some t)
  = Ok (snd (fold_left
               (breakdownStep (if 0 <=? t - now then "+" else "-"))
               units (Some (Z.abs (rnd (t - now))), "now"))).
Proof.
  intros Hnow Hmin. unfold stringify.
  rewrite (TimeClip_timeValue now Hnow).
  cbv [getTime getUTCMonth getUTCDate getUTCHours getUTCMinutes
       getUTCSeconds getUTCMilliseconds getUTCDay option_map num_eqb
       num_sub num_geb Math_abs].
  rewrite rnd_sign.
  unfold minuteAligned in Hmin.
  destruct (SecFromTime t =? 0), (msFromTime t =? 0); try discriminate Hmin;
    rewrite ?andb_false_r; cbn [andb];
    destruct (fold_left _ units _) as [td result]; cbn [snd];
    destruct (String.eqb_spec result "now"); try subst result; reflexivity.
Qed.

Lemma units_positive (u : unit_entry) : In u units -> 0 < duration u.
Proof.
  cbn [units In]. intros H.
  repeat (destruct H as [<-|H]; [reflexivity|]). destruct H.
Qed.

(** The [forEach] appends the positive components of [hostBreakdown]. *)
Lemma fold_breakdownStep (sign : string) (us : list unit_entry) :
  forall (x : Z) (acc : string),
  snd (fold_left (breakdownStep sign) us (Some x, acc))
  = acc ++ join (map (component sign)
                     (filter (fun c => 0 <? fst c) (hostBreakdown us x))).
Proof.
  induction us as [|u us IH]; intros x acc.
  - cbn. symmetry. apply append_empty_r.
  - cbn [fold_left hostBreakdown filter fst].
    unfold breakdownStep at 2.
    cbv [Math_floor_div num_rem option_map num_gtb].
    rewrite IH.
    destruct (0 <? floorDiv x (duration u)).
    + cbn [map]. unfold join at 2. cbn [fold_right].
      fold (join (map (component sign)
              (filter (fun c => 0 <? fst c)
                 (hostBreakdown us (Z.rem x (duration u)))))).
      unfold component. cbn [fst snd].
      rewrite !append_assoc. reflexivity.
    + reflexivity.
Qed.

(** Below 2^53 the host's breakdown is the greedy one. *)
Lemma hostBreakdown_exact (us : list unit_entry) :
  (forall u, In u us -> 0 < duration u) ->
  forall x : Z, 0 <= x < two53 ->
  hostBreakdown us x
  = greedyBreakdown (map (fun u => (label u, duration u)) us) x.
Proof.
  induction us as [|u us IH]; intros Hpos x Hx; [reflexivity|].
  cbn [hostBreakdown map greedyBreakdown].
  assert (Hu : 0 < duration u) by (apply Hpos; left; reflexivity).
  rewrite floorDiv_exact by lia.
  assert (Hrem : Z.rem x (duration u) = x - x / duration u * duration u).
  { rewrite Z.rem_mod_nonneg by lia.
    pose proof (Z.div_mod x (duration u)). lia. }
  assert (Hnn : 0 <= Z.rem x (duration u) <= x).
  { split; [apply Z.rem_nonneg; lia|].
    rewrite Z.rem_mod_nonneg by lia. apply Z.mod_le; lia. }
  rewrite IH; [|intros; apply Hpos; right; assumption|lia].
  rewrite Hrem. reflexivity.
Qed.

(** The table of [stringify] is the one of the specification. *)
Lemma units_breakdownUnits :
  map (fun u => (label u, duration u)) units = breakdownUnits.
Proof. reflexivity. Qed.

Lemma stringify_fallbackText (now t : Z) :
  timeValue now -> minuteAligned t = false -> Z.abs (t - now) < two53 ->
  stringify now (Some t) = Ok (fallbackText now t).
Proof.
  intros Hnow Hmin Hnear. rewrite (stringify_fallback now t Hnow Hmin).
  rewrite rnd_small by lia.
  rewrite fold_breakdownStep.
  rewrite (hostBreakdown_exact units units_positive) by lia.
  rewrite units_breakdownUnits.
  unfold fallbackText.
  destruct (filter _ (greedyBreakdown breakdownUnits (Z.abs (t - now))));
    reflexivity.
Qed.

Lemma greedyBreakdown_small (us : list (string * Z)) (x : Z) :
  0 <= x -> (forall u, In u us -> x < snd u) ->
  filter (fun c => 0 <? fst c) (greedyBreakdown us x) = [].
Proof.
  intros Hx. induction us as [|[l d] us IH]; intros Hs; [reflexivity|].
  cbn [greedyBreakdown filter fst].
  rewrite (Z.div_small x d)
    by (split; [exact Hx|apply (Hs (l, d)); left; reflexivity]).
  cbn [Z.ltb Z.compare]. rewrite Z.mul_0_l, Z.sub_0_r.
  apply IH. intros; apply Hs; right; assumption.
Qed.

Lemma units_at_least_second (u : string * Z) :
  In u breakdownUnits -> 1000 <= snd u.
Proof.
  cbn [breakdownUnits In]. intros H.
  repeat (destruct H as [<-|H]; [vm_compute; discriminate|]). destruct H.
Qed.

Lemma fallbackText_small (now t : Z) :
  Z.abs (t - now) < 1000 -> fallbackText now t = "now".
Proof.
  intros H. unfold fallbackText.
  rewrite greedyBreakdown_small; [reflexivity|lia|].
  intros u Hu. pose proof (units_at_least_second u Hu). lia.
Qed.

End Fallback.

Section StringifyClaims.

Local Open Scope string_scope.
Local Open Scope Z_scope.

(** C9, as stated, fails for a target 2^53 ms or more from the reference:
    the host rounds the difference to a double before it is broken down.
    With the clock 7999999999999499 ms before the epoch, the target
    7999999999999500 ms after it is 15999999999999999 ms away, which the
    greedy breakdown ends with 38 seconds; the host rounds the difference
    to 16000000000000000 and [stringify] ends with 39 seconds. *)
Lemma stringify_fallback_breakdown_counterexample :
  timeValue (-7999999999999499) /\ timeValue 7999999999999500 /\
  noAlignment 7999999999999500 = true /\
  fallbackText (-7999999999999499) 7999999999999500
  = "now+507356y+8M+5d+4h+26m+38s" /\
  stringify (-7999999999999499) (Some 7999999999999500)
  = Ok "now+507356y+8M+5d+4h+26m+39s" /\
  stringify (-7999999999999499) (Some 7999999999999500)
  <> Ok (fallbackText (-7999999999999499) 7999999999999500).
Proof.
  repeat split; try (vm_compute; congruence).
Qed.

(** C9, amended.  For a target that passes none of the six alignment checks
    and lies less than 2^53 ms from the reference, [stringify] returns
    "now" followed by the components [{sign}{value}{unitLabel}] of the
    greedy breakdown of the absolute difference over year (365 days), month
    (30 days), week, day, hour, minute, second, for the values greater than
    zero, with the one sign of the signed difference; it returns "now" when
    there is none.  With the clock at 2020-06-12T13:20:17.486Z,
    2020-06-08T08:13:17.486Z is written "now-4d-5h-7m". *)
Theorem stringify_fallback_breakdown (now t : Z)
  (Hnow : timeValue now) (Hno : noAlignment t = true)
  (Hnear : Z.abs (t - now) < two53) :
  stringify now (Some t) = Ok (fallbackText now t) /\
  stringify systemTime (UTC 2020 5 8 8 13 17 486) = Ok "now-4d-5h-7m".
Proof.
  split; [|reflexivity].
  apply stringify_fallbackText; [exact Hnow| |exact Hnear].
  apply noAlignment_minute, Hno.
Qed.

Lemma stringify_fallback_breakdown_witness :
  timeValue systemTime /\ noAlignment 1591603997486 = true /\
  stringify systemTime (Some 1591603997486) = Ok "now-4d-5h-7m".
Proof.
  split; [unfold timeValue, maxTime, systemTime; lia|].
  split; [reflexivity|].
  apply (stringify_fallback_breakdown systemTime 1591603997486).
  - unfold timeValue, maxTime, systemTime; lia.
  - reflexivity.
  - vm_compute. reflexivity.
Defined.

(** C10, as stated, fails for targets 2^53 ms or more from the reference.
    With the clock 7999999999999499 ms before the epoch, the targets
    7999999999999499 and 7999999999999500 ms after it reach the fallback,
    their differences have the same whole-unit counts and are one
    millisecond apart; the host rounds the second difference up to
    16000000000000000 and writes 39 seconds for it, 38 for the first. *)
Lemma stringify_discards_subsecond_counterexample :
  timeValue (-7999999999999499) /\
  noAlignment 7999999999999499 = true /\
  noAlignment 7999999999999500 = true /\
  greedyBreakdown breakdownUnits
    (Z.abs (7999999999999499 - -7999999999999499))
  = greedyBreakdown breakdownUnits
      (Z.abs (7999999999999500 - -7999999999999499)) /\
  Z.abs ((7999999999999499 - -7999999999999499)
         - (7999999999999500 - -7999999999999499)) < 1000 /\
  stringify (-7999999999999499) (Some 7999999999999499)
  = Ok "now+507356y+8M+5d+4h+26m+38s" /\
  stringify (-7999999999999499) (Some 7999999999999500)
  = Ok "now+507356y+8M+5d+4h+26m+39s" /\
  stringify (-7999999999999499) (Some 7999999999999499)
  <> stringify (-7999999999999499) (Some 7999999999999500).
Proof.
  repeat split; try (vm_compute; congruence).
Qed.

(** C10, amended.  The fallback branch emits nothing below one second: two
    targets that reach it less than 2^53 ms from the reference, whose
    differences from the reference have the same whole-unit counts and are
    less than 1000 ms apart, are written the same; a target that reaches
    it within 1000 ms of the reference is written "now". *)
Theorem stringify_discards_subsecond (now t1 t2 : Z)
  (Hnow : timeValue now)
  (H1 : noAlignment t1 = true) (H2 : noAlignment t2 = true)
  (Hnear1 : Z.abs (t1 - now) < two53) (Hnear2 : Z.abs (t2 - now) < two53)
  (Hagree : greedyBreakdown breakdownUnits (Z.abs (t1 - now))
            = greedyBreakdown breakdownUnits (Z.abs (t2 - now)))
  (Hclose : Z.abs ((t1 - now) - (t2 - now)) < 1000) :
  stringify now (Some t1) = stringify now (Some t2) /\
  (Z.abs (t1 - now) < 1000 -> stringify now (Some t1) = Ok "now").
Proof.
  pose proof (noAlignment_minute _ H1) as M1.
  pose proof (noAlignment_minute _ H2) as M2.
  rewrite !stringify_fallbackText by assumption.
  split.
  - f_equal.
    destruct (Z.leb_spec 0 (t1 - now)) as [P1|N1];
      destruct (Z.leb_spec 0 (t2 - now)) as [P2|N2].
    + unfold fallbackText. rewrite Hagree.
      destruct (Z.leb_spec 0 (t1 - now)); [|lia].
      destruct (Z.leb_spec 0 (t2 - now)); [|lia]. reflexivity.
    + rewrite !fallbackText_small by lia. reflexivity.
    + rewrite !fallbackText_small by lia. reflexivity.
    + unfold fallbackText. rewrite Hagree.
      destruct (Z.leb_spec 0 (t1 - now)); [lia|].
      destruct (Z.leb_spec 0 (t2 - now)); [lia|]. reflexivity.
  - intros Hs. rewrite fallbackText_small by exact Hs. reflexivity.
Qed.

Lemma stringify_discards_subsecond_witness :
  stringify systemTime (Some (systemTime + 61001))
  = stringify systemTime (Some (systemTime + 61999)) /\
  stringify systemTime (Some (systemTime + 61001)) = Ok "now+1m+1s".
Proof.
  split; [|reflexivity].
  apply (stringify_discards_subsecond systemTime (systemTime + 61001)
           (systemTime + 61999)).
  - unfold timeValue, maxTime, systemTime; lia.
  - reflexivity.
  - reflexivity.
  - vm_compute. reflexivity.
  - vm_compute. reflexivity.
  - reflexivity.
  - vm_compute. reflexivity.
Defined.

End StringifyClaims.

(** * Further properties *)

(** ** An invalid date stays invalid *)

Section InvalidDates.

Local Open Scope string_scope.
Local Open Scope Z_scope.

Lemma applyAdjustment_None (sign : string) (value : Z) (u : string) :
  applyAdjustment None sign value u = None.
Proof.
  unfold applyAdjustment.
  repeat match goal with
         | |- context [(u =? ?c)%string] => destruct (u =? c)%string
         end; reflexivity.
Qed.

Lemma applyRounding_None_inv (u : string) (d : Date) :
  applyRounding None u = Ok d -> d = None.
Proof.
  unfold applyRounding.
  repeat match goal with
         | |- context [(u =? ?c)%string] => destruct (u =? c)%string
         end;
    intros H; try discriminate H; apply Ok_inj in H; subst d; reflexivity.
Qed.

Lemma applyOperation_None_inv (tok : string) (d : Date) :
  applyOperation None tok = Ok d -> d = None.
Proof.
  unfold applyOperation.
  destruct (truthy (first_char tok) &&
            negb (includes ["+"; "-"; "/"] (first_char tok)));
    [discriminate|].
  destruct ((first_char tok =? "/")%string && truthy (slice_m1 tok)).
  - destruct (applyRounding None (slice_m1 tok)) as [d1|m] eqn:E;
      [|discriminate].
    apply applyRounding_None_inv in E. subst d1.
    cbn [bind]. intros H. apply Ok_inj in H. subst d.
    destruct (_ || _); [apply applyAdjustment_None|reflexivity].
  - cbn [bind]. intros H. apply Ok_inj in H. subst d.
    destruct (_ || _); [apply applyAdjustment_None|reflexivity].
Qed.

Lemma forEach_None_inv (toks : list string) (d : Date) :
  forEach toks applyOperation None = Ok d -> d = None.
Proof.
  induction toks as [|tok toks IH]; cbn [forEach].
  - intros H. apply Ok_inj in H. auto.
  - destruct (applyOperation None tok) as [d1|m] eqn:E; [|discriminate].
    apply applyOperation_None_inv in E. subst d1. cbn [bind]. exact IH.
Qed.

Lemma match_all_join_app (toks : list string) (rest : string) :
  Forall token toks ->
  match_all (join toks ++ rest) = (toks ++ match_all rest)%list.
Proof.
  induction 1 as [|tok toks Ht _ IH]; [reflexivity|].
  cbn [join fold_right app]. fold (join toks).
  rewrite append_assoc, (match_all_token_app _ _ Ht), IH. reflexivity.
Qed.

(** X2.  Once the operations have made the date invalid (taken it out of
    the range of [Date]), no further operation makes it valid again: if the
    tokens written so far parse to an invalid date, so does every
    continuation that parses at all. *)
Theorem invalid_date_stays_invalid (now : Z) (toks : list string)
  (rest : string) (d : Date)
  (Htoks : Forall token toks)
  (Hinvalid : parse now ("now" ++ join toks) = Ok None)
  (Hd : parse now ("now" ++ join toks ++ rest) = Ok d) :
  d = None.
Proof.
  rewrite parse_now, (match_all_join _ Htoks) in Hinvalid.
  rewrite parse_now, (match_all_join_app _ _ Htoks), forEach_app, Hinvalid
    in Hd.
  cbn [bind] in Hd. apply (forEach_None_inv _ _ Hd).
Qed.

Lemma invalid_date_stays_invalid_witness :
  parse systemTime "now+200000000d" = Ok None /\
  exists d, parse systemTime "now+200000000d-200000000d/d" = Ok d /\
            d = None.
Proof.
  split; [reflexivity|]. exists None. split; [reflexivity|].
  apply (invalid_date_stays_invalid systemTime ["+200000000d"]
           "-200000000d/d" None).
  - constructor; [|constructor].
    apply (token_number "+" "2" "00000000" "d"); auto.
  - reflexivity.
  - reflexivity.
Defined.

End InvalidDates.

(** ** [convertToDateOnly] and [stringify] at the edges *)

Section Edges.

Local Open Scope string_scope.
Local Open Scope Z_scope.

Lemma floorTo_day_range (t : Z) : timeValue t -> timeValue (floorTo msPerDay t).
Proof.
  unfold timeValue, floorTo, maxTime, msPerDay. intros H.
  Z.div_mod_to_equations. lia.
Qed.

Lemma multiple_of_day_fields (k : Z) :
  HourFromTime (msPerDay * k) = 0 /\ MinFromTime (msPerDay * k) = 0 /\
  SecFromTime (msPerDay * k) = 0 /\ msFromTime (msPerDay * k) = 0.
Proof.
  unfold HourFromTime, MinFromTime, SecFromTime, msFromTime, msPerDay,
    msPerHour, msPerMinute, msPerSecond.
  repeat split; Z.div_mod_to_equations; lia.
Qed.

Lemma multiple_of_day_timeIsZero (k : Z) : timeIsZero (msPerDay * k) = true.
Proof.
  unfold timeIsZero.
  destruct (multiple_of_day_fields k) as (-> & -> & -> & ->). reflexivity.
Qed.

Lemma convertToDateOnly_value (t : Z) :
  timeValue t ->
  convertToDateOnly (@inl Date string (Some t))
  = Ok (Some (floorTo msPerDay t)).
Proof.
  intros Ht. cbn [convertToDateOnly]. unfold UTC. f_equal.
  rewrite MakeDay_Day.
  change (MakeTime 0 0 0 0) with 0.
  replace (MakeDate (Day t) 0) with (floorTo msPerDay t)
    by (unfold MakeDate, floorTo, Day; lia).
  apply TimeClip_timeValue, floorTo_day_range, Ht.
Qed.

(** X3.  [convertToDateOnly] of a valid date is the midnight (UTC) that
    starts the day of the date: a day-aligned instant, not after the date
    and less than a day before it.  On an invalid date and on a string it
    throws. *)
Theorem convertToDateOnly_start_of_day (t : Z) (Ht : timeValue t) :
  (exists s, convertToDateOnly (inl (Some t)) = Ok (Some s) /\
             dayAligned s = true /\ s <= t < s + msPerDay) /\
  (exists message, convertToDateOnly (inl None) = Throw message) /\
  (forall text : string,
     convertToDateOnly (inr text) = Throw "Input is not a Date object.").
Proof.
  split; [|split; [eexists; reflexivity|reflexivity]].
  exists (floorTo msPerDay t). split; [apply convertToDateOnly_value, Ht|].
  split.
  - apply multiple_of_day_timeIsZero.
  - unfold floorTo, msPerDay. Z.div_mod_to_equations. lia.
Qed.

Lemma convertToDateOnly_start_of_day_witness :
  timeValue systemTime /\
  convertToDateOnly (inl (Some systemTime)) = Ok (UTC 2020 5 12 0 0 0 0) /\
  exists s, convertToDateOnly (inl (Some systemTime)) = Ok (Some s) /\
            dayAligned s = true /\ s <= systemTime < s + msPerDay.
Proof.
  assert (Hnow : timeValue systemTime)
    by (unfold timeValue, maxTime, systemTime; lia).
  split; [exact Hnow|]. split; [reflexivity|].
  apply (convertToDateOnly_start_of_day systemTime Hnow).
Defined.

Lemma stringify_invalid_round (now : Z) :
  timeValue now -> roundTrip now None = Ok (Some now).
Proof.
  intros Hnow. unfold roundTrip, stringify.
  rewrite (TimeClip_timeValue now Hnow). reflexivity.
Qed.

(** X4.  [stringify] writes an invalid date as "now": every comparison
    with NaN fails, so no alignment check passes and no component is
    appended.  Parsed back, an invalid date becomes the reference
    instant. *)
Theorem stringify_invalid_date (now : Z) (Hnow : timeValue now) :
  stringify now None = Ok "now" /\ roundTrip now None = Ok (Some now).
Proof.
  assert (H : stringify now None = Ok "now").
  { unfold stringify. rewrite (TimeClip_timeValue now Hnow). reflexivity. }
  split; [exact H|]. unfold roundTrip. rewrite H. reflexivity.
Qed.

Lemma stringify_invalid_date_witness :
  timeValue systemTime /\ roundTrip systemTime None = Ok (Some systemTime).
Proof.
  assert (Hnow : timeValue systemTime)
    by (unfold timeValue, maxTime, systemTime; lia).
  split; [exact Hnow|]. apply (stringify_invalid_date systemTime Hnow).
Defined.

End Edges.

(** ** [applyRounding] rounds down to the start of the period *)

Section RoundingDown.

Local Open Scope string_scope.
Local Open Scope Z_scope.

(** [setUTCHours(0, 0, 0, 0)] after a setter that did not move the date
    forward beyond the range. *)
Lemma startOfDay_after (a : Z) :
  a <= maxTime ->
  setUTCHours4 (TimeClip a) (num 0) (num 0) (num 0) (num 0)
  = TimeClip (floorTo msPerDay a).
Proof.
  intros Ha. destruct (TimeClip a) as [a'|] eqn:E.
  - destruct (TimeClip_Some _ _ E) as [-> _]. apply setUTCHours4_zero.
  - cbn [setUTCHours4]. symmetry. unfold TimeClip in *.
    destruct (Z.ltb_spec maxTime (Z.abs a)); [|discriminate].
    destruct (Z.ltb_spec maxTime (Z.abs (floorTo msPerDay a)));
      [reflexivity|].
    exfalso. unfold floorTo, maxTime, msPerDay in *.
    Z.div_mod_to_equations. lia.
Qed.

Lemma Day_le (t : Z) : msPerDay * Day t <= t.
Proof. unfold Day, msPerDay. Z.div_mod_to_equations. lia. Qed.

(** The date that a rounding returns, in closed form. *)
Lemma applyRounding_periodStart (t : Z) (u : string) :
  In u unitCodes -> timeValue t ->
  applyRounding (Some t) u = Ok (TimeClip (periodStart u t)).
Proof.
  intros Hu Ht. cbn [unitCodes In] in Hu.
  assert (Hmax : t <= maxTime) by (unfold timeValue in Ht; lia).
  destruct Hu as [<- | [<- | [<- | [<- | [<- | [<- | [<- | []]]]]]]].
  - change (applyRounding (Some t) "d")
      with (Ok (setUTCHours4 (Some t) (num 0) (num 0) (num 0) (num 0))).
    rewrite setUTCHours4_zero. reflexivity.
  - change (applyRounding (Some t) "M")
      with (Ok (setUTCHours4 (setUTCDate (Some t) (num 1))
                  (num 0) (num 0) (num 0) (num 0))).
    unfold num at 1. rewrite setUTCDate_to.
    pose proof (DateFromTime_1_31 t) as Hd.
    rewrite startOfDay_after by (unfold msPerDay; lia).
    do 2 f_equal. change (periodStart "M" t)
      with (msPerDay * (Day t - (DateFromTime t - 1))).
    unfold floorTo. fold (Day (t + (1 - DateFromTime t) * msPerDay)).
    rewrite Day_shift. f_equal. lia.
  - change (applyRounding (Some t) "y")
      with (Ok (setUTCHours4 (setUTCMonth2 (Some t) (num 0) (num 1))
                  (num 0) (num 0) (num 0) (num 0))).
    unfold setUTCMonth2 at 1, num at 1 2.
    pose proof (TimeWithinDay_range t) as HT.
    pose proof (YearFromDay_spec (Day t)) as [Hy _].
    pose proof (Day_le t) as Hle.
    assert (Hm : MakeDay (YearFromTime t) 0 1 = DayFromYear (YearFromTime t)).
    { rewrite MakeDay_month by lia. cbv beta iota delta [monthStart]. lia. }
    rewrite Hm.
    rewrite startOfDay_after.
    + do 2 f_equal. unfold floorTo.
      fold (Day (MakeDate (DayFromYear (YearFromTime t)) (TimeWithinDay t))).
      rewrite Day_MakeDate by exact HT. reflexivity.
    + pose proof (MakeDate_Day t) as Hmd.
      unfold MakeDate, YearFromTime in *. unfold msPerDay in *. lia.
  - change (applyRounding (Some t) "h")
      with (Ok (setUTCMinutes3 (Some t) (num 0) (num 0) (num 0))).
    rewrite setUTCMinutes3_zero. reflexivity.
  - change (applyRounding (Some t) "m")
      with (Ok (setUTCSeconds2 (Some t) (num 0) (num 0))).
    rewrite setUTCSeconds2_zero. reflexivity.
  - change (applyRounding (Some t) "s")
      with (Ok (setUTCMilliseconds (Some t) (num 0))).
    rewrite setUTCMilliseconds_zero. reflexivity.
  - change (applyRounding (Some t) "w")
      with (Ok (setUTCHours4
                  (setUTCDate (Some t)
                     (num_sub (getUTCDate (Some t)) (getUTCDay (Some t))))
                  (num 0) (num 0) (num 0) (num 0))).
    cbn [getUTCDate getUTCDay option_map num_sub].
    rewrite rnd_date_weekday, setUTCDate_to.
    pose proof (WeekDay_range t) as Hw.
    rewrite startOfDay_after by (unfold msPerDay; lia).
    do 2 f_equal. change (periodStart "w" t)
      with (msPerDay * (Day t - WeekDay t)).
    unfold floorTo.
    fold (Day (t + (DateFromTime t - WeekDay t - DateFromTime t) * msPerDay)).
    rewrite Day_shift. f_equal. lia.
Qed.

Lemma periodStart_le (u : string) (t : Z) :
  In u unitCodes -> periodStart u t <= t.
Proof.
  intros Hu. cbn [unitCodes In] in Hu.
  pose proof (Day_le t) as Hle.
  pose proof (DateFromTime_1_31 t) as Hd.
  pose proof (WeekDay_range t) as Hw.
  pose proof (YearFromDay_spec (Day t)) as [Hy _].
  destruct Hu as [<- | [<- | [<- | [<- | [<- | [<- | [<- | []]]]]]]];
    cbv beta iota delta [periodStart String.eqb Ascii.eqb Bool.eqb];
    unfold floorTo, YearFromTime, msPerDay, msPerHour, msPerMinute,
      msPerSecond in *;
    try lia; Z.div_mod_to_equations; lia.
Qed.

Lemma timeIsZero_multiple (s : Z) :
  timeIsZero s = true -> s = msPerDay * Day s.
Proof.
  unfold timeIsZero. intros H.
  repeat (apply andb_true_iff in H as [H ?]).
  repeat match goal with
         | E : (_ =? 0) = true |- _ => apply Z.eqb_eq in E
         end.
  pose proof (TimeWithinDay_fields s) as Hf. pose proof (MakeDate_Day s) as Hm.
  unfold MakeDate in *. lia.
Qed.

Lemma Day_multiple (k : Z) : Day (msPerDay * k) = k.
Proof. unfold Day, msPerDay. rewrite Z.mul_comm. apply Z.div_mul. lia. Qed.

Lemma firstOfMonth_MakeDate (t j : Z) :
  msPerDay * (Day t - (DateFromTime t - 1) + j)
  = MakeDate (MakeDay (YearFromTime t) (MonthFromTime t) (1 + j)) 0.
Proof.
  replace (1 + j) with (DateFromTime t + (1 + j - DateFromTime t)) by lia.
  rewrite MakeDay_DateFromTime. unfold MakeDate. lia.
Qed.

Lemma startOfYear_MakeDate (y j : Z) :
  msPerDay * (DayFromYear y + j) = MakeDate (MakeDay y 0 (1 + j)) 0.
Proof.
  rewrite MakeDay_month by lia. cbv beta iota delta [monthStart].
  unfold MakeDate. lia.
Qed.

Lemma periodStart_aligned (u : string) (t : Z) :
  In u unitCodes -> alignedTo u (periodStart u t) = true.
Proof.
  intros Hu. cbn [unitCodes In] in Hu.
  destruct Hu as [<- | [<- | [<- | [<- | [<- | [<- | [<- | []]]]]]]].
  - change (alignedTo "d" (periodStart "d" t))
      with (timeIsZero (msPerDay * (t / msPerDay))).
    apply multiple_of_day_timeIsZero.
  - change (alignedTo "M" (periodStart "M" t))
      with ((DateFromTime (msPerDay * (Day t - (DateFromTime t - 1))) =? 1)
            && timeIsZero (msPerDay * (Day t - (DateFromTime t - 1)))).
    rewrite multiple_of_day_timeIsZero, andb_true_r. apply Z.eqb_eq.
    replace (Day t - (DateFromTime t - 1))
      with (Day t - (DateFromTime t - 1) + 0) by lia.
    rewrite firstOfMonth_MakeDate.
    apply (MakeDay_fields (YearFromTime t) (MonthFromTime t) (1 + 0) 0).
    + apply MonthFromTime_range.
    + split; [lia|]. apply monthLength_positive, leapDay_nonneg.
    + unfold msPerDay. lia.
  - change (alignedTo "y" (periodStart "y" t))
      with ((MonthFromTime (msPerDay * DayFromYear (YearFromTime t)) =? 0)
            && (DateFromTime (msPerDay * DayFromYear (YearFromTime t)) =? 1)
            && timeIsZero (msPerDay * DayFromYear (YearFromTime t))).
    rewrite multiple_of_day_timeIsZero, andb_true_r.
    replace (DayFromYear (YearFromTime t))
      with (DayFromYear (YearFromTime t) + 0) by lia.
    rewrite startOfYear_MakeDate.
    destruct (MakeDay_fields (YearFromTime t) 0 (1 + 0) 0) as (_ & Hm & Hd).
    + lia.
    + split; [lia|]. apply monthLength_positive, leapDay_nonneg.
    + unfold msPerDay. lia.
    + rewrite Hm, Hd. reflexivity.
  - change (alignedTo "h" (periodStart "h" t))
      with (hourAligned (msPerHour * (t / msPerHour))).
    unfold hourAligned, MinFromTime, SecFromTime, msFromTime, msPerHour,
      msPerMinute, msPerSecond.
    rewrite !andb_true_iff, !Z.eqb_eq.
    repeat split; Z.div_mod_to_equations; lia.
  - change (alignedTo "m" (periodStart "m" t))
      with (minuteAligned (msPerMinute * (t / msPerMinute))).
    unfold minuteAligned, SecFromTime, msFromTime, msPerMinute, msPerSecond.
    rewrite !andb_true_iff, !Z.eqb_eq.
    repeat split; Z.div_mod_to_equations; lia.
  - change (alignedTo "s" (periodStart "s" t))
      with (msFromTime (msPerSecond * (t / msPerSecond)) =? 0).
    unfold msFromTime, msPerSecond. rewrite Z.eqb_eq.
    Z.div_mod_to_equations. lia.
  - change (alignedTo "w" (periodStart "w" t))
      with ((WeekDay (msPerDay * (Day t - WeekDay t)) =? 0)
            && timeIsZero (msPerDay * (Day t - WeekDay t))).
    rewrite multiple_of_day_timeIsZero, andb_true_r. apply Z.eqb_eq.
    unfold WeekDay at 1. rewrite Day_multiple. unfold WeekDay.
    Z.div_mod_to_equations. lia.
Qed.

(** No aligned instant lies between the start of the period and [t]. *)
Lemma periodStart_max (u : string) (t s' : Z) :
  In u unitCodes -> alignedTo u s' = true -> s' <= t ->
  s' <= periodStart u t.
Proof.
  intros Hu Ha Hle. cbn [unitCodes In] in Hu.
  destruct Hu as [<- | [<- | [<- | [<- | [<- | [<- | [<- | []]]]]]]].
  - change (timeIsZero s' = true) in Ha.
    apply timeIsZero_multiple in Ha.
    change (periodStart "d" t) with (msPerDay * (t / msPerDay)).
    unfold Day, msPerDay in *. Z.div_mod_to_equations. lia.
  - change ((DateFromTime s' =? 1) && timeIsZero s' = true) in Ha.
    apply andb_true_iff in Ha as [Hd Hz]. apply Z.eqb_eq in Hd.
    apply timeIsZero_multiple in Hz.
    change (periodStart "M" t)
      with (msPerDay * (Day t - (DateFromTime t - 1))).
    destruct (Z_le_gt_dec (Day s') (Day t - (DateFromTime t - 1)))
      as [Hs|Hs]; [unfold msPerDay in *; lia|].
    exfalso.
    assert (Hdt : Day s' <= Day t).
    { unfold Day, msPerDay in *. Z.div_mod_to_equations. lia. }
    set (j := Day s' - (Day t - (DateFromTime t - 1))).
    assert (Hs' : s' = msPerDay * (Day t - (DateFromTime t - 1) + j))
      by (unfold j; rewrite Hz at 1; f_equal; lia).
    rewrite firstOfMonth_MakeDate in Hs'.
    pose proof (DateFromTime_range t) as Hr.
    destruct (MakeDay_fields (YearFromTime t) (MonthFromTime t) (1 + j) 0)
      as (_ & _ & Hf).
    + apply MonthFromTime_range.
    + change (leapDay (YearFromTime t)) with (InLeapYear t).
      unfold j. lia.
    + unfold msPerDay. lia.
    + rewrite <- Hs' in Hf. unfold j in Hf. lia.
  - change ((MonthFromTime s' =? 0) && (DateFromTime s' =? 1)
            && timeIsZero s' = true) in Ha.
    apply andb_true_iff in Ha as [Ha Hz].
    apply andb_true_iff in Ha as [Hm Hd].
    apply Z.eqb_eq in Hm, Hd. apply timeIsZero_multiple in Hz.
    change (periodStart "y" t)
      with (msPerDay * DayFromYear (YearFromTime t)).
    destruct (Z_le_gt_dec (Day s') (DayFromYear (YearFromTime t)))
      as [Hs|Hs]; [unfold msPerDay in *; lia|].
    exfalso.
    assert (Hdt : Day s' <= Day t).
    { unfold Day, msPerDay in *. Z.div_mod_to_equations. lia. }
    pose proof (YearFromDay_spec (Day t)) as [_ Hy].
    assert (Hyear : YearFromTime s' = YearFromTime t).
    { unfold YearFromTime at 1. apply YearFromDay_unique.
      fold (YearFromTime t) in *. lia. }
    unfold DateFromTime, MonthFromTime in Hd, Hm.
    unfold DayWithinYear in Hd, Hm. rewrite Hyear in Hd, Hm.
    repeat match type of Hm with
           | context [?a <? ?b] => destruct (Z.ltb_spec a b)
           end; try discriminate Hm; try lia.
  - change (hourAligned s' = true) in Ha.
    unfold hourAligned in Ha. rewrite !andb_true_iff, !Z.eqb_eq in Ha.
    change (periodStart "h" t) with (msPerHour * (t / msPerHour)).
    unfold MinFromTime, SecFromTime, msFromTime, msPerHour, msPerMinute,
      msPerSecond in *.
    Z.div_mod_to_equations. lia.
  - change (minuteAligned s' = true) in Ha.
    unfold minuteAligned in Ha. rewrite !andb_true_iff, !Z.eqb_eq in Ha.
    change (periodStart "m" t) with (msPerMinute * (t / msPerMinute)).
    unfold SecFromTime, msFromTime, msPerMinute, msPerSecond in *.
    Z.div_mod_to_equations. lia.
  - change ((msFromTime s' =? 0) = true) in Ha. rewrite Z.eqb_eq in Ha.
    change (periodStart "s" t) with (msPerSecond * (t / msPerSecond)).
    unfold msFromTime, msPerSecond in *.
    Z.div_mod_to_equations. lia.
  - change ((WeekDay s' =? 0) && timeIsZero s' = true) in Ha.
    apply andb_true_iff in Ha as [Hw Hz]. apply Z.eqb_eq in Hw.
    apply timeIsZero_multiple in Hz.
    change (periodStart "w" t) with (msPerDay * (Day t - WeekDay t)).
    assert (Hdt : Day s' <= Day t).
    { unfold Day, msPerDay in *. Z.div_mod_to_equations. lia. }
    assert (Day s' <= Day t - WeekDay t).
    { unfold WeekDay in *. Z.div_mod_to_equations. lia. }
    unfold msPerDay in *. lia.
Qed.

(** X5.  A rounding rounds down to a boundary: the instant that
    [applyRounding] returns is not after the instant it was given, it passes
    the alignment check that [stringify] makes for the unit, and no instant
    that passes this check lies between the two. *)
Theorem rounding_rounds_down (t s : Z) (u : string)
  (Hu : In u unitCodes) (Ht : timeValue t)
  (Hr : applyRounding (Some t) u = Ok (Some s)) :
  s <= t /\ alignedTo u s = true /\
  (forall s' : Z, alignedTo u s' = true -> s' <= t -> s' <= s).
Proof.
  rewrite (applyRounding_periodStart t u Hu Ht) in Hr.
  apply Ok_inj in Hr. destruct (TimeClip_Some _ _ Hr) as [-> _].
  split; [apply periodStart_le, Hu|].
  split; [apply periodStart_aligned, Hu|].
  intros s' Ha Hle. apply (periodStart_max u t s' Hu Ha Hle).
Qed.

Lemma rounding_rounds_down_witness :
  applyRounding (Some systemTime) "w" = Ok (UTC 2020 5 7 0 0 0 0) /\
  1591488000000 <= systemTime /\ alignedTo "w" 1591488000000 = true.
Proof.
  split; [reflexivity|].
  destruct (rounding_rounds_down systemTime 1591488000000 "w")
    as (H1 & H2 & _).
  - cbn; tauto.
  - unfold timeValue, maxTime, systemTime; lia.
  - reflexivity.
  - split; assumption.
Defined.

(** X6.  The instants that a rounding leaves where they are, are the
    instants that pass the alignment check of [stringify] for the unit. *)
Theorem rounding_keeps_aligned_instants (t : Z) (u : string)
  (Hu : In u unitCodes) (Ht : timeValue t) :
  applyRounding (Some t) u = Ok (Some t) <-> alignedTo u t = true.
Proof.
  rewrite (applyRounding_periodStart t u Hu Ht). split.
  - intros H. apply Ok_inj in H. destruct (TimeClip_Some _ _ H) as [E _].
    rewrite E at 1. apply periodStart_aligned, Hu.
  - intros Ha.
    assert (E : periodStart u t = t).
    { pose proof (periodStart_le u t Hu).
      pose proof (periodStart_max u t t Hu Ha ltac:(lia)). lia. }
    rewrite E, (TimeClip_timeValue t Ht). reflexivity.
Qed.

Lemma rounding_keeps_aligned_instants_witness :
  alignedTo "M" 1590969600000 = true /\
  applyRounding (UTC 2020 5 1 0 0 0 0) "M" = Ok (UTC 2020 5 1 0 0 0 0).
Proof.
  split; [reflexivity|].
  apply (rounding_keeps_aligned_instants 1590969600000 "M").
  - cbn; tauto.
  - unfold timeValue, maxTime; lia.
  - reflexivity.
Defined.

End RoundingDown.

(** ** Adjustments by units of fixed length add up *)

Section FixedAdjustments.

Local Open Scope string_scope.
Local Open Scope Z_scope.

Lemma fixedUnits_unitCodes (u : string) : In u fixedUnits -> In u unitCodes.
Proof.
  cbn [fixedUnits unitCodes In]. intros H.
  repeat (destruct H as [<- | H]; [tauto|]). destruct H.
Qed.

Lemma parse_two_adjustments (now n1 n2 : Z) (s1 s2 u1 u2 : string) :
  s1 = "+" \/ s1 = "-" -> s2 = "+" \/ s2 = "-" ->
  In u1 unitCodes -> In u2 unitCodes -> 0 < n1 -> 0 < n2 ->
  parse now ("now" ++ (s1 ++ toString (Some n1) ++ u1)
                   ++ (s2 ++ toString (Some n2) ++ u2))
  = Ok (applyAdjustment (applyAdjustment (Some now) s1 (rnd n1) u1)
                        s2 (rnd n2) u2).
Proof.
  intros Hs1 Hs2 Hu1 Hu2 Hn1 Hn2.
  destruct (applyOperation_adjust (Some now) s1 n1 u1 Hs1 Hu1 Hn1)
    as [Ht1 Ha1].
  destruct (applyOperation_adjust (applyAdjustment (Some now) s1 (rnd n1) u1)
              s2 n2 u2 Hs2 Hu2 Hn2) as [Ht2 Ha2].
  rewrite parse_now.
  rewrite (match_all_token_app _ _ Ht1).
  rewrite <- (append_empty_r (s2 ++ toString (Some n2) ++ u2)).
  rewrite (match_all_token_app _ "" Ht2), match_all_empty.
  cbn [forEach]. rewrite Ha1. cbn [bind]. rewrite Ha2. reflexivity.
Qed.

(** X7.  Two adjustments by units of fixed length (s, m, h, d, w), of
    magnitudes that are applied without rounding, add their milliseconds,
    when the instant between them is in the range of [Date]; so their order
    does not matter when both orders stay in the range. *)
Theorem fixed_adjustments_add (now n1 n2 : Z) (s1 s2 u1 u2 : string)
  (Hs1 : s1 = "+" \/ s1 = "-") (Hs2 : s2 = "+" \/ s2 = "-")
  (Hu1 : In u1 fixedUnits) (Hu2 : In u2 fixedUnits)
  (Hn1 : 0 < n1) (Hn2 : 0 < n2)
  (Hx1 : exactMagnitude u1 n1) (Hx2 : exactMagnitude u2 n2)
  (Hmid : timeValue (now + signedMs s1 n1 u1)) :
  parse now ("now" ++ (s1 ++ toString (Some n1) ++ u1)
                   ++ (s2 ++ toString (Some n2) ++ u2))
  = Ok (TimeClip (now + signedMs s1 n1 u1 + signedMs s2 n2 u2)) /\
  (timeValue (now + signedMs s2 n2 u2) ->
   parse now ("now" ++ (s1 ++ toString (Some n1) ++ u1)
                    ++ (s2 ++ toString (Some n2) ++ u2))
   = parse now ("now" ++ (s2 ++ toString (Some n2) ++ u2)
                      ++ (s1 ++ toString (Some n1) ++ u1))).
Proof.
  assert (Hfirst : forall (a b : Z) (sa sb ua ub : string),
             sa = "+" \/ sa = "-" -> sb = "+" \/ sb = "-" ->
             In ua fixedUnits -> In ub fixedUnits -> 0 < a -> 0 < b ->
             exactMagnitude ua a -> exactMagnitude ub b ->
             timeValue (now + signedMs sa a ua) ->
             parse now ("now" ++ (sa ++ toString (Some a) ++ ua)
                              ++ (sb ++ toString (Some b) ++ ub))
             = Ok (TimeClip (now + signedMs sa a ua + signedMs sb b ub))).
  { intros a b sa sb ua ub Hsa Hsb Hua Hub Ha Hb [Ha1 Ha2] [Hb1 Hb2] Hm.
    rewrite parse_two_adjustments
      by auto using fixedUnits_unitCodes.
    rewrite (rnd_small a), (rnd_small b) by (unfold two53; lia).
    rewrite (applyAdjustment_fixed now a sa ua Hua ltac:(lia) Ha2).
    fold (signedMs sa a ua). rewrite (TimeClip_timeValue _ Hm).
    rewrite (applyAdjustment_fixed _ b sb ub Hub ltac:(lia) Hb2).
    reflexivity. }
  split; [apply Hfirst; assumption|].
  intros Hother. rewrite !Hfirst by assumption.
  do 2 f_equal. lia.
Qed.

Lemma fixed_adjustments_add_witness :
  parse systemTime "now-4d+13m" = Ok (UTC 2020 5 8 13 33 17 486) /\
  parse systemTime "now-4d+13m" = parse systemTime "now+13m-4d".
Proof.
  assert (Hm : "-" = "+" \/ "-" = "-") by (right; reflexivity).
  assert (Hp : "+" = "+" \/ "+" = "-") by (left; reflexivity).
  assert (Hd : In "d" fixedUnits) by (cbn; tauto).
  assert (Hmin : In "m" fixedUnits) by (cbn; tauto).
  destruct (fixed_adjustments_add systemTime 4 13 "-" "+" "d" "m"
              Hm Hp Hd Hmin eq_refl eq_refl) as [H1 H2].
  - split; [discriminate|]. intros H. cbn in H.
    repeat (destruct H as [H | H]; [discriminate H|]). destruct H.
  - split; [discriminate|]. intros _. vm_compute. discriminate.
  - vm_compute. split; discriminate.
  - split; [exact H1|]. apply H2. vm_compute. split; discriminate.
Defined.

End FixedAdjustments.

(** ** The scan of the operations *)

Section Scan.

Local Open Scope string_scope.

(** X8.  Every text that the scan of the operations returns is a token: an
    optional sign, one or more digits and a unit code, or a slash and a
    unit code.  Tokens written one after the other, with anything after
    them, are found again, each one whole and in order. *)
Theorem scan_finds_tokens (text rest : string) (toks : list string)
  (Htoks : Forall token toks) :
  Forall token (match_all text) /\
  match_all (join toks ++ rest) = (toks ++ match_all rest)%list /\
  match_all (join toks) = toks.
Proof.
  split; [apply match_all_tokens|].
  split; [apply match_all_join_app, Htoks|apply match_all_join, Htoks].
Qed.

Lemma scan_finds_tokens_witness :
  match_all "-4d/h-4h+13m/h" = ["-4d"; "/h"; "-4h"; "+13m"; "/h"] /\
  Forall token (match_all "now and then 12d") /\
  match_all (join ["-4d"; "/h"] ++ " and /w") = ["-4d"; "/h"; "/w"].
Proof.
  split; [reflexivity|].
  assert (Ht : Forall token ["-4d"; "/h"]).
  { constructor; [|constructor; [|constructor]].
    - apply (token_number "-" "4" "" "d"); auto.
    - apply token_slash. reflexivity. }
  destruct (scan_finds_tokens "now and then 12d" " and /w" _ Ht)
    as (H1 & H2 & _).
  split; [exact H1|]. rewrite H2. reflexivity.
Defined.

End Scan.

(** ** [stringify], branch by branch *)

Section StringifyBranches.

Local Open Scope string_scope.
Local Open Scope Z_scope.

(** [stringify] on a date, with the checks named; the numbers are the
    host's. *)
Lemma stringify_host (now t : Z) :
  timeValue now ->
  stringify now (Some t) =
  let sign := if 0 <=? t - now then "+" else "-" in
  let difference := Z.abs (rnd (t - now)) in
  if yearAligned t then
    let years := rnd (YearFromTime t - YearFromTime now) in
    Ok (if negb (years =? 0)
        then "now" ++ sign ++ toString (Some (Z.abs years)) ++ "y/y"
        else "now/y")
  else if monthAligned t then
    let months :=
      rnd (rnd (rnd (rnd (YearFromTime t - YearFromTime now) * 12)
                + MonthFromTime t)
           - MonthFromTime now) in
    Ok (if negb (months =? 0)
        then "now" ++ sign ++ toString (Some (Z.abs months)) ++ "M"
        else "now/M")
  else if weekAligned t then
    let total :=
      floorDiv (rnd (t - floorTo msPerDay now)) (24 * 60 * 60 * 1000) in
    let weeks := floorDiv total 7 in
    let extra := Z.rem total 7 in
    Ok (if negb (weeks =? 0) || negb (extra =? 0)
        then "now" ++ sign
             ++ toString (Some (rnd (rnd (weeks * 7) + extra))) ++ "d/w"
        else "now/w")
  else if dayAligned t then
    Ok (if negb (floorDiv difference msInDay =? 0)
        then "now" ++ sign
             ++ toString (Some (floorDiv difference msInDay)) ++ "d"
        else "now/d")
  else if hourAligned t then
    Ok (if negb (floorDiv difference msInHour =? 0)
        then "now" ++ sign
             ++ toString (Some (floorDiv difference msInHour)) ++ "h"
        else "now/h")
  else if minuteAligned t then
    Ok (if negb (floorDiv difference msInMinute =? 0)
        then "now" ++ sign
             ++ toString (Some (floorDiv difference msInMinute)) ++ "m"
        else "now/m")
  else Ok (snd (fold_left (breakdownStep sign) units (Some difference, "now"))).
Proof.
  intros Hnow.
  destruct (minuteAligned t) eqn:Hmin.
  - unfold stringify. rewrite (TimeClip_timeValue now Hnow).
    cbv beta zeta.
    rewrite (convertToDateOnly_value now Hnow).
    unfold minuteAligned in Hmin.
    cbv [getTime getUTCMonth getUTCDate getUTCHours getUTCMinutes
         getUTCSeconds getUTCMilliseconds getUTCDay getUTCFullYear
         option_map num_eqb num_neqb num_sub num_add num_mul num num_geb
         Math_abs Math_floor_div num_rem bind].
    rewrite rnd_sign.
    unfold yearAligned, monthAligned, weekAligned, dayAligned, hourAligned,
      timeIsZero.
    rewrite Hmin. reflexivity.
  - rewrite (stringify_fallback now t Hnow Hmin).
    unfold yearAligned, monthAligned, weekAligned, dayAligned, hourAligned,
      timeIsZero.
    unfold minuteAligned in Hmin.
    destruct (SecFromTime t =? 0), (msFromTime t =? 0); try discriminate Hmin;
      rewrite ?andb_false_r; reflexivity.
Qed.

(** The same for a date in the range of [Date]: the years, the months and
    the days of the week branch are not rounded. *)
Lemma stringify_cases (now t : Z) :
  timeValue now -> timeValue t ->
  stringify now (Some t) =
  let sign := if 0 <=? t - now then "+" else "-" in
  let difference := Z.abs (rnd (t - now)) in
  if yearAligned t then
    let years := YearFromTime t - YearFromTime now in
    Ok (if negb (years =? 0)
        then "now" ++ sign ++ toString (Some (Z.abs years)) ++ "y/y"
        else "now/y")
  else if monthAligned t then
    let months :=
      (YearFromTime t - YearFromTime now) * 12 + MonthFromTime t
      - MonthFromTime now in
    Ok (if negb (months =? 0)
        then "now" ++ sign ++ toString (Some (Z.abs months)) ++ "M"
        else "now/M")
  else if weekAligned t then
    let total := (t - floorTo msPerDay now) / (24 * 60 * 60 * 1000) in
    Ok (if negb (total / 7 =? 0) || negb (Z.rem total 7 =? 0)
        then "now" ++ sign
             ++ toString (Some (total / 7 * 7 + Z.rem total 7)) ++ "d/w"
        else "now/w")
  else if dayAligned t then
    Ok (if negb (floorDiv difference msInDay =? 0)
        then "now" ++ sign
             ++ toString (Some (floorDiv difference msInDay)) ++ "d"
        else "now/d")
  else if hourAligned t then
    Ok (if negb (floorDiv difference msInHour =? 0)
        then "now" ++ sign
             ++ toString (Some (floorDiv difference msInHour)) ++ "h"
        else "now/h")
  else if minuteAligned t then
    Ok (if negb (floorDiv difference msInMinute =? 0)
        then "now" ++ sign
             ++ toString (Some (floorDiv difference msInMinute)) ++ "m"
        else "now/m")
  else Ok (snd (fold_left (breakdownStep sign) units (Some difference, "now"))).
Proof.
  intros Hnow Ht. rewrite (stringify_host now t Hnow). cbv zeta.
  pose proof (YearFromTime_bound t Ht) as Hyt.
  pose proof (YearFromTime_bound now Hnow) as Hyn.
  pose proof (MonthFromTime_range t) as Hmt.
  pose proof (MonthFromTime_range now) as Hmn.
  rewrite (rnd_small (YearFromTime t - YearFromTime now))
    by (unfold two53; lia).
  rewrite (rnd_small ((YearFromTime t - YearFromTime now) * 12))
    by (unfold two53; lia).
  rewrite (rnd_small ((YearFromTime t - YearFromTime now) * 12
                      + MonthFromTime t)) by (unfold two53; lia).
  rewrite (rnd_small ((YearFromTime t - YearFromTime now) * 12
                      + MonthFromTime t - MonthFromTime now))
    by (unfold two53; lia).
  destruct (yearAligned t); [reflexivity|].
  destruct (monthAligned t); [reflexivity|].
  destruct (weekAligned t) eqn:Hweek; [|reflexivity].
  apply andb_true_iff in Hweek as [_ Hzero].
  pose proof (timeIsZero_multiple t Hzero) as Hmul.
  assert (Hdays : t - floorTo msPerDay now
                  = (Day t - Day now) * (24 * 60 * 60 * 1000)).
  { rewrite Hmul at 1. unfold floorTo. fold (Day now).
    change (24 * 60 * 60 * 1000) with msPerDay. lia. }
  assert (Hd : Z.abs (Day t - Day now) <= 200000000).
  { unfold timeValue, maxTime in *. unfold Day, msPerDay.
    Z.div_mod_to_equations. lia. }
  rewrite Hdays.
  rewrite rnd_even;
    [|rewrite Z.even_mul; apply orb_true_iff; right; reflexivity
     |unfold two53; lia].
  rewrite floorDiv_multiple by lia.
  rewrite Z.div_mul by discriminate.
  set (D := Day t - Day now) in *.
  rewrite (floorDiv_exact D 7) by (unfold two53; lia).
  assert (Hq : Z.abs (D / 7) <= 200000000)
    by (Z.div_mod_to_equations; lia).
  assert (Hr : Z.abs (Z.rem D 7) <= 7)
    by (Z.to_euclidean_division_equations; lia).
  rewrite (rnd_small (D / 7 * 7)) by (unfold two53; lia).
  rewrite (rnd_small (D / 7 * 7 + Z.rem D 7)) by (unfold two53; lia).
  reflexivity.
Qed.

(** And for a date less than 2^53 ms from the reference, where nothing is
    rounded. *)
Lemma stringify_cases_near (now t : Z) :
  timeValue now -> timeValue t -> Z.abs (t - now) < two53 ->
  stringify now (Some t) =
  let sign := if 0 <=? t - now then "+" else "-" in
  let difference := Z.abs (t - now) in
  if yearAligned t then
    let years := YearFromTime t - YearFromTime now in
    Ok (if negb (years =? 0)
        then "now" ++ sign ++ toString (Some (Z.abs years)) ++ "y/y"
        else "now/y")
  else if monthAligned t then
    let months :=
      (YearFromTime t - YearFromTime now) * 12 + MonthFromTime t
      - MonthFromTime now in
    Ok (if negb (months =? 0)
        then "now" ++ sign ++ toString (Some (Z.abs months)) ++ "M"
        else "now/M")
  else if weekAligned t then
    let total := (t - floorTo msPerDay now) / (24 * 60 * 60 * 1000) in
    Ok (if negb (total / 7 =? 0) || negb (Z.rem total 7 =? 0)
        then "now" ++ sign
             ++ toString (Some (total / 7 * 7 + Z.rem total 7)) ++ "d/w"
        else "now/w")
  else if dayAligned t then
    Ok (if negb (difference / msInDay =? 0)
        then "now" ++ sign ++ toString (Some (difference / msInDay)) ++ "d"
        else "now/d")
  else if hourAligned t then
    Ok (if negb (difference / msInHour =? 0)
        then "now" ++ sign ++ toString (Some (difference / msInHour)) ++ "h"
        else "now/h")
  else if minuteAligned t then
    Ok (if negb (difference / msInMinute =? 0)
        then "now" ++ sign ++ toString (Some (difference / msInMinute)) ++ "m"
        else "now/m")
  else Ok (fallbackText now t).
Proof.
  intros Hnow Ht Hnear.
  destruct (minuteAligned t) eqn:Hmin.
  - rewrite (stringify_cases now t Hnow Ht). cbv zeta. rewrite Hmin.
    rewrite (rnd_small (t - now)) by lia.
    rewrite !floorDiv_exact by (lia || reflexivity).
    reflexivity.
  - rewrite (stringify_fallbackText now t Hnow Hmin Hnear).
    unfold yearAligned, monthAligned, weekAligned, dayAligned, hourAligned,
      timeIsZero.
    unfold minuteAligned in Hmin.
    destruct (SecFromTime t =? 0), (msFromTime t =? 0); try discriminate Hmin;
      rewrite ?andb_false_r; reflexivity.
Qed.

Lemma MakeDay_year (y m dt time : Z) :
  0 <= m <= 11 -> 1 <= dt <= 31 -> 0 <= time < msPerDay ->
  YearFromTime (MakeDate (MakeDay y m dt) time) = y.
Proof.
  intros Hm Hdt Htime.
  destruct (Z_le_gt_dec dt (monthLength m (leapDay y))) as [Hle|Hgt].
  - apply (MakeDay_fields y m dt time Hm ltac:(lia) Htime).
  - assert (Hm' : 0 <= m <= 10).
    { assert (m = 11 -> False); [|lia].
      intros ->. cbv beta iota delta [monthLength] in Hgt. lia. }
    pose proof (leapDay_nonneg y) as Hl.
    pose proof (monthLength_ge_28 m (leapDay y) Hl).
    pose proof (monthLength_ge_28 (m + 1) (leapDay y) Hl).
    rewrite (MakeDay_overflow y m dt Hm').
    apply (MakeDay_fields y (m + 1) (dt - monthLength m (leapDay y)) time);
      [lia|lia|exact Htime].
Qed.

Lemma aligned_periodStart (u : string) (t : Z) :
  In u unitCodes -> alignedTo u t = true -> periodStart u t = t.
Proof.
  intros Hu Ha.
  pose proof (periodStart_le u t Hu).
  pose proof (periodStart_max u t t Hu Ha ltac:(lia)). lia.
Qed.

Lemma parse_round (now : Z) (u : string) :
  In u unitCodes -> parse now ("now" ++ "/" ++ u) = applyRounding (Some now) u.
Proof.
  intros Hu. rewrite parse_now.
  destruct (match_all_round u Hu) as [-> _]. cbn [forEach].
  rewrite (applyOperation_round _ u Hu).
  destruct (applyRounding_returns (Some now) u Hu) as [r ->]. reflexivity.
Qed.

Lemma parse_adjust_round (now n : Z) (sign u v : string) :
  sign = "+" \/ sign = "-" -> In u unitCodes -> In v unitCodes -> 0 < n ->
  parse now ("now" ++ (sign ++ toString (Some n) ++ u) ++ "/" ++ v)
  = applyRounding (applyAdjustment (Some now) sign (rnd n) u) v.
Proof.
  intros Hs Hu Hv Hn.
  destruct (applyOperation_adjust (Some now) sign n u Hs Hu Hn) as [Ht Ha].
  rewrite parse_now.
  change ((sign ++ toString (Some n) ++ u) ++ "/" ++ v)
    with ((sign ++ toString (Some n) ++ u) ++ String "/" v).
  rewrite match_all_app_slash.
  rewrite <- (append_empty_r (sign ++ toString (Some n) ++ u)) at 1.
  rewrite (match_all_token_app _ "" Ht), match_all_empty.
  change (String "/" v) with ("/" ++ v).
  destruct (match_all_round v Hv) as [-> _].
  cbn [app forEach]. rewrite Ha. cbn [bind].
  rewrite (applyOperation_round _ v Hv).
  destruct (applyRounding_returns
              (applyAdjustment (Some now) sign (rnd n) u) v Hv) as [r ->].
  reflexivity.
Qed.

Lemma Year_lt_time (a b : Z) : YearFromTime a < YearFromTime b -> a < b.
Proof.
  intros H. destruct (Z_lt_ge_dec a b) as [|Hge]; [assumption|exfalso].
  assert (Hb : TimeFromYear (YearFromTime b) <= b)
    by (apply YearFromTime_largest; lia).
  assert (Ha : TimeFromYear (YearFromTime b) <= a) by lia.
  apply YearFromTime_largest in Ha. lia.
Qed.

Lemma yearAligned_start (t : Z) :
  yearAligned t = true -> t = msPerDay * DayFromYear (YearFromTime t).
Proof.
  intros Ha. symmetry.
  apply (aligned_periodStart "y" t); [cbn; tauto|exact Ha].
Qed.

(** X9.  A year-aligned instant is written so that it parses back to
    itself: as "now/y" in the year of the reference, and otherwise as the
    signed number of years followed by "/y".  The reference moved to the
    year of the target has to be in the range of [Date]. *)
Theorem year_aligned_round_trip (now t : Z)
  (Hnow : timeValue now) (Ht : timeValue t)
  (Ha : yearAligned t = true)
  (Hmid : timeValue
            (MakeDate (MakeDay (YearFromTime t) (MonthFromTime now)
                               (DateFromTime now))
                      (TimeWithinDay now))) :
  roundTrip now (Some t) = Ok (Some t).
Proof.
  assert (Hy : In "y" unitCodes) by (cbn; tauto).
  pose proof (yearAligned_start t Ha) as Hstart.
  pose proof (YearFromTime_bound t Ht) as Hyt.
  pose proof (YearFromTime_bound now Hnow) as Hyn.
  unfold roundTrip. rewrite (stringify_cases now t Hnow Ht), Ha. cbv zeta.
  cbn [bind].
  destruct (Z.eqb_spec (YearFromTime t - YearFromTime now) 0) as [H0|H0];
    cbn [negb].
  - change "now/y" with ("now" ++ "/" ++ "y").
    rewrite (parse_round now "y" Hy).
    rewrite (applyRounding_periodStart now "y" Hy Hnow).
    change (periodStart "y" now)
      with (msPerDay * DayFromYear (YearFromTime now)).
    replace (YearFromTime now) with (YearFromTime t) by lia.
    rewrite <- Hstart, (TimeClip_timeValue t Ht). reflexivity.
  - assert (Hmove : forall (sign : string) (n : Z),
               YearFromTime now + n * (if (sign =? "+")%string then 1 else -1)
               = YearFromTime t ->
               sign = "+" \/ sign = "-" -> 0 < n ->
               parse now ("now" ++ sign ++ toString (Some n) ++ "y/y")
               = Ok (Some t)).
    { intros sign n Hsum Hs Hn.
      replace (sign ++ toString (Some n) ++ "y/y")
        with ((sign ++ toString (Some n) ++ "y") ++ "/" ++ "y")
        by (rewrite !append_assoc; reflexivity).
      rewrite (parse_adjust_round now n sign "y" "y" Hs Hy Hy Hn).
      assert (Hsmall : n <= 600000)
        by (destruct (sign =? "+")%string; lia).
      rewrite (rnd_small n) by (unfold two53; lia).
      change (applyAdjustment (Some now) sign n "y")
        with (setUTCFullYear1 (Some now)
                (Some (rnd (YearFromTime now
                            + rnd (n * (if (sign =? "+")%string
                                        then 1 else -1)))))).
      rewrite (rnd_small (n * _))
        by (unfold two53; destruct (sign =? "+")%string; lia).
      rewrite (rnd_small (YearFromTime now + _))
        by (unfold two53; destruct (sign =? "+")%string; lia).
      unfold setUTCFullYear1. rewrite Hsum, (TimeClip_timeValue _ Hmid).
      rewrite (applyRounding_periodStart _ "y" Hy Hmid).
      change (periodStart "y" ?x) with (msPerDay * DayFromYear (YearFromTime x)).
      rewrite MakeDay_year;
        [|apply MonthFromTime_range|apply DateFromTime_1_31
         |apply TimeWithinDay_range].
      rewrite <- Hstart, (TimeClip_timeValue t Ht). reflexivity. }
    destruct (Z_lt_ge_dec (YearFromTime now) (YearFromTime t)) as [Hlt|Hge].
    + pose proof (Year_lt_time now t Hlt).
      destruct (Z.leb_spec 0 (t - now)); [|lia].
      apply Hmove; [|left; reflexivity|lia].
      change (("+" =? "+")%string) with true. cbv iota. lia.
    + assert (Hlt : YearFromTime t < YearFromTime now) by lia.
      pose proof (Year_lt_time t now Hlt).
      destruct (Z.leb_spec 0 (t - now)); [lia|].
      apply Hmove; [|right; reflexivity|lia].
      change (("-" =? "+")%string) with false. cbv iota. lia.
Qed.

Lemma year_aligned_round_trip_witness :
  stringify systemTime (UTC 2017 0 1 0 0 0 0) = Ok "now-3y/y" /\
  roundTrip systemTime (UTC 2017 0 1 0 0 0 0) = Ok (UTC 2017 0 1 0 0 0 0).
Proof.
  split; [reflexivity|].
  apply (year_aligned_round_trip systemTime 1483228800000).
  - unfold timeValue, maxTime, systemTime; lia.
  - unfold timeValue, maxTime; lia.
  - reflexivity.
  - vm_compute. split; discriminate.
Defined.

(** *** The reference, rounded *)

Lemma yearAligned_month (s : Z) :
  yearAligned s = true -> monthAligned s = true.
Proof.
  unfold yearAligned, monthAligned. intros H.
  apply andb_true_iff in H as [H H2]. apply andb_true_iff in H as [_ H1].
  rewrite H1, H2. reflexivity.
Qed.

Lemma monthAligned_day (s : Z) : monthAligned s = true -> dayAligned s = true.
Proof.
  unfold monthAligned, dayAligned. intros H.
  apply andb_true_iff in H as [_ H]. exact H.
Qed.

Lemma weekAligned_day (s : Z) : weekAligned s = true -> dayAligned s = true.
Proof.
  unfold weekAligned, dayAligned. intros H.
  apply andb_true_iff in H as [_ H]. exact H.
Qed.

Lemma dayAligned_hour (s : Z) : dayAligned s = true -> hourAligned s = true.
Proof.
  unfold dayAligned, timeIsZero, hourAligned. intros H.
  repeat (apply andb_true_iff in H as [H ?]).
  repeat (apply andb_true_iff; split); assumption.
Qed.

Lemma hourAligned_minute (s : Z) :
  hourAligned s = true -> minuteAligned s = true.
Proof.
  unfold hourAligned, minuteAligned. intros H.
  repeat (apply andb_true_iff in H as [H ?]).
  repeat (apply andb_true_iff; split); assumption.
Qed.

Lemma periodStart_coarser (u v : string) (now : Z) :
  In u unitCodes -> In v unitCodes ->
  (forall s, alignedTo v s = true -> alignedTo u s = true) ->
  periodStart v now <= periodStart u now.
Proof.
  intros Hu Hv Himp.
  apply (periodStart_max u now _ Hu).
  - apply Himp, periodStart_aligned, Hv.
  - apply periodStart_le, Hv.
Qed.

Lemma aligned_sandwich (v : string) (now t : Z) :
  In v unitCodes -> alignedTo v t = true -> t <= now ->
  periodStart v now <= t -> t = periodStart v now.
Proof.
  intros Hv Ha Hle Hge.
  pose proof (periodStart_max v now t Hv Ha Hle). lia.
Qed.

Lemma zero_form_y (now t : Z) :
  timeValue now -> timeValue t -> yearAligned t = true ->
  t = periodStart "y" now -> roundTrip now (Some t) = Ok (Some t).
Proof.
  intros Hnow Ht Ha Hs.
  assert (Hy : In "y" unitCodes) by (cbn; tauto).
  assert (Hyear : YearFromTime t = YearFromTime now).
  { rewrite Hs at 1.
    change (periodStart "y" now)
      with (msPerDay * DayFromYear (YearFromTime now)).
    replace (DayFromYear (YearFromTime now))
      with (DayFromYear (YearFromTime now) + 0) by lia.
    rewrite startOfYear_MakeDate.
    apply MakeDay_year; unfold msPerDay; lia. }
  unfold roundTrip. rewrite (stringify_cases now t Hnow Ht), Ha. cbv zeta.
  rewrite Hyear, Z.sub_diag. cbn [Z.eqb negb bind].
  change "now/y" with ("now" ++ "/" ++ "y").
  rewrite (parse_round now "y" Hy), (applyRounding_periodStart now "y" Hy Hnow).
  rewrite <- Hs, (TimeClip_timeValue t Ht). reflexivity.
Qed.

Lemma zero_form_M (now t : Z) :
  timeValue now -> timeValue t ->
  yearAligned t = false -> monthAligned t = true ->
  t = periodStart "M" now -> roundTrip now (Some t) = Ok (Some t).
Proof.
  intros Hnow Ht Hy Ha Hs.
  assert (HM : In "M" unitCodes) by (cbn; tauto).
  assert (Hf : YearFromTime t = YearFromTime now /\
               MonthFromTime t = MonthFromTime now).
  { rewrite Hs.
    change (periodStart "M" now)
      with (msPerDay * (Day now - (DateFromTime now - 1))).
    replace (Day now - (DateFromTime now - 1))
      with (Day now - (DateFromTime now - 1) + 0) by lia.
    rewrite firstOfMonth_MakeDate.
    destruct (MakeDay_fields (YearFromTime now) (MonthFromTime now) (1 + 0) 0)
      as (H1 & H2 & _); auto.
    - apply MonthFromTime_range.
    - split; [lia|]. apply monthLength_positive, leapDay_nonneg.
    - unfold msPerDay. lia. }
  destruct Hf as [Hyear Hmonth].
  unfold roundTrip. rewrite (stringify_cases now t Hnow Ht), Hy, Ha. cbv zeta.
  replace ((YearFromTime t - YearFromTime now) * 12 + MonthFromTime t
           - MonthFromTime now) with 0 by lia.
  cbn [Z.eqb negb bind].
  change "now/M" with ("now" ++ "/" ++ "M").
  rewrite (parse_round now "M" HM), (applyRounding_periodStart now "M" HM Hnow).
  rewrite <- Hs, (TimeClip_timeValue t Ht). reflexivity.
Qed.

Lemma monthAligned_false_year (t : Z) :
  monthAligned t = false -> yearAligned t = false.
Proof.
  intros H. destruct (yearAligned t) eqn:E; [|reflexivity].
  rewrite (yearAligned_month t E) in H. discriminate H.
Qed.

Lemma dayAligned_false_month (t : Z) :
  dayAligned t = false -> monthAligned t = false /\ weekAligned t = false.
Proof.
  intros H. split.
  - destruct (monthAligned t) eqn:E; [|reflexivity].
    rewrite (monthAligned_day t E) in H. discriminate H.
  - destruct (weekAligned t) eqn:E; [|reflexivity].
    rewrite (weekAligned_day t E) in H. discriminate H.
Qed.

Lemma zero_form_w (now t : Z) :
  timeValue now -> timeValue t ->
  monthAligned t = false -> weekAligned t = true ->
  t = floorTo msPerDay now -> roundTrip now (Some t) = Ok (Some t).
Proof.
  intros Hnow Ht HM Ha Hs.
  assert (Hw : In "w" unitCodes) by (cbn; tauto).
  unfold roundTrip.
  rewrite (stringify_cases now t Hnow Ht), (monthAligned_false_year t HM), HM,
    Ha.
  cbv zeta. rewrite <- Hs, Z.sub_diag.
  change (0 / (24 * 60 * 60 * 1000)) with 0.
  change (0 / 7) with 0. change (Z.rem 0 7) with 0.
  cbn [Z.eqb negb orb bind].
  change "now/w" with ("now" ++ "/" ++ "w").
  rewrite (parse_round now "w" Hw), (applyRounding_periodStart now "w" Hw Hnow).
  change (periodStart "w" now) with (msPerDay * (Day now - WeekDay now)).
  assert (Hday : Day t = Day now).
  { rewrite Hs. unfold floorTo. apply Day_multiple. }
  assert (Hwd : WeekDay now = 0).
  { unfold weekAligned in Ha. apply andb_true_iff in Ha as [Ha _].
    apply Z.eqb_eq in Ha. unfold WeekDay in *. rewrite <- Hday. exact Ha. }
  rewrite Hwd, Z.sub_0_r.
  change (msPerDay * Day now) with (floorTo msPerDay now).
  rewrite <- Hs, (TimeClip_timeValue t Ht). reflexivity.
Qed.

Lemma zero_form_d (now t : Z) :
  timeValue now -> timeValue t ->
  monthAligned t = false -> weekAligned t = false -> dayAligned t = true ->
  t = floorTo msPerDay now -> roundTrip now (Some t) = Ok (Some t).
Proof.
  intros Hnow Ht HM Hw Ha Hs.
  assert (Hd : In "d" unitCodes) by (cbn; tauto).
  assert (Hnear : Z.abs (t - now) < two53).
  { rewrite Hs. unfold floorTo, msPerDay, two53.
    Z.div_mod_to_equations. lia. }
  unfold roundTrip.
  rewrite (stringify_cases_near now t Hnow Ht Hnear),
    (monthAligned_false_year t HM), HM, Hw, Ha.
  cbv zeta.
  rewrite (Z.div_small (Z.abs (t - now)) msInDay).
  - cbn [Z.eqb negb bind].
    change "now/d" with ("now" ++ "/" ++ "d").
    rewrite (parse_round now "d" Hd),
      (applyRounding_periodStart now "d" Hd Hnow).
    change (periodStart "d" now) with (floorTo msPerDay now).
    rewrite <- Hs, (TimeClip_timeValue t Ht). reflexivity.
  - rewrite Hs. unfold floorTo, msPerDay.
    change msInDay with 86400000. Z.div_mod_to_equations. lia.
Qed.

Lemma zero_form_h (now t : Z) :
  timeValue now -> timeValue t ->
  dayAligned t = false -> hourAligned t = true ->
  t = periodStart "h" now -> roundTrip now (Some t) = Ok (Some t).
Proof.
  intros Hnow Ht Hd Ha Hs.
  assert (Hh : In "h" unitCodes) by (cbn; tauto).
  destruct (dayAligned_false_month t Hd) as [HM Hw].
  assert (Hnear : Z.abs (t - now) < two53).
  { rewrite Hs. change (periodStart "h" now) with (floorTo msPerHour now).
    unfold floorTo, msPerHour, two53. Z.div_mod_to_equations. lia. }
  unfold roundTrip.
  rewrite (stringify_cases_near now t Hnow Ht Hnear),
    (monthAligned_false_year t HM), HM, Hw, Hd, Ha.
  cbv zeta.
  rewrite (Z.div_small (Z.abs (t - now)) msInHour).
  - cbn [Z.eqb negb bind].
    change "now/h" with ("now" ++ "/" ++ "h").
    rewrite (parse_round now "h" Hh),
      (applyRounding_periodStart now "h" Hh Hnow).
    rewrite <- Hs, (TimeClip_timeValue t Ht). reflexivity.
  - rewrite Hs. change (periodStart "h" now) with (floorTo msPerHour now).
    unfold floorTo, msPerHour.
    change msInHour with 3600000. Z.div_mod_to_equations. lia.
Qed.

Lemma zero_form_m (now t : Z) :
  timeValue now -> timeValue t ->
  hourAligned t = false -> minuteAligned t = true ->
  t = periodStart "m" now -> roundTrip now (Some t) = Ok (Some t).
Proof.
  intros Hnow Ht Hh Ha Hs.
  assert (Hm : In "m" unitCodes) by (cbn; tauto).
  assert (Hd : dayAligned t = false).
  { destruct (dayAligned t) eqn:E; [|reflexivity].
    rewrite (dayAligned_hour t E) in Hh. discriminate Hh. }
  destruct (dayAligned_false_month t Hd) as [HM Hw].
  assert (Hnear : Z.abs (t - now) < two53).
  { rewrite Hs. change (periodStart "m" now) with (floorTo msPerMinute now).
    unfold floorTo, msPerMinute, two53. Z.div_mod_to_equations. lia. }
  unfold roundTrip.
  rewrite (stringify_cases_near now t Hnow Ht Hnear),
    (monthAligned_false_year t HM), HM, Hw, Hd, Hh, Ha.
  cbv zeta.
  rewrite (Z.div_small (Z.abs (t - now)) msInMinute).
  - cbn [Z.eqb negb bind].
    change "now/m" with ("now" ++ "/" ++ "m").
    rewrite (parse_round now "m" Hm),
      (applyRounding_periodStart now "m" Hm Hnow).
    rewrite <- Hs, (TimeClip_timeValue t Ht). reflexivity.
  - rewrite Hs. change (periodStart "m" now) with (floorTo msPerMinute now).
    unfold floorTo, msPerMinute.
    change msInMinute with 60000. Z.div_mod_to_equations. lia.
Qed.

Lemma zero_form_dispatch (now t : Z) :
  timeValue now -> timeValue t -> t <= now -> minuteAligned t = true ->
  (yearAligned t = true -> periodStart "y" now <= t) ->
  (yearAligned t = false -> monthAligned t = true ->
   periodStart "M" now <= t) ->
  (monthAligned t = false -> dayAligned t = true ->
   floorTo msPerDay now <= t) ->
  (dayAligned t = false -> hourAligned t = true ->
   periodStart "h" now <= t) ->
  (hourAligned t = false -> periodStart "m" now <= t) ->
  roundTrip now (Some t) = Ok (Some t).
Proof.
  intros Hnow Ht Hle Hmin Py PM Pd Ph Pm.
  destruct (yearAligned t) eqn:By.
  { apply zero_form_y; auto.
    apply aligned_sandwich; auto. cbn; tauto. }
  destruct (monthAligned t) eqn:BM.
  { apply zero_form_M; auto.
    apply aligned_sandwich; auto. cbn; tauto. }
  destruct (dayAligned t) eqn:Bd.
  { assert (Hs : t = floorTo msPerDay now).
    { apply (aligned_sandwich "d" now t); auto. cbn; tauto. }
    destruct (weekAligned t) eqn:Bw.
    - apply zero_form_w; auto.
    - apply zero_form_d; auto. }
  destruct (hourAligned t) eqn:Bh.
  { apply zero_form_h; auto.
    apply aligned_sandwich; auto. cbn; tauto. }
  apply zero_form_m; auto.
  apply aligned_sandwich; auto. cbn; tauto.
Qed.

(** X10.  [stringify] inverts the rounding of the reference: the start of
    the year, month, day, hour or minute of the reference, as "now/y",
    "now/M", "now/d", "now/h" or "now/m" parse to, is written so that it
    parses back to itself. *)
Theorem rounded_reference_round_trip (now t : Z) (u : string)
  (Hu : In u ["y"; "M"; "d"; "h"; "m"]) (Hnow : timeValue now)
  (Hp : parse now ("now" ++ "/" ++ u) = Ok (Some t)) :
  roundTrip now (Some t) = Ok (Some t).
Proof.
  assert (Huc : In u unitCodes).
  { cbn [In unitCodes] in *.
    repeat (destruct Hu as [<- | Hu]; [tauto|]). destruct Hu. }
  rewrite (parse_round now u Huc), (applyRounding_periodStart now u Huc Hnow)
    in Hp.
  apply Ok_inj in Hp. destruct (TimeClip_Some _ _ Hp) as [Hs Ht].
  rewrite <- Hs in Ht.
  pose proof (periodStart_le u now Huc) as Hle. rewrite <- Hs in Hle.
  pose proof (periodStart_aligned u now Huc) as Ha. rewrite <- Hs in Ha.
  assert (Hy : In "y" unitCodes) by (cbn; tauto).
  assert (HM : In "M" unitCodes) by (cbn; tauto).
  assert (Hd : In "d" unitCodes) by (cbn; tauto).
  assert (Hh : In "h" unitCodes) by (cbn; tauto).
  assert (Hm : In "m" unitCodes) by (cbn; tauto).
  pose proof (yearAligned_month t) as C1.
  pose proof (monthAligned_day t) as C2.
  pose proof (dayAligned_hour t) as C3.
  pose proof (hourAligned_minute t) as C4.
  cbn [In] in Hu.
  destruct Hu as [<- | [<- | [<- | [<- | [<- | []]]]]];
    [ change (yearAligned t = true) in Ha
    | change (monthAligned t = true) in Ha
    | change (dayAligned t = true) in Ha
    | change (hourAligned t = true) in Ha
    | change (minuteAligned t = true) in Ha ];
    (apply zero_form_dispatch; auto;
     try (intros; congruence);
     try (intros; exfalso;
          repeat match goal with
                 | H : ?b = true -> _ |- _ =>
                     let H' := fresh in
                     assert (H' : b = true) by assumption;
                     specialize (H H')
                 end; congruence);
     intros; rewrite Hs).
  all: try (apply periodStart_coarser; auto; intros s;
            change (alignedTo "y" s) with (yearAligned s);
            change (alignedTo "M" s) with (monthAligned s);
            change (alignedTo "d" s) with (dayAligned s);
            change (alignedTo "h" s) with (hourAligned s);
            change (alignedTo "m" s) with (minuteAligned s);
            auto using yearAligned_month, monthAligned_day, dayAligned_hour,
              hourAligned_minute).
  all: try (change (floorTo msPerDay now) with (periodStart "d" now);
            apply periodStart_coarser; auto; intros s;
            change (alignedTo "d" s) with (dayAligned s);
            change (alignedTo "h" s) with (hourAligned s);
            change (alignedTo "m" s) with (minuteAligned s);
            auto using dayAligned_hour, hourAligned_minute).
  all: try lia.
Qed.

Lemma rounded_reference_round_trip_witness :
  parse systemTime "now/h" = Ok (UTC 2020 5 12 13 0 0 0) /\
  stringify systemTime (UTC 2020 5 12 13 0 0 0) = Ok "now/h" /\
  roundTrip systemTime (UTC 2020 5 12 13 0 0 0) = Ok (UTC 2020 5 12 13 0 0 0).
Proof.
  split; [reflexivity|]. split; [reflexivity|].
  apply (rounded_reference_round_trip systemTime _ "h").
  - cbn; tauto.
  - unfold timeValue, maxTime, systemTime; lia.
  - reflexivity.
Defined.

End StringifyBranches.

(** ** What [stringify] writes, [parse] reads *)

Section Parseable.

Local Open Scope string_scope.
Local Open Scope Z_scope.

Lemma toString_negative (p : positive) :
  toString (Some (Z.neg p)) = "-" ++ toString (Some (Z.pos p)).
Proof.
  unfold toString. cbn [Z.to_int NilZero.string_of_int append]. reflexivity.
Qed.

(** A sign in front of a minus sign is skipped by the scan. *)
Lemma match_all_skip_sign (sign r : string) :
  sign = "+" \/ sign = "-" ->
  match_all (sign ++ "-" ++ r) = match_all ("-" ++ r).
Proof.
  intros [-> | ->]; cbn [append]; rewrite match_all_step, operationRegex_scan;
    reflexivity.
Qed.

Lemma parse_returns_adjust (now n : Z) (sign u : string) :
  sign = "+" \/ sign = "-" -> In u unitCodes -> 0 < n ->
  exists r, parse now ("now" ++ sign ++ toString (Some n) ++ u) = Ok r.
Proof.
  intros Hs Hu Hn. rewrite (parse_adjust now n sign u Hs Hu Hn). eauto.
Qed.

Lemma parse_returns_adjust_round (now n : Z) (sign u v : string) :
  sign = "+" \/ sign = "-" -> In u unitCodes -> In v unitCodes -> 0 < n ->
  exists r,
    parse now ("now" ++ sign ++ toString (Some n) ++ u ++ "/" ++ v) = Ok r.
Proof.
  intros Hs Hu Hv Hn.
  replace (sign ++ toString (Some n) ++ u ++ "/" ++ v)
    with ((sign ++ toString (Some n) ++ u) ++ "/" ++ v)
    by (rewrite !append_assoc; reflexivity).
  rewrite (parse_adjust_round now n sign u v Hs Hu Hv Hn).
  apply applyRounding_returns, Hv.
Qed.

Lemma sign_cases (x : Z) :
  (if 0 <=? x then "+" else "-") = "+" \/
  (if 0 <=? x then "+" else "-") = "-".
Proof. destruct (0 <=? x); auto. Qed.

Lemma forEach_components_returns (sign : string) (cs : list (Z * string)) :
  sign = "+" \/ sign = "-" ->
  Forall (fun c => 0 < fst c /\ In (snd c) unitCodes) cs ->
  Forall token (map (component sign) cs) /\
  forall d : Date,
    exists r, forEach (map (component sign) cs) applyOperation d = Ok r.
Proof.
  intros Hs. induction 1 as [|[v l] cs [Hv Hl] _ [IHt IHr]]; cbn [map].
  - split; [constructor|]. intros d. cbn. eauto.
  - cbn [fst snd] in Hv, Hl. unfold component at 1 3. cbn [fst snd].
    split.
    + constructor; [|exact IHt].
      apply (applyOperation_adjust None sign v l Hs Hl Hv).
    + intros d. cbn [forEach].
      destruct (applyOperation_adjust d sign v l Hs Hl Hv) as [_ ->].
      cbn [bind]. apply IHr.
Qed.

Lemma hostBreakdown_components (us : list unit_entry) (x : Z) :
  (forall u, In u us -> In (label u) unitCodes) ->
  Forall (fun c => 0 < fst c /\ In (snd c) unitCodes)
         (filter (fun c => 0 <? fst c) (hostBreakdown us x)).
Proof.
  revert x. induction us as [|u us IH]; intros x Hl; cbn [hostBreakdown filter].
  - constructor.
  - cbn [fst].
    destruct (Z.ltb_spec 0 (floorDiv x (duration u))).
    + constructor.
      * cbn [fst snd]. split; [assumption|]. apply Hl. left. reflexivity.
      * apply IH. intros; apply Hl; right; assumption.
    + apply IH. intros; apply Hl; right; assumption.
Qed.

Lemma units_labels (u : unit_entry) : In u units -> In (label u) unitCodes.
Proof.
  cbn [units In]. intros H.
  repeat (destruct H as [<- | H]; [cbn; tauto|]). destruct H.
Qed.

(** What the [forEach] over the units writes, [parse] reads. *)
Lemma fallback_parses (now x : Z) (sign : string) :
  sign = "+" \/ sign = "-" ->
  exists r,
    parse now (snd (fold_left (breakdownStep sign) units (Some x, "now")))
    = Ok r.
Proof.
  intros Hs. rewrite fold_breakdownStep.
  pose proof (hostBreakdown_components units x units_labels) as Hc.
  destruct (forEach_components_returns _ _ Hs Hc) as [Ht Hr].
  rewrite parse_now, (match_all_join _ Ht). apply Hr.
Qed.

Lemma count_positive (x q : Z) :
  0 < q -> floorDiv (Z.abs x) q <> 0 -> 0 < floorDiv (Z.abs x) q.
Proof.
  intros Hq Hne.
  pose proof (floorDiv_nonneg (Z.abs x) q ltac:(lia) Hq). lia.
Qed.

(** X11.  [parse] reads whatever [stringify] writes: for every date, valid
    or not, [parse(stringify(date))] returns a date and throws neither the
    missing-prefix nor the invalid-sign error. *)
Theorem round_trip_never_throws (now : Z) (date : Date)
  (Hnow : timeValue now) :
  exists r, roundTrip now date = Ok r.
Proof.
  destruct date as [t|];
    [|rewrite (stringify_invalid_round now Hnow); eauto].
  assert (Hy : In "y" unitCodes) by (cbn; tauto).
  assert (HM : In "M" unitCodes) by (cbn; tauto).
  assert (Hw : In "w" unitCodes) by (cbn; tauto).
  assert (Hd : In "d" unitCodes) by (cbn; tauto).
  assert (Hh : In "h" unitCodes) by (cbn; tauto).
  assert (Hm : In "m" unitCodes) by (cbn; tauto).
  pose proof (sign_cases (t - now)) as Hs.
  unfold roundTrip. rewrite (stringify_host now t Hnow). cbv zeta.
  destruct (yearAligned t).
  { cbn [bind].
    destruct (Z.eqb_spec (rnd (YearFromTime t - YearFromTime now)) 0);
      cbn [negb].
    - eexists. change "now/y" with ("now" ++ "/" ++ "y").
      rewrite (parse_round now "y" Hy). apply applyRounding_periodStart; auto.
    - change "y/y" with ("y" ++ "/" ++ "y").
      apply parse_returns_adjust_round; auto. lia. }
  destruct (monthAligned t).
  { cbn [bind].
    destruct (Z.eqb_spec
                (rnd (rnd (rnd (rnd (YearFromTime t - YearFromTime now) * 12)
                           + MonthFromTime t)
                      - MonthFromTime now)) 0);
      cbn [negb].
    - eexists. change "now/M" with ("now" ++ "/" ++ "M").
      rewrite (parse_round now "M" HM). apply applyRounding_periodStart; auto.
    - apply parse_returns_adjust; auto. lia. }
  destruct (weekAligned t).
  { cbn [bind].
    set (total := floorDiv (rnd (t - floorTo msPerDay now))
                    (24 * 60 * 60 * 1000)).
    destruct (negb (floorDiv total 7 =? 0) || negb (Z.rem total 7 =? 0)).
    - destruct (rnd (rnd (floorDiv total 7 * 7) + Z.rem total 7))
        as [|p|p] eqn:Ev.
      + change (toString (Some 0)) with "0".
        destruct Hs as [-> | ->]; eexists; reflexivity.
      + change "d/w" with ("d" ++ "/" ++ "w").
        apply parse_returns_adjust_round; auto. lia.
      + rewrite toString_negative.
        set (sign := if 0 <=? t - now then "+" else "-") in *.
        rewrite !parse_now.
        replace (sign ++ ("-" ++ toString (Some (Z.pos p))) ++ "d/w")
          with (sign ++ "-" ++ (toString (Some (Z.pos p)) ++ "d/w"))
          by (rewrite !append_assoc; reflexivity).
        rewrite (match_all_skip_sign sign _ Hs), <- parse_now.
        change "d/w" with ("d" ++ "/" ++ "w").
        apply parse_returns_adjust_round; auto. lia.
    - eexists. change "now/w" with ("now" ++ "/" ++ "w").
      rewrite (parse_round now "w" Hw). apply applyRounding_periodStart; auto. }
  destruct (dayAligned t).
  { cbn [bind].
    destruct (Z.eqb_spec (floorDiv (Z.abs (rnd (t - now))) msInDay) 0);
      cbn [negb].
    - eexists. change "now/d" with ("now" ++ "/" ++ "d").
      rewrite (parse_round now "d" Hd). apply applyRounding_periodStart; auto.
    - apply parse_returns_adjust; auto.
      apply count_positive; [reflexivity|auto]. }
  destruct (hourAligned t).
  { cbn [bind].
    destruct (Z.eqb_spec (floorDiv (Z.abs (rnd (t - now))) msInHour) 0);
      cbn [negb].
    - eexists. change "now/h" with ("now" ++ "/" ++ "h").
      rewrite (parse_round now "h" Hh). apply applyRounding_periodStart; auto.
    - apply parse_returns_adjust; auto.
      apply count_positive; [reflexivity|auto]. }
  destruct (minuteAligned t).
  { cbn [bind].
    destruct (Z.eqb_spec (floorDiv (Z.abs (rnd (t - now))) msInMinute) 0);
      cbn [negb].
    - eexists. change "now/m" with ("now" ++ "/" ++ "m").
      rewrite (parse_round now "m" Hm). apply applyRounding_periodStart; auto.
    - apply parse_returns_adjust; auto.
      apply count_positive; [reflexivity|auto]. }
  cbn [bind]. apply fallback_parses, Hs.
Qed.

Lemma round_trip_never_throws_witness :
  timeValue systemTime /\
  stringify systemTime (UTC 2020 4 31 0 0 0 0) = Ok "now--19d/w" /\
  exists r, roundTrip systemTime (UTC 2020 4 31 0 0 0 0) = Ok r.
Proof.
  assert (Hnow : timeValue systemTime)
    by (unfold timeValue, maxTime, systemTime; lia).
  split; [exact Hnow|]. split; [reflexivity|].
  apply (round_trip_never_throws systemTime _ Hnow).
Defined.

(** *** Targets off the minute, within 30 days of the reference *)

Lemma unitMs_positive (u : string) : 0 < unitMs u.
Proof.
  unfold unitMs.
  repeat match goal with
         | |- context [(u =? ?c)%string] => destruct (u =? c)%string
         end; reflexivity.
Qed.

Lemma componentsMs_nonneg (cs : list (Z * string)) :
  Forall (fun c => 0 < fst c /\ In (snd c) fixedUnits) cs ->
  0 <= componentsMs cs.
Proof.
  induction 1 as [|[v l] cs [Hv _] _ IH]; cbn [componentsMs fold_right];
    [lia|].
  fold (componentsMs cs). cbn [fst snd] in *.
  pose proof (Z.mul_pos_pos v (unitMs l) Hv (unitMs_positive l)). lia.
Qed.

Lemma forEach_components_fixed (sign : string) (cs : list (Z * string)) :
  sign = "+" \/ sign = "-" ->
  Forall (fun c => 0 < fst c /\ In (snd c) fixedUnits) cs ->
  componentsMs cs + msPerDay <= two53 ->
  forall a : Z,
    timeValue a ->
    timeValue (a + (if (sign =? "+")%string then 1 else -1) * componentsMs cs) ->
    forEach (map (component sign) cs) applyOperation (Some a)
    = Ok (Some (a + (if (sign =? "+")%string then 1 else -1)
                    * componentsMs cs)).
Proof.
  intros Hs. induction 1 as [|[v l] cs [Hv Hl] Hcs IH]; intros Hsum a Ha Hend.
  - cbn. do 2 f_equal. cbn. lia.
  - cbn [fst snd] in Hv, Hl. cbn [map forEach]. unfold component at 1.
    cbn [fst snd].
    destruct (applyOperation_adjust (Some a) sign v l Hs
                (fixedUnits_unitCodes l Hl) Hv) as [_ ->].
    cbn [bind].
    cbn [componentsMs fold_right] in Hend, Hsum |- *.
    fold (componentsMs cs) in *.
    cbn [fst snd] in *.
    pose proof (componentsMs_nonneg cs Hcs) as Hnn.
    pose proof (Z.mul_pos_pos v (unitMs l) Hv (unitMs_positive l)) as Hp.
    pose proof (unitMs_at_least l) as Hul.
    assert (Hvb : v <= 1000000000000000)
      by (unfold two53, msPerDay in Hsum; nia).
    rewrite (rnd_small v) by (unfold two53; lia).
    rewrite (applyAdjustment_fixed a v sign l Hl ltac:(lia) ltac:(lia)).
    set (dir := if (sign =? "+")%string then 1 else -1) in *.
    assert (Hdir : dir = 1 \/ dir = -1)
      by (unfold dir; destruct (sign =? "+")%string; auto).
    assert (Hmid : timeValue (a + v * dir * unitMs l)).
    { unfold timeValue in *. destruct Hdir as [-> | ->]; nia. }
    rewrite (TimeClip_timeValue _ Hmid).
    rewrite IH; [do 2 f_equal; lia|lia|exact Hmid|].
    replace (a + v * dir * unitMs l + dir * componentsMs cs)
      with (a + dir * (v * unitMs l + componentsMs cs)) by lia.
    exact Hend.
Qed.

Lemma month_breakdown (x : Z) :
  0 <= x < msInMonth ->
  exists cs,
    filter (fun c => 0 <? fst c) (greedyBreakdown breakdownUnits x) = cs /\
    Forall (fun c => 0 < fst c /\ In (snd c) fixedUnits) cs /\
    componentsMs cs = 1000 * (x / 1000).
Proof.
  intros Hx. eexists. split; [reflexivity|].
  change msInMonth with 2592000000 in Hx.
  unfold breakdownUnits. cbn [greedyBreakdown filter fst].
  change (365 * 86400000) with 31536000000.
  change (30 * 86400000) with 2592000000.
  change (7 * 86400000) with 604800000.
  rewrite (Z.div_small x 31536000000) by lia.
  rewrite Z.mul_0_l, Z.sub_0_r.
  rewrite (Z.div_small x 2592000000) by exact Hx.
  rewrite Z.mul_0_l, Z.sub_0_r.
  change (0 <? 0) with false. cbv iota.
  set (w := x / 604800000). set (x1 := x - w * 604800000).
  set (d := x1 / 86400000). set (x2 := x1 - d * 86400000).
  set (h := x2 / 3600000). set (x3 := x2 - h * 3600000).
  set (m := x3 / 60000). set (x4 := x3 - m * 60000).
  set (sec := x4 / 1000).
  assert (Hw : 0 <= w) by (unfold w; Z.div_mod_to_equations; lia).
  assert (H1 : 0 <= x1) by (unfold x1, w; Z.div_mod_to_equations; lia).
  assert (Hd : 0 <= d) by (unfold d; Z.div_mod_to_equations; lia).
  assert (H2 : 0 <= x2) by (unfold x2, d; Z.div_mod_to_equations; lia).
  assert (Hh : 0 <= h) by (unfold h; Z.div_mod_to_equations; lia).
  assert (H3 : 0 <= x3) by (unfold x3, h; Z.div_mod_to_equations; lia).
  assert (Hm : 0 <= m) by (unfold m; Z.div_mod_to_equations; lia).
  assert (H4 : 0 <= x4) by (unfold x4, m; Z.div_mod_to_equations; lia).
  assert (Hs : 0 <= sec) by (unfold sec; Z.div_mod_to_equations; lia).
  assert (Hsum : w * 604800000 + d * 86400000 + h * 3600000 + m * 60000
                 + sec * 1000 = 1000 * (x / 1000)).
  { unfold sec, x4, m, x3, h, x2, d, x1, w in *.
    Z.div_mod_to_equations. lia. }
  assert (Hin : forall l, In l ["w"; "d"; "h"; "m"; "s"] -> In l fixedUnits)
    by (cbn; tauto).
  split.
  - repeat match goal with
           | |- context [0 <? ?v] => destruct (Z.ltb_spec 0 v)
           end;
      repeat (constructor;
              [cbn [fst snd]; split; [assumption|apply Hin; cbn; tauto]|]);
      constructor.
  - rewrite <- Hsum.
    repeat match goal with
           | |- context [0 <? ?v] => destruct (Z.ltb_spec 0 v)
           end;
      cbn [componentsMs fold_right fst snd];
      change (unitMs "w") with 604800000; change (unitMs "d") with 86400000;
      change (unitMs "h") with 3600000; change (unitMs "m") with 60000;
      change (unitMs "s") with 1000; lia.
Qed.

(** X12.  A target off the minute, less than 30 days from the reference,
    is written as weeks, days, hours, minutes and seconds that [parse] adds
    back: the round trip returns the target without its milliseconds beyond
    the last whole second of the difference, and the target itself when the
    difference is a whole number of seconds. *)
Theorem fallback_round_trip (now t : Z)
  (Hnow : timeValue now) (Ht : timeValue t)
  (Hmin : minuteAligned t = false)
  (Hnear : Z.abs (t - now) < msInMonth) :
  roundTrip now (Some t)
  = Ok (Some (if 0 <=? t - now
              then now + 1000 * ((t - now) / 1000)
              else now - 1000 * ((now - t) / 1000))) /\
  ((t - now) mod 1000 = 0 -> roundTrip now (Some t) = Ok (Some t)).
Proof.
  assert (Hnear2 : Z.abs (t - now) < two53)
    by (change msInMonth with 2592000000 in Hnear; unfold two53; lia).
  assert (Hmain : roundTrip now (Some t)
                  = Ok (Some (if 0 <=? t - now
                              then now + 1000 * ((t - now) / 1000)
                              else now - 1000 * ((now - t) / 1000)))).
  { unfold roundTrip.
    rewrite (stringify_fallbackText now t Hnow Hmin Hnear2).
    cbn [bind]. unfold fallbackText.
    destruct (month_breakdown (Z.abs (t - now)) ltac:(lia))
      as (cs & -> & Hcs & Hms).
    pose proof (sign_cases (t - now)) as Hs.
    set (sign := if 0 <=? t - now then "+" else "-") in *.
    assert (Hdir : (if (sign =? "+")%string then 1 else -1) * componentsMs cs
                   = if 0 <=? t - now
                     then 1000 * ((t - now) / 1000)
                     else - (1000 * ((now - t) / 1000))).
    { rewrite Hms. unfold sign.
      destruct (Z.leb_spec 0 (t - now)).
      - change (("+" =? "+")%string) with true. cbv iota.
        rewrite Z.abs_eq by lia. lia.
      - change (("-" =? "+")%string) with false. cbv iota.
        rewrite Z.abs_neq by lia.
        replace (- (t - now)) with (now - t) by lia. lia. }
    assert (Hend : timeValue
                     (now + (if (sign =? "+")%string then 1 else -1)
                            * componentsMs cs)).
    { rewrite Hdir. unfold timeValue in *.
      destruct (Z.leb_spec 0 (t - now)); Z.div_mod_to_equations; lia. }
    assert (Hsum : componentsMs cs + msPerDay <= two53).
    { rewrite Hms. change msInMonth with 2592000000 in Hnear.
      unfold msPerDay, two53. Z.div_mod_to_equations. lia. }
    pose proof (forEach_components_fixed sign cs Hs Hcs Hsum now Hnow Hend)
      as Hf.
    assert (Htok : Forall token (map (component sign) cs)).
    { apply forEach_components_returns; [exact Hs|].
      eapply Forall_impl; [|exact Hcs].
      intros c [H1 H2]. split; [exact H1|apply fixedUnits_unitCodes, H2]. }
    assert (Hparse : parse now ("now" ++ join (map (component sign) cs))
                     = Ok (Some (if 0 <=? t - now
                                 then now + 1000 * ((t - now) / 1000)
                                 else now - 1000 * ((now - t) / 1000)))).
    { rewrite parse_now, (match_all_join _ Htok), Hf, Hdir.
      do 2 f_equal. destruct (0 <=? t - now); lia. }
    destruct cs; exact Hparse. }
  split; [exact Hmain|].
  intros Hwhole. rewrite Hmain. do 2 f_equal.
  destruct (Z.leb_spec 0 (t - now)); Z.div_mod_to_equations; lia.
Qed.

Lemma fallback_round_trip_witness :
  stringify systemTime (UTC 2020 5 8 8 13 17 486) = Ok "now-4d-5h-7m" /\
  roundTrip systemTime (UTC 2020 5 8 8 13 17 486)
  = Ok (UTC 2020 5 8 8 13 17 486).
Proof.
  split; [reflexivity|].
  apply (fallback_round_trip systemTime 1591603997486).
  - unfold timeValue, maxTime, systemTime; lia.
  - unfold timeValue, maxTime; lia.
  - reflexivity.
  - vm_compute. reflexivity.
  - reflexivity.
Defined.

(** *** Targets at the start of a week *)

Lemma week_rounding_tail (now t N : Z) :
  timeValue now -> timeValue t -> weekAligned t = true ->
  timeValue (t - 7 * msPerDay) ->
  N = Day t - Day now \/ N = Day t - Day now - 7 ->
  applyRounding (TimeClip (now + N * msPerDay)) "w"
  = Ok (Some (msPerDay * (Day now + N))).
Proof.
  intros Hnow Ht Hweek Hprev HN.
  pose proof (timeIsZero_multiple t (weekAligned_day t Hweek)) as Hmul.
  assert (Hsun : WeekDay t = 0).
  { unfold weekAligned in Hweek. apply andb_true_iff in Hweek as [H _].
    apply Z.eqb_eq, H. }
  pose proof (Day_le now) as Hlo.
  assert (Hhi : now < msPerDay * (Day now + 1))
    by (unfold Day, msPerDay; Z.div_mod_to_equations; lia).
  assert (Hlast : Day t <> 100000000).
  { intros E. unfold WeekDay in Hsun. rewrite E in Hsun. discriminate Hsun. }
  assert (Ha : timeValue (now + N * msPerDay)).
  { unfold timeValue, maxTime, msPerDay in *. lia. }
  rewrite (TimeClip_timeValue _ Ha).
  rewrite (applyRounding_periodStart _ "w" ltac:(cbn; tauto) Ha).
  change (periodStart "w" (now + N * msPerDay))
    with (msPerDay * (Day (now + N * msPerDay) - WeekDay (now + N * msPerDay))).
  assert (Hsun' : WeekDay (now + N * msPerDay) = 0).
  { unfold WeekDay in *. rewrite Day_shift.
    destruct HN as [-> | ->]; Z.div_mod_to_equations; lia. }
  rewrite Hsun', Day_shift, Z.sub_0_r.
  apply f_equal, TimeClip_timeValue.
  unfold timeValue, maxTime, msPerDay in *. lia.
Qed.

(** X13.  A target at the start of a week, not the first of a month, is
    written as days from the reference with the rounding to the week, and
    [parse] returns it when it lies on or after the reference's day, or
    when the reference falls on a Sunday; for an earlier target and a
    reference on another weekday the text counts seven days too many and
    [parse] returns the start of the week before the target. *)
Theorem week_aligned_round_trip (now t : Z)
  (Hnow : timeValue now) (Ht : timeValue t)
  (Hweek : weekAligned t = true) (Hmonth : monthAligned t = false)
  (Hprev : timeValue (t - 7 * msPerDay)) :
  roundTrip now (Some t)
  = Ok (Some (if (Day now <=? Day t) || (WeekDay now =? 0)
              then t else t - 7 * msPerDay)).
Proof.
  pose proof (timeIsZero_multiple t (weekAligned_day t Hweek)) as Hmul.
  assert (Hsun : WeekDay t = 0).
  { unfold weekAligned in Hweek. apply andb_true_iff in Hweek as [H _].
    apply Z.eqb_eq, H. }
  pose proof (Day_le now) as Hlo.
  assert (Hhi : now < msPerDay * (Day now + 1))
    by (unfold Day, msPerDay; Z.div_mod_to_equations; lia).
  assert (Hw : In "w" unitCodes) by (cbn; tauto).
  assert (Hd : In "d" unitCodes) by (cbn; tauto).
  assert (Hfd : In "d" fixedUnits) by (cbn; tauto).
  unfold roundTrip. rewrite (stringify_cases now t Hnow Ht). cbv zeta.
  rewrite (monthAligned_false_year t Hmonth), Hmonth, Hweek. cbn [bind].
  assert (Htotal : (t - floorTo msPerDay now) / (24 * 60 * 60 * 1000)
                   = Day t - Day now).
  { rewrite Hmul at 1. unfold floorTo. fold (Day now).
    change (24 * 60 * 60 * 1000) with msPerDay.
    rewrite <- Z.mul_sub_distr_l, Z.mul_comm.
    apply Z.div_mul. discriminate. }
  rewrite Htotal. set (D := Day t - Day now) in *.
  assert (HDb : Z.abs D <= 200000000).
  { unfold D, timeValue, maxTime in *. unfold Day, msPerDay.
    Z.div_mod_to_equations. lia. }
  assert (Hmod : D mod 7 = 0 <-> WeekDay now = 0).
  { unfold D, WeekDay in *. Z.div_mod_to_equations. lia. }
  set (N := D / 7 * 7 + Z.rem D 7).
  assert (HN : (0 <= D -> N = D) /\
               (D < 0 -> D mod 7 = 0 -> N = D) /\
               (D < 0 -> D mod 7 <> 0 -> N = D - 7)).
  { unfold N. repeat split; intros; Z.to_euclidean_division_equations; lia. }
  destruct HN as (HN0 & HN1 & HN2).
  assert (Hcases : N = Day t - Day now \/ N = Day t - Day now - 7).
  { fold D. destruct (Z.eq_dec (D mod 7) 0); lia. }
  pose proof (week_rounding_tail now t N Hnow Ht Hweek Hprev Hcases) as Htail.
  assert (Hres : msPerDay * (Day now + N)
                 = if (Day now <=? Day t) || (WeekDay now =? 0)
                   then t else t - 7 * msPerDay).
  { destruct (Z.leb_spec (Day now) (Day t)); cbn [orb].
    - rewrite HN0 by (unfold D; lia). unfold D. lia.
    - destruct (Z.eqb_spec (WeekDay now) 0).
      + rewrite HN1 by (unfold D; lia || tauto). unfold D. lia.
      + rewrite HN2 by (unfold D; lia || tauto). unfold D. lia. }
  rewrite <- Hres, <- Htail.
  destruct (negb (D / 7 =? 0) || negb (Z.rem D 7 =? 0)) eqn:E.
  - assert (Hne : N <> 0).
    { apply orb_true_iff in E. rewrite !negb_true_iff, !Z.eqb_neq in E.
      unfold N. Z.to_euclidean_division_equations. lia. }
    destruct N as [|p|p] eqn:EN; [congruence| |].
    + assert (Hpos : 0 <= t - now).
      { assert (0 < D) by (destruct (Z.eq_dec (D mod 7) 0); lia).
        unfold D in *. unfold msPerDay in *. lia. }
      apply Z.leb_le in Hpos. rewrite Hpos.
      replace ("now" ++ "+" ++ toString (Some (Z.pos p)) ++ "d/w")
        with ("now" ++ ("+" ++ toString (Some (Z.pos p)) ++ "d") ++ "/" ++ "w")
        by (rewrite !append_assoc; reflexivity).
      rewrite (parse_adjust_round now (Z.pos p) "+" "d" "w"
                 (or_introl eq_refl) Hd Hw ltac:(lia)).
      rewrite (rnd_small (Z.pos p)) by (unfold two53; lia).
      rewrite (applyAdjustment_fixed now (Z.pos p) "+" "d" Hfd)
        by fixed_side.
      change (("+" =? "+")%string) with true. cbv iota.
      change (unitMs "d") with msPerDay. rewrite Z.mul_1_r. reflexivity.
    + assert (Hneg : t - now < 0).
      { assert (D < 0) by (destruct (Z.eq_dec (D mod 7) 0); lia).
        unfold D in *. unfold msPerDay in *. lia. }
      apply Z.leb_gt in Hneg. rewrite Hneg.
      rewrite toString_negative, !parse_now.
      replace ("-" ++ ("-" ++ toString (Some (Z.pos p))) ++ "d/w")
        with ("-" ++ "-" ++ (toString (Some (Z.pos p)) ++ "d/w"))
        by (rewrite !append_assoc; reflexivity).
      rewrite (match_all_skip_sign "-" _ (or_intror eq_refl)), <- parse_now.
      replace ("now" ++ "-" ++ toString (Some (Z.pos p)) ++ "d/w")
        with ("now" ++ ("-" ++ toString (Some (Z.pos p)) ++ "d") ++ "/" ++ "w")
        by (rewrite !append_assoc; reflexivity).
      rewrite (parse_adjust_round now (Z.pos p) "-" "d" "w"
                 (or_intror eq_refl) Hd Hw ltac:(lia)).
      rewrite (rnd_small (Z.pos p)) by (unfold two53; lia).
      rewrite (applyAdjustment_fixed now (Z.pos p) "-" "d" Hfd)
        by fixed_side.
      change (("-" =? "+")%string) with false. cbv iota.
      change (unitMs "d") with msPerDay.
      replace (Z.pos p * -1) with (Z.neg p) by lia. reflexivity.
  - assert (HN' : N = 0).
    { apply orb_false_iff in E. rewrite !negb_false_iff, !Z.eqb_eq in E.
      unfold N. lia. }
    rewrite HN'. change (now + 0 * msPerDay) with (now + 0).
    rewrite Z.add_0_r, (TimeClip_timeValue now Hnow).
    change "now/w" with ("now" ++ "/" ++ "w").
    apply (parse_round now "w" Hw).
Qed.

Lemma week_aligned_round_trip_witness :
  (stringify systemTime (UTC 2020 5 7 0 0 0 0) = Ok "now--12d/w" /\
   roundTrip systemTime (UTC 2020 5 7 0 0 0 0) = Ok (UTC 2020 4 31 0 0 0 0)) /\
  roundTrip systemTime (UTC 2020 5 21 0 0 0 0) = Ok (UTC 2020 5 21 0 0 0 0).
Proof.
  assert (Hnow : timeValue systemTime)
    by (unfold timeValue, maxTime, systemTime; lia).
  split; [split; [reflexivity|]|].
  - apply (week_aligned_round_trip systemTime 1591488000000 Hnow);
      [unfold timeValue, maxTime; lia|reflexivity|reflexivity|].
    unfold timeValue, maxTime, msPerDay; lia.
  - apply (week_aligned_round_trip systemTime 1592697600000 Hnow);
      [unfold timeValue, maxTime; lia|reflexivity|reflexivity|].
    unfold timeValue, maxTime, msPerDay; lia.
Defined.

(** *** Targets at the start of a day, an hour or a minute *)

Lemma drift_text (now t : Z) (u : string) :
  In u ["d"; "h"; "m"] -> timeValue now -> timeValue t ->
  Z.abs (t - now) + msPerDay <= two53 ->
  alignedTo u t = true ->
  let count := Z.abs (t - now) / unitMs u in
  let r := if count =? 0 then floorTo (unitMs u) now
           else if 0 <=? t - now then now + count * unitMs u
                else now - count * unitMs u in
  parse now (if negb (count =? 0)
             then "now" ++ (if 0 <=? t - now then "+" else "-")
                  ++ toString (Some count) ++ u
             else "now" ++ "/" ++ u)
  = Ok (Some r) /\
  (r = t <-> (t - now) mod unitMs u = 0 \/ now - unitMs u < t <= now).
Proof.
  intros Hu Hnow Ht Hnear Hal.
  assert (Hc : In u unitCodes) by (cbn in Hu |- *; tauto).
  assert (Hf : In u fixedUnits) by (cbn in Hu |- *; tauto).
  pose proof (aligned_periodStart u t Hc Hal) as Hmul.
  assert (Hper : forall x, periodStart u x = floorTo (unitMs u) x).
  { intros x. cbn [In] in Hu.
    destruct Hu as [<- | [<- | [<- | []]]]; reflexivity. }
  rewrite Hper in Hmul.
  assert (Hq : unitMs u = 86400000 \/ unitMs u = 3600000 \/ unitMs u = 60000).
  { cbn [In] in Hu. destruct Hu as [<- | [<- | [<- | []]]]; cbn; tauto. }
  pose proof (sign_cases (t - now)) as Hs.
  cbv zeta. set (q := unitMs u) in *. set (count := Z.abs (t - now) / q).
  unfold floorTo in Hmul |- *. unfold timeValue, maxTime in Hnow, Ht.
  destruct (Z.eqb_spec count 0) as [E|E]; cbn [negb].
  - split.
    + rewrite (parse_round now u Hc).
      rewrite (applyRounding_periodStart now u Hc
                 ltac:(unfold timeValue, maxTime; lia)).
      rewrite Hper. fold q. unfold floorTo.
      apply f_equal, TimeClip_timeValue. unfold timeValue, maxTime.
      destruct Hq as [-> | [-> | ->]]; Z.div_mod_to_equations; lia.
    + unfold count in E.
      destruct Hq as [Hq | [Hq | Hq]]; rewrite Hq in *;
        Z.div_mod_to_equations; lia.
  - assert (Hpos : 0 < count).
    { unfold count in *.
      destruct Hq as [Hq | [Hq | Hq]]; rewrite Hq in *;
        Z.div_mod_to_equations; lia. }
    assert (Hcq : count * q <= Z.abs (t - now)).
    { unfold count. rewrite Z.mul_comm. apply Z.mul_div_le.
      destruct Hq as [-> | [-> | ->]]; reflexivity. }
    assert (Hcb : 0 <= count <= 1000000000000000).
    { unfold two53, msPerDay in Hnear.
      destruct Hq as [Hq | [Hq | Hq]]; rewrite Hq in Hcq; lia. }
    split.
    + rewrite (parse_adjust now count _ u Hs Hc Hpos).
      rewrite (rnd_small count) by (unfold two53; lia).
      rewrite (applyAdjustment_fixed now count _ u Hf Hcb)
        by (intros _; fold q; lia).
      fold q.
      set (sign := if 0 <=? t - now then "+" else "-").
      assert (Hr : now + count * (if (sign =? "+")%string then 1 else -1) * q
                   = if 0 <=? t - now then now + count * q
                     else now - count * q).
      { unfold sign. destruct (0 <=? t - now).
        - change (("+" =? "+")%string) with true. cbv iota. lia.
        - change (("-" =? "+")%string) with false. cbv iota. lia. }
      rewrite Hr. apply f_equal, TimeClip_timeValue.
      unfold timeValue, maxTime, count.
      destruct (Z.leb_spec 0 (t - now));
        destruct Hq as [Hq | [Hq | Hq]]; rewrite Hq in *;
        Z.div_mod_to_equations; lia.
    + unfold count in *.
      destruct (Z.leb_spec 0 (t - now));
        destruct Hq as [Hq | [Hq | Hq]]; rewrite Hq in *;
        Z.div_mod_to_equations; lia.
Qed.

(** X14.  A target at the start of a day (not of a week or a month), of an
    hour or of a minute, at most 2^53 ms less a day from the reference, is
    written as a whole number of that unit from the reference, without a
    rounding suffix, so [parse] returns the reference moved by whole units:
    the round trip returns the target exactly when the reference is a whole
    number of units away from it, or less than one unit after it. *)
Theorem aligned_round_trip_drift (now t : Z) (u : string)
  (Hu : In u ["d"; "h"; "m"])
  (Hnow : timeValue now) (Ht : timeValue t)
  (Hnear : Z.abs (t - now) + msPerDay <= two53)
  (Hp : precision t = u) :
  roundTrip now (Some t)
  = Ok (Some (if Z.abs (t - now) / unitMs u =? 0
              then floorTo (unitMs u) now
              else if 0 <=? t - now
                   then now + Z.abs (t - now) / unitMs u * unitMs u
                   else now - Z.abs (t - now) / unitMs u * unitMs u)) /\
  (roundTrip now (Some t) = Ok (Some t)
   <-> (t - now) mod unitMs u = 0 \/ now - unitMs u < t <= now).
Proof.
  assert (Hal : alignedTo u t = true).
  { unfold precision in Hp. cbn [In] in Hu.
    destruct (yearAligned t), (monthAligned t), (weekAligned t),
      (dayAligned t) eqn:Ed, (hourAligned t) eqn:Eh,
      (minuteAligned t) eqn:Em;
      subst u; destruct Hu as [Hu | [Hu | [Hu | []]]];
      try discriminate Hu;
      cbv beta iota delta [alignedTo String.eqb Ascii.eqb Bool.eqb];
      assumption. }
  destruct (drift_text now t u Hu Hnow Ht Hnear Hal) as [Hparse Hiff].
  assert (Hnear' : Z.abs (t - now) < two53) by (unfold msPerDay in Hnear; lia).
  assert (Hround : roundTrip now (Some t)
                   = Ok (Some (if Z.abs (t - now) / unitMs u =? 0
                               then floorTo (unitMs u) now
                               else if 0 <=? t - now
                                    then now + Z.abs (t - now) / unitMs u
                                               * unitMs u
                                    else now - Z.abs (t - now) / unitMs u
                                               * unitMs u))).
  { rewrite <- Hparse. unfold roundTrip.
    rewrite (stringify_cases_near now t Hnow Ht Hnear'). cbv zeta.
    unfold precision in Hp. cbn [In] in Hu.
    destruct (yearAligned t), (monthAligned t), (weekAligned t),
      (dayAligned t), (hourAligned t), (minuteAligned t);
      subst u; destruct Hu as [Hu | [Hu | [Hu | []]]];
      try discriminate Hu; reflexivity. }
  split; [exact Hround|].
  rewrite Hround. rewrite <- Hiff.
  split; intros H; [apply Ok_inj in H; congruence|rewrite H; reflexivity].
Qed.

Lemma aligned_round_trip_drift_witness :
  roundTrip systemTime (UTC 2020 5 12 10 0 0 0)
  = Ok (UTC 2020 5 12 10 20 17 486) /\
  roundTrip systemTime (UTC 2020 5 12 13 20 0 0)
  = Ok (UTC 2020 5 12 13 20 0 0).
Proof.
  assert (Hnow : timeValue systemTime)
    by (unfold timeValue, maxTime, systemTime; lia).
  split.
  - apply (aligned_round_trip_drift systemTime 1591956000000 "h");
      [cbn; tauto|exact Hnow|unfold timeValue, maxTime; lia
      |vm_compute; discriminate|reflexivity].
  - apply (aligned_round_trip_drift systemTime 1591968000000 "m");
      [cbn; tauto|exact Hnow|unfold timeValue, maxTime; lia
      |vm_compute; discriminate|reflexivity|].
    right. unfold systemTime. cbn. lia.
Defined.

(** *** Targets at the start of a month *)

Lemma Year_le_time (a b : Z) : a <= b -> YearFromTime a <= YearFromTime b.
Proof.
  intros Hab.
  destruct (Z_lt_le_dec (YearFromTime b) (YearFromTime a)) as [H|H];
    [apply Year_lt_time in H; lia|exact H].
Qed.

(** Years and months count up with time. *)
Lemma month_index_mono (a b : Z) :
  a <= b ->
  YearFromTime a * 12 + MonthFromTime a
  <= YearFromTime b * 12 + MonthFromTime b.
Proof.
  intros Hab.
  pose proof (Year_le_time a b Hab) as Hy.
  pose proof (MonthFromTime_range a) as Ha.
  pose proof (MonthFromTime_range b) as Hb.
  destruct (Z.eq_dec (YearFromTime a) (YearFromTime b)) as [E|E]; [|lia].
  assert (Hd : DayWithinYear a <= DayWithinYear b).
  { unfold DayWithinYear. rewrite E.
    assert (Day a <= Day b)
      by (unfold Day, msPerDay; Z.div_mod_to_equations; lia).
    lia. }
  assert (Hl : InLeapYear a = InLeapYear b)
    by (unfold InLeapYear; rewrite E; reflexivity).
  pose proof (InLeapYear_cases b) as Hc.
  rewrite E. apply Z.add_le_mono_l.
  clear Ha Hb. unfold MonthFromTime. cbv zeta. rewrite Hl.
  repeat match goal with
         | |- context [?x <? ?y] => destruct (Z.ltb_spec x y)
         end; lia.
Qed.

Lemma timeIsZero_TimeWithinDay (s : Z) :
  timeIsZero s = true <-> TimeWithinDay s = 0.
Proof.
  pose proof (MakeDate_Day s) as Hm. unfold MakeDate in Hm.
  split; intros H.
  - apply timeIsZero_multiple in H. lia.
  - replace s with (msPerDay * Day s) by lia.
    apply multiple_of_day_timeIsZero.
Qed.

Lemma applyAdjustment_month (a n : Z) (sign : string) :
  0 <= n <= 1000000000000000 ->
  applyAdjustment (Some a) sign n "M"
  = TimeClip (MakeDate (MakeDay (YearFromTime a)
                                (MonthFromTime a
                                 + n * (if (sign =? "+")%string then 1 else -1))
                                (DateFromTime a))
                       (TimeWithinDay a)).
Proof.
  intros Hn.
  change (applyAdjustment (Some a) sign n "M")
    with (setUTCMonth1 (Some a)
            (Some (rnd (MonthFromTime a
                        + rnd (n * (if (sign =? "+")%string
                                    then 1 else -1)))))).
  pose proof (MonthFromTime_range a) as HM.
  rewrite adjusted_field_1;
    [reflexivity|lia|exact Hn|destruct (sign =? "+")%string; auto].
Qed.

(** X15.  A target at the start of a month other than January is written
    as whole months from the reference, without a rounding suffix, so
    [parse] moves the reference's month and keeps its day of the month and
    its time of day: the round trip returns the target only when the
    target's month is the reference's, or the reference is itself the start
    of a month. *)
Theorem month_aligned_round_trip (now t : Z)
  (Hnow : timeValue now) (Ht : timeValue t)
  (Hp : precision t = "M") :
  roundTrip now (Some t)
  = Ok (if (YearFromTime t - YearFromTime now) * 12 + MonthFromTime t
           - MonthFromTime now =? 0
        then Some t
        else TimeClip (t + (DateFromTime now - 1) * msPerDay
                       + TimeWithinDay now)) /\
  (roundTrip now (Some t) = Ok (Some t)
   <-> (YearFromTime t = YearFromTime now /\
        MonthFromTime t = MonthFromTime now) \/
       monthAligned now = true).
Proof.
  assert (Hal : yearAligned t = false /\ monthAligned t = true).
  { unfold precision in Hp.
    destruct (yearAligned t); [discriminate Hp|].
    destruct (monthAligned t); [tauto|].
    destruct (weekAligned t), (dayAligned t), (hourAligned t),
      (minuteAligned t); discriminate Hp. }
  destruct Hal as [Hyear Hmonth].
  assert (HM : In "M" unitCodes) by (cbn; tauto).
  pose proof (MonthFromTime_range t) as Hrt.
  pose proof (MonthFromTime_range now) as Hrn.
  pose proof (DateFromTime_1_31 now) as Hdn.
  pose proof (TimeWithinDay_range now) as Hwn.
  pose proof (timeIsZero_multiple t (monthAligned_day t Hmonth)) as Hmul.
  assert (Hfirst : DateFromTime t = 1).
  { unfold monthAligned in Hmonth. apply andb_true_iff in Hmonth as [H _].
    apply Z.eqb_eq, H. }
  set (months := (YearFromTime t - YearFromTime now) * 12 + MonthFromTime t
                 - MonthFromTime now).
  assert (Hround : roundTrip now (Some t)
                   = Ok (if months =? 0 then Some t
                         else TimeClip (t + (DateFromTime now - 1) * msPerDay
                                        + TimeWithinDay now))).
  { destruct (Z.eqb_spec months 0) as [E|E].
    - apply (zero_form_M now t Hnow Ht Hyear Hmonth).
      change (periodStart "M" now)
        with (msPerDay * (Day now - (DateFromTime now - 1))).
      pose proof (firstOfMonth_MakeDate now 0) as Hf.
      rewrite Z.add_0_r in Hf. rewrite Hf.
      replace (YearFromTime now) with (YearFromTime t) by (unfold months in E; lia).
      replace (MonthFromTime now) with (MonthFromTime t)
        by (unfold months in E; lia).
      rewrite <- Hfirst at 1. rewrite MakeDay_DateFromTime.
      unfold MakeDate. lia.
    - unfold roundTrip. rewrite (stringify_cases now t Hnow Ht). cbv zeta.
      rewrite Hyear, Hmonth. fold months.
      apply Z.eqb_neq in E. rewrite E. cbn [negb bind].
      apply Z.eqb_neq in E.
      pose proof (sign_cases (t - now)) as Hs.
      rewrite (parse_adjust now (Z.abs months) _ "M" Hs HM ltac:(lia)).
      pose proof (YearFromTime_bound t Ht) as Hyt.
      pose proof (YearFromTime_bound now Hnow) as Hyn.
      assert (Hmb : Z.abs months <= 10000000) by (unfold months; lia).
      rewrite (rnd_small (Z.abs months)) by (unfold two53; lia).
      f_equal.
      set (sign := if 0 <=? t - now then "+" else "-").
      assert (Hdir : Z.abs months
                     * (if (sign =? "+")%string then 1 else -1) = months).
      { unfold sign. destruct (Z.leb_spec 0 (t - now)).
        - change (("+" =? "+")%string) with true. cbv iota.
          pose proof (month_index_mono now t ltac:(lia)).
          unfold months in *. lia.
        - change (("-" =? "+")%string) with false. cbv iota.
          pose proof (month_index_mono t now ltac:(lia)).
          unfold months in *. lia. }
      rewrite applyAdjustment_month by lia. rewrite Hdir. f_equal. unfold MakeDate. 
      rewrite MakeDay_normalize.
      replace (MonthFromTime now + months)
        with (MonthFromTime t + (YearFromTime t - YearFromTime now) * 12)
        by (unfold months; lia).
      rewrite Z.div_add, Z.mod_add, (Z.div_small (MonthFromTime t)),
        (Z.mod_small (MonthFromTime t)) by lia.
      replace (YearFromTime now + (0 + (YearFromTime t - YearFromTime now)))
        with (YearFromTime t) by lia.
      pose proof (MakeDay_DateFromTime t (DateFromTime now - 1)) as Hk.
      rewrite Hfirst, Z.add_sub_assoc, Z.add_simpl_l in Hk.
      rewrite Hk. lia. }
  split; [exact Hround|].
  rewrite Hround.
  destruct (Z.eqb_spec months 0) as [E|E].
  - split; [|reflexivity]. intros _. left. unfold months in E. lia.
  - split.
    + intros H. right. apply Ok_inj in H.
      apply TimeClip_Some in H as [H _].
      unfold monthAligned. apply andb_true_iff. split.
      * apply Z.eqb_eq. unfold msPerDay in *. lia.
      * apply timeIsZero_TimeWithinDay. unfold msPerDay in *. lia.
    + intros [[H1 H2] | H]; [unfold months in E; lia|].
      unfold monthAligned in H. apply andb_true_iff in H as [H1 H2].
      apply Z.eqb_eq in H1. apply timeIsZero_TimeWithinDay in H2.
      rewrite H1, H2, Z.add_0_r, Z.sub_diag, Z.mul_0_l, Z.add_0_r.
      rewrite (TimeClip_timeValue t Ht). reflexivity.
Qed.

Lemma month_aligned_round_trip_witness :
  roundTrip systemTime (UTC 2020 4 1 0 0 0 0)
  = Ok (UTC 2020 4 12 13 20 17 486) /\
  roundTrip (msPerDay * 18414) (UTC 2020 4 1 0 0 0 0)
  = Ok (UTC 2020 4 1 0 0 0 0).
Proof.
  split.
  - apply (month_aligned_round_trip systemTime 1588291200000);
      [unfold timeValue, maxTime, systemTime; lia
      |unfold timeValue, maxTime; lia|reflexivity].
  - apply (month_aligned_round_trip (msPerDay * 18414) 1588291200000);
      [unfold timeValue, maxTime, msPerDay; lia
      |unfold timeValue, maxTime; lia|reflexivity|].
    right. reflexivity.
Defined.

End Parseable.
